(** * Forex-bot core: price monitor and trade executor

    A shallow embedding of [Backend/core/monitor.py] (class [PriceMonitor])
    and [Backend/core/trade.py] (class [TradeExecutor]), and the properties
    that the specification states about them; then the facade of
    [Backend/core/broker.py] (class [BrokerConnection]) over the
    MetaTrader5 package and the helpers of [Backend/config/settings.py],
    with properties of their own.

    - Python floats are IEEE binary64 numbers: Rocq's primitive floats,
      compared with [PrimFloat.leb] and [PrimFloat.ltb].
    - The broker ([BrokerConnection]), the clock, [time.sleep] and the stop
      event of the monitoring thread are the outside world: an interface
      [Env] over an abstract world state, in which an order, a close and a
      sleep may raise.  The theorems hold for every such world; closed
      examples run on a scripted broker.
    - A symbol is whatever value the caller passed: the code checks no
      type, and a value that cannot be hashed makes the monitor's set
      raise [TypeError].
    - Each method is a function in a state-and-exception monad over the
      world, the monitor, the executor and the lock.  A Python exception is
      an outcome [Raise], so [try]/[except] and [with] are modelled as the
      code has them.
    - The events of a run (lock operations, broker calls, sleeps, log
      records) are recorded in order; the properties about retries and
      about the lock are read off this trace.
    - The monitoring loop has no bound of its own; the model runs it for a
      given number of cycles at most. *)

From Stdlib Require Import ZArith Floats Ascii String List Bool Lia.
From stdpp Require Import gmap strings list fin_maps.

Open Scope Z_scope.
Open Scope string_scope.
Open Scope list_scope.
Set Warnings "-inexact-float,-clear-no-such-hyp".

(** ** Python values *)

(** The values a caller can put in an instruction dict ([Dict[str, Any]]):
    what [json.load] yields.  A list or a dict is kept as its JSON text:
    the code looks into none, and two of them are [==] when they have the
    same text.  Where the code compares two symbols with [==] or [!=], the
    model compares the values: for a [str], which equals no value of
    another type, this is Python's comparison. *)
Inductive pyval : Type :=
| PyNone
| PyBool (b : bool)
| PyInt (z : Z)
| PyFloat (f : float)
| PyStr (s : string)
| PyContainer (json : string).

(** [hash(v)] returns: a list and a dict are unhashable, and a [set] or a
    [dict] that is given one as element or key raises [TypeError]. *)
Definition hashable (v : pyval) : bool :=
  match v with
  | PyContainer _ => false
  | _ => true
  end.

(** Python values as elements of sets and keys of maps.  Equality of two
    floats is decidable and the floats can be enumerated, through their
    decomposition into sign, mantissa and exponent; no example computes
    with either. *)
#[global] Instance spec_float_eq_dec : EqDecision spec_float.
Proof. solve_decision. Defined.

#[global] Instance float_eq_dec : EqDecision float.
Proof.
  intros x y. destruct (decide (Prim2SF x = Prim2SF y)) as [H|H].
  - left. now apply Prim2SF_inj.
  - right. intros ->. now apply H.
Qed.

#[global] Instance pyval_eq_dec : EqDecision pyval.
Proof. solve_decision. Defined.

Definition spec_float_code (sf : spec_float)
  : bool + bool + (unit + bool * positive * Z) :=
  match sf with
  | S754_zero s => inl (inl s)
  | S754_infinity s => inl (inr s)
  | S754_nan => inr (inl tt)
  | S754_finite s m e => inr (inr (s, m, e))
  end.

Definition spec_float_decode (c : bool + bool + (unit + bool * positive * Z))
  : spec_float :=
  match c with
  | inl (inl s) => S754_zero s
  | inl (inr s) => S754_infinity s
  | inr (inl _) => S754_nan
  | inr (inr (s, m, e)) => S754_finite s m e
  end.

#[global] Instance spec_float_countable : Countable spec_float :=
  inj_countable' spec_float_code spec_float_decode
    (fun sf => match sf with
               | S754_zero _ | S754_infinity _ | S754_nan
               | S754_finite _ _ _ => eq_refl
               end).

#[global] Instance float_countable : Countable float.
Proof. exact (inj_countable' Prim2SF SF2Prim SF2Prim_Prim2SF). Qed.

Definition pyval_code (v : pyval)
  : unit + bool + (Z + float + (string + string)) :=
  match v with
  | PyNone => inl (inl tt)
  | PyBool b => inl (inr b)
  | PyInt z => inr (inl (inl z))
  | PyFloat f => inr (inl (inr f))
  | PyStr s => inr (inr (inl s))
  | PyContainer j => inr (inr (inr j))
  end.

Definition pyval_decode (c : unit + bool + (Z + float + (string + string)))
  : pyval :=
  match c with
  | inl (inl _) => PyNone
  | inl (inr b) => PyBool b
  | inr (inl (inl z)) => PyInt z
  | inr (inl (inr f)) => PyFloat f
  | inr (inr (inl s)) => PyStr s
  | inr (inr (inr j)) => PyContainer j
  end.

#[global] Instance pyval_countable : Countable pyval :=
  inj_countable' pyval_code pyval_decode
    (fun v => match v with
              | PyNone | PyBool _ | PyInt _ | PyFloat _ | PyStr _
              | PyContainer _ => eq_refl
              end).

(** The exceptions that the modelled code can raise. *)
Inductive exn : Type :=
| ValueError
| TypeError
| OverflowError
| AttributeError
| KeyError.

Inductive outcome (A : Type) : Type :=
| Return (a : A)
| Raise (e : exn).
Arguments Return {A} a.
Arguments Raise {A} e.

(** [str.lower()] on the ASCII letters; the two strings it is compared with,
    "buy" and "sell", are ASCII, and no other character lowers to one of
    their letters. *)
Definition lower_ascii (c : ascii) : ascii :=
  let n := nat_of_ascii c in
  if (Nat.leb 65 n && Nat.leb n 90)%bool then ascii_of_nat (n + 32) else c.

Fixpoint lower (s : string) : string :=
  match s with
  | EmptyString => EmptyString
  | String c s' => String (lower_ascii c) (lower s')
  end.

(** [v.lower()] for an arbitrary value: only [str] has the method. *)
Definition py_lower (v : pyval) : outcome string :=
  match v with
  | PyStr s => Return (lower s)
  | _ => Raise AttributeError
  end.

(** [float(z)] for a Python [int]: rounded to the nearest binary64, ties to
    even; [OverflowError] when the rounded value is out of range. *)
Definition int_to_float (z : Z) : outcome float :=
  match binary_normalize FloatOps.prec FloatOps.emax z 0 false with
  | S754_infinity _ => Raise OverflowError
  | sf => Return (SF2Prim sf)
  end.

(** The builtin [float(v)].  Parsing a [str] is the interpreter's:
    [str_to_float s] is the parsed number, [None] when [float] raises
    [ValueError]. *)
Definition py_float (str_to_float : string -> option float) (v : pyval)
  : outcome float :=
  match v with
  | PyNone => Raise TypeError
  | PyBool b => Return (if b then 1%float else 0%float)
  | PyInt z => int_to_float z
  | PyFloat f => Return f
  | PyStr s =>
      match str_to_float s with
      | Some f => Return f
      | None => Raise ValueError
      end
  | PyContainer _ => Raise TypeError
  end.

(** ** Data model *)

(** A quote as the broker returns it: a dict with "bid" and "ask" and,
    from the MT5 back end, "time". *)
Record Quote : Type := mkQuote {
  bid : float;
  ask : float;
  time : option float
}.

Inductive OrderType : Type := BUY | SELL.

(** An open position as [get_positions] lists it.  The code reads
    [position["symbol"]], [position["ticket"]], [position.get("type", "")],
    [position.get("take_profit")] and [position.get("stop_loss")].
    [pos_type] is [None] when the dict has no key "type" and else the value
    under the key, whatever it is; a level is [None] when its key is
    absent or holds [None], the two cases that [position.get(...) is None]
    does not tell apart. *)
Record Position : Type := mkPosition {
  pos_ticket : Z;
  pos_symbol : string;
  pos_type : option pyval;
  pos_take_profit : option float;
  pos_stop_loss : option float
}.

(** The caller's instruction dict, restricted to the keys that the code
    reads; a field is [None] when its key is absent, and else the value
    under the key, an arbitrary Python value. *)
Record RawInstruction : Type := mkRaw {
  raw_symbol : option pyval;
  raw_entry_price : option pyval;
  raw_exit_price : option pyval;
  raw_stop_loss : option pyval;
  raw_lot_size : option pyval;
  raw_direction : option pyval;
  raw_comment : option pyval
}.

(** Modelled from the spec: the class [TradeInstruction] is imported by
    [trade.py] and not defined in the sources.  It is a record of the
    constructor's keyword arguments, kept as they are passed (the symbol
    is whatever value the dict held), and an [id], unique and monotonic. *)
Record TradeInstruction : Type := mkInstruction {
  ti_id : Z;
  ti_symbol : pyval;
  ti_entry_price : float;
  ti_exit_price : float;
  ti_stop_loss : float;
  ti_lot_size : float;
  ti_direction : string;
  ti_comment : pyval
}.

(** Modelled from the spec: the class [ActiveTrade] is imported by
    [trade.py] and not defined in the sources; it is a record of the
    constructor's keyword arguments. *)
Record ActiveTrade : Type := mkTrade {
  ticket : Z;
  symbol : pyval;
  entry_price : float;
  exit_price : float;
  stop_loss : float;
  lot_size : float;
  direction : string;
  comment : pyval;
  entry_time : float
}.

(** The bound methods that [TradeExecutor.__init__] registers with the
    monitor; the monitor keeps them in three lists. *)
Inductive callback : Type :=
| on_entry_condition
| on_exit_condition
| on_sl_condition.

(** The fields of a [PriceMonitor].  The watch-list is a [set] and the
    cache a [dict]: their elements and keys are the symbols as they were
    passed, values of any hashable kind. *)
Record Monitor : Type := mkMonitor {
  update_interval : float;
  symbols_to_monitor : gset pyval;
  price_data : gmap pyval Quote;
  entry_callbacks : list callback;
  exit_callbacks : list callback;
  sl_callbacks : list callback
}.

(** The fields of a [TradeExecutor].  [instruction_counter] is the source
    of the instruction ids (see [TradeInstruction]). *)
Record Executor : Type := mkExecutor {
  max_retries : Z;
  retry_delay : float;
  trade_instructions : list TradeInstruction;
  active_trades : list ActiveTrade;
  instruction_counter : Z
}.

(** ** Events *)

Inductive log_level : Type := INFO | WARNING | ERROR.

Inductive event : Type :=
| EAcquire                       (* trade_lock acquired *)
| ERelease                       (* trade_lock released *)
| EIsConnected                   (* broker.is_connected() *)
| EGetPrice (s : pyval)          (* broker.get_price(s) *)
| EGetPositions                  (* broker.get_positions() *)
| EPlaceOrder (s : pyval) (o : OrderType)    (* broker.place_market_order *)
| EClosePosition (t : Z)         (* broker.close_position(t) *)
| ESleep (d : float)             (* time.sleep(d) *)
| EClock                         (* time.time() / datetime.now() *)
| EStopCheck                     (* _stop_monitoring.is_set() *)
| ELog (l : log_level).

(** ** The outside world *)

(** The broker connection, the clock, [time.sleep] and the stop event,
    over a world state [W] that each call may change.  The two calls that
    send a request, [place_market_order] and [close_position], may raise:
    the repository's [BrokerConnection] raises [AttributeError] when the
    terminal returns no result (below).  [time.sleep] may raise as well:
    the interpreter's raises [ValueError] for a negative delay and for NaN,
    and [OverflowError] for a delay beyond its range. *)
Record Env (W : Type) : Type := mkEnv {
  is_connected : W -> bool * W;
  broker_get_price : pyval -> W -> option Quote * W;
  get_positions : W -> list Position * W;
  place_market_order :
    pyval -> OrderType -> float -> float -> float -> pyval -> W
    -> outcome (option Z) * W;
  close_position : Z -> W -> outcome bool * W;
  time_time : W -> float * W;
  time_sleep : float -> W -> outcome unit * W;
  stop_is_set : W -> bool * W;
  str_to_float : string -> option float
}.
Arguments is_connected {W} _ _.
Arguments broker_get_price {W} _ _ _.
Arguments get_positions {W} _ _.
Arguments place_market_order {W} _ _ _ _ _ _ _ _.
Arguments close_position {W} _ _ _.
Arguments time_time {W} _ _.
Arguments time_sleep {W} _ _ _.
Arguments stop_is_set {W} _ _.
Arguments str_to_float {W} _ _.

(** ** State and monad *)

(** The whole system: the world, the two objects, the recursion depth of
    the executor's [RLock] and the events so far, oldest first. *)
Record State (W : Type) : Type := mkState {
  world : W;
  monitor : Monitor;
  executor : Executor;
  lock_depth : nat;
  trace : list event
}.
Arguments mkState {W} _ _ _ _ _.
Arguments world {W} _.
Arguments monitor {W} _.
Arguments executor {W} _.
Arguments lock_depth {W} _.
Arguments trace {W} _.

Definition M (W A : Type) : Type := State W -> outcome A * State W.

Definition ret {W A} (a : A) : M W A := fun st => (Return a, st).

Definition raise {W A} (e : exn) : M W A := fun st => (Raise e, st).

Definition bind {W A B} (m : M W A) (k : A -> M W B) : M W B :=
  fun st =>
    match m st with
    | (Return a, st') => k a st'
    | (Raise e, st') => (Raise e, st')
    end.

Declare Scope py_scope.
Delimit Scope py_scope with py.
Notation "x <- m ;; k" := (bind m (fun x => k))
  (at level 100, m at next level, right associativity) : py_scope.
Notation "m ;;; k" := (bind m (fun _ => k))
  (at level 100, right associativity) : py_scope.
Open Scope py_scope.

(** [try: m except Exception: h]. *)
Definition try_except {W A} (m : M W A) (h : exn -> M W A) : M W A :=
  fun st =>
    match m st with
    | (Return a, st') => (Return a, st')
    | (Raise e, st') => h e st'
    end.

Definition lift_outcome {W A} (o : outcome A) : M W A := fun st => (o, st).

Definition emit {W} (e : event) : M W unit :=
  fun st =>
    (Return tt,
     mkState (world st) (monitor st) (executor st) (lock_depth st)
             (trace st ++ [e])).

Definition log {W} (l : log_level) : M W unit := emit (ELog l).

(** A call into the world: the event is recorded, the world moves on. *)
Definition call {W A} (e : event) (f : W -> A * W) : M W A :=
  fun st =>
    let (a, w) := f (world st) in
    (Return a,
     mkState w (monitor st) (executor st) (lock_depth st) (trace st ++ [e])).

(** A call into the world that may raise: the event is recorded and the
    world moves on in either case. *)
Definition call_raising {W A} (e : event) (f : W -> outcome A * W) : M W A :=
  fun st =>
    let (r, w) := f (world st) in
    (r, mkState w (monitor st) (executor st) (lock_depth st) (trace st ++ [e])).

Definition get_monitor {W} : M W Monitor := fun st => (Return (monitor st), st).

Definition get_executor {W} : M W Executor :=
  fun st => (Return (executor st), st).

Definition modify_monitor {W} (f : Monitor -> Monitor) : M W unit :=
  fun st =>
    (Return tt,
     mkState (world st) (f (monitor st)) (executor st) (lock_depth st)
             (trace st)).

Definition modify_executor {W} (f : Executor -> Executor) : M W unit :=
  fun st =>
    (Return tt,
     mkState (world st) (monitor st) (f (executor st)) (lock_depth st)
             (trace st)).

Definition acquire {W} : M W unit :=
  fun st =>
    (Return tt,
     mkState (world st) (monitor st) (executor st) (S (lock_depth st))
             (trace st ++ [EAcquire])).

Definition release {W} : M W unit :=
  fun st =>
    (Return tt,
     mkState (world st) (monitor st) (executor st) (pred (lock_depth st))
             (trace st ++ [ERelease])).

(** [with self.trade_lock: body]: the lock is released on every exit, also
    when the body raises. *)
Definition with_lock {W A} (body : M W A) : M W A :=
  fun st =>
    let (r, st') := body (snd (acquire st)) in
    (r, snd (release st')).

(** [for x in l: body x]. *)
Fixpoint for_each {W A} (l : list A) (body : A -> M W unit) : M W unit :=
  match l with
  | [] => ret tt
  | x :: l' => body x ;;; for_each l' body
  end.

(** [for x in l: body x] where the body may [return]: [Some r] leaves the
    function with [r], [None] goes on; [after] is the code behind the
    loop. *)
Fixpoint for_return {W A R} (l : list A) (body : A -> M W (option R))
         (after : M W R) : M W R :=
  match l with
  | [] => after
  | x :: l' =>
      r <- body x ;;
      match r with
      | Some v => ret v
      | None => for_return l' body after
      end
  end.

(** [range(1, n + 1)]. *)
Definition range1 (n : Z) : list Z :=
  map (fun i => Z.of_nat i + 1) (seq 0 (Z.to_nat n)).

(** The calls into the world, with their events. *)
Section WorldCalls.
Context {W : Type} (env : Env W).

Definition broker_is_connected : M W bool :=
  call EIsConnected (is_connected env).

Definition broker_price (s : pyval) : M W (option Quote) :=
  call (EGetPrice s) (broker_get_price env s).

Definition broker_positions : M W (list Position) :=
  call EGetPositions (get_positions env).

Definition broker_place (s : pyval) (o : OrderType) (lot sl tp : float)
           (c : pyval) : M W (option Z) :=
  call_raising (EPlaceOrder s o) (place_market_order env s o lot sl tp c).

Definition broker_close (t : Z) : M W bool :=
  call_raising (EClosePosition t) (close_position env t).

Definition clock : M W float := call EClock (time_time env).

Definition sleep (d : float) : M W unit :=
  call_raising (ESleep d) (time_sleep env d).

Definition stop_requested : M W bool := call EStopCheck (stop_is_set env).
End WorldCalls.

(** ** PriceMonitor (monitor.py) *)

Module PriceMonitor.
Section Methods.
Context {W : Type} (env : Env W).

Definition watch (symbol : pyval) (price : Quote) (m : Monitor) : Monitor :=
  mkMonitor (update_interval m)
            ({[symbol]} ∪ symbols_to_monitor m)
            (<[symbol := price]> (price_data m))
            (entry_callbacks m) (exit_callbacks m) (sl_callbacks m).

Definition unwatch (symbol : pyval) (m : Monitor) : Monitor :=
  mkMonitor (update_interval m)
            (symbols_to_monitor m ∖ {[symbol]})
            (delete symbol (price_data m))
            (entry_callbacks m) (exit_callbacks m) (sl_callbacks m).

Definition cache (symbol : pyval) (price : Quote) (m : Monitor) : Monitor :=
  mkMonitor (update_interval m)
            (symbols_to_monitor m)
            (<[symbol := price]> (price_data m))
            (entry_callbacks m) (exit_callbacks m) (sl_callbacks m).

(** [add_symbol]: the broker must be connected and must quote the
    symbol.  [self.symbols_to_monitor.add(symbol)] raises [TypeError] for
    an unhashable symbol, before anything is stored. *)
Definition add_symbol (symbol : pyval) : M W bool :=
  connected <- broker_is_connected env ;;
  if negb connected then
    log ERROR ;;; ret false
  else
    price <- broker_price env symbol ;;
    match price with
    | None => log ERROR ;;; ret false
    | Some p =>
        if negb (hashable symbol) then raise TypeError
        else
          modify_monitor (watch symbol p) ;;;
          log INFO ;;;
          ret true
    end.

(** [symbol in self.symbols_to_monitor] raises [TypeError] for an
    unhashable symbol. *)
Definition remove_symbol (symbol : pyval) : M W bool :=
  if negb (hashable symbol) then raise TypeError
  else
    m <- get_monitor ;;
    if bool_decide (symbol ∈ symbols_to_monitor m) then
      modify_monitor (unwatch symbol) ;;;
      log INFO ;;;
      ret true
    else
      log WARNING ;;; ret false.

(** The test of line 103: the entry has no "time" or is younger than
    five seconds. *)
Definition fresh (current_time : float) (q : Quote) : bool :=
  match time q with
  | None => true
  | Some t => PrimFloat.ltb (PrimFloat.sub current_time t) 5
  end.

Definition fetch_price (symbol : pyval) : M W (option Quote) :=
  price <- broker_price env symbol ;;
  match price with
  | Some p => modify_monitor (cache symbol p) ;;; ret (Some p)
  | None => ret None
  end.

(** [symbol in self.price_data] raises [TypeError] for an unhashable
    symbol. *)
Definition get_price (symbol : pyval) : M W (option Quote) :=
  connected <- broker_is_connected env ;;
  if negb connected then
    log ERROR ;;; ret None
  else if negb (hashable symbol) then raise TypeError
  else
    m <- get_monitor ;;
    match price_data m !! symbol with
    | Some q =>
        current_time <- clock env ;;
        if fresh current_time q then ret (Some q) else fetch_price symbol
    | None => fetch_price symbol
    end.

(** [check_entry_condition(symbol, instruction)], the instruction being a
    dict. *)
Definition check_entry_condition (symbol : pyval)
           (instruction : RawInstruction) : M W bool :=
  price <- get_price symbol ;;
  match price with
  | None => ret false
  | Some p =>
      v <- lift_outcome (match raw_entry_price instruction with
                         | Some v => Return v
                         | None => Raise KeyError
                         end) ;;
      entry <- lift_outcome (py_float (str_to_float env) v) ;;
      d <- lift_outcome
             (py_lower (default (PyStr "buy") (raw_direction instruction))) ;;
      if (String.eqb d "buy" && PrimFloat.leb (ask p) entry)%bool then
        ret true
      else if (String.eqb d "sell" && PrimFloat.leb entry (bid p))%bool then
        ret true
      else ret false
  end.

(** [position.get("type", "").lower()]: the default is for a missing
    key; a value that is no [str], [None] included, has no [lower]. *)
Definition check_exit_condition (symbol : pyval) (position : Position)
  : M W bool :=
  price <- get_price symbol ;;
  match price with
  | None => ret false
  | Some p =>
      match pos_take_profit position with
      | None => ret false
      | Some take_profit =>
          position_type <- lift_outcome
            (py_lower (default (PyStr "") (pos_type position))) ;;
          if (String.eqb position_type "buy"
              && PrimFloat.leb take_profit (bid p))%bool then ret true
          else if (String.eqb position_type "sell"
                   && PrimFloat.leb (ask p) take_profit)%bool then ret true
          else ret false
      end
  end.

Definition check_sl_condition (symbol : pyval) (position : Position)
  : M W bool :=
  price <- get_price symbol ;;
  match price with
  | None => ret false
  | Some p =>
      match pos_stop_loss position with
      | None => ret false
      | Some stop_loss =>
          position_type <- lift_outcome
            (py_lower (default (PyStr "") (pos_type position))) ;;
          if (String.eqb position_type "buy"
              && PrimFloat.leb (bid p) stop_loss)%bool then ret true
          else if (String.eqb position_type "sell"
                   && PrimFloat.leb stop_loss (ask p))%bool then ret true
          else ret false
      end
  end.

Definition register_entry_callback (c : callback) : M W unit :=
  modify_monitor (fun m =>
    mkMonitor (update_interval m) (symbols_to_monitor m) (price_data m)
              (entry_callbacks m ++ [c]) (exit_callbacks m) (sl_callbacks m)).

Definition register_exit_callback (c : callback) : M W unit :=
  modify_monitor (fun m =>
    mkMonitor (update_interval m) (symbols_to_monitor m) (price_data m)
              (entry_callbacks m) (exit_callbacks m ++ [c]) (sl_callbacks m)).

Definition register_sl_callback (c : callback) : M W unit :=
  modify_monitor (fun m =>
    mkMonitor (update_interval m) (symbols_to_monitor m) (price_data m)
              (entry_callbacks m) (exit_callbacks m) (sl_callbacks m ++ [c])).

(** *** The monitoring loop

    The callbacks are Python callables; here the loop is given the two
    ways of calling one: with [(symbol, price)] and with
    [(symbol, price, position)]. *)
Variable call_entry : callback -> pyval -> Quote -> M W unit.
Variable call_position : callback -> pyval -> Quote -> Position -> M W unit.

(** [for callback in callbacks: try: callback(...) except Exception: log]. *)
Definition guarded (callbacks : list callback) (run : callback -> M W unit)
  : M W unit :=
  for_each callbacks (fun c => try_except (run c) (fun _ => log ERROR)).

(** Lines 320-338: the checks of one open position for [symbol]. *)
Definition check_position (symbol : pyval) (price : Quote)
           (position : Position) : M W unit :=
  if negb (bool_decide (PyStr (pos_symbol position) = symbol)) then ret tt
  else
    tp <- check_exit_condition symbol position ;;
    (if tp then
       m <- get_monitor ;;
       guarded (exit_callbacks m)
               (fun c => call_position c symbol price position)
     else ret tt) ;;;
    sl <- check_sl_condition symbol position ;;
    if sl then
      m <- get_monitor ;;
      guarded (sl_callbacks m)
              (fun c => call_position c symbol price position)
    else ret tt.

(** Lines 304-338: the body of [for symbol in list(symbols_to_monitor)];
    an element of the set is hashable. *)
Definition check_symbol (positions : list Position) (symbol : pyval)
  : M W unit :=
  price <- broker_price env symbol ;;
  match price with
  | None => ret tt
  | Some p =>
      modify_monitor (cache symbol p) ;;;
      m <- get_monitor ;;
      guarded (entry_callbacks m) (fun c => call_entry c symbol p) ;;;
      for_each positions (check_position symbol p)
  end.

(** Lines 295-301: the symbols of the open positions join the
    watch-list. *)
Definition add_position_symbols (positions : list Position) : M W unit :=
  let position_symbols : gset pyval :=
    list_to_set (map (fun pos => PyStr (pos_symbol pos)) positions) in
  for_each (elements position_symbols) (fun symbol =>
    m <- get_monitor ;;
    if bool_decide (symbol ∈ symbols_to_monitor m) then ret tt
    else add_symbol symbol ;;; ret tt).

(** Lines 293-341: the [try] block of one cycle. *)
Definition cycle_body : M W unit :=
  positions <- broker_positions env ;;
  add_position_symbols positions ;;;
  m <- get_monitor ;;
  for_each (elements (symbols_to_monitor m)) (check_symbol positions).

(** One pass through the body of the [while]: lines 293-344. *)
Definition poll_cycle : M W unit :=
  try_except cycle_body (fun _ => log ERROR) ;;;
  m <- get_monitor ;;
  sleep env (update_interval m).

(** How a run of the loop ended.  The loop has no bound of its own: the
    model runs it for at most [fuel] cycles. *)
Inductive loop_end : Type :=
| Stopped          (* the stop event was set *)
| ConnectionLost   (* the [break] of line 291 *)
| OutOfFuel.

Fixpoint loop (fuel : nat) : M W loop_end :=
  match fuel with
  | O => ret OutOfFuel
  | S fuel' =>
      stop <- stop_requested env ;;
      if stop then ret Stopped
      else
        connected <- broker_is_connected env ;;
        if negb connected then log ERROR ;;; ret ConnectionLost
        else poll_cycle ;;; loop fuel'
  end.

Definition _monitoring_loop (fuel : nat) : M W loop_end :=
  log INFO ;;;
  r <- loop fuel ;;
  match r with
  | OutOfFuel => ret OutOfFuel
  | _ => log INFO ;;; ret r
  end.
End Methods.
End PriceMonitor.

(** ** TradeExecutor (trade.py) *)

Module TradeExecutor.
Section Methods.
Context {W : Type} (env : Env W).

Definition set_instructions (l : list TradeInstruction) (e : Executor)
  : Executor :=
  mkExecutor (max_retries e) (retry_delay e) l (active_trades e)
             (instruction_counter e).

Definition set_trades (l : list ActiveTrade) (e : Executor) : Executor :=
  mkExecutor (max_retries e) (retry_delay e) (trade_instructions e) l
             (instruction_counter e).

(** [__init__]: empty lists, and the three callbacks registered. *)
Definition init (max_retries : Z) (retry_delay : float) : M W unit :=
  modify_executor (fun e =>
    mkExecutor max_retries retry_delay [] [] (instruction_counter e)) ;;;
  PriceMonitor.register_entry_callback on_entry_condition ;;;
  PriceMonitor.register_exit_callback on_exit_condition ;;;
  PriceMonitor.register_sl_callback on_sl_condition.

Definition required_fields : list string :=
  ["symbol"; "entry_price"; "exit_price"; "stop_loss"; "lot_size"].

(** [field in instruction]. *)
Definition has_key (instruction : RawInstruction) (field : string) : bool :=
  if String.eqb field "symbol" then bool_decide (is_Some (raw_symbol instruction))
  else if String.eqb field "entry_price" then
    bool_decide (is_Some (raw_entry_price instruction))
  else if String.eqb field "exit_price" then
    bool_decide (is_Some (raw_exit_price instruction))
  else if String.eqb field "stop_loss" then
    bool_decide (is_Some (raw_stop_loss instruction))
  else if String.eqb field "lot_size" then
    bool_decide (is_Some (raw_lot_size instruction))
  else if String.eqb field "direction" then
    bool_decide (is_Some (raw_direction instruction))
  else if String.eqb field "comment" then
    bool_decide (is_Some (raw_comment instruction))
  else false.

(** Lines 79-83: [float(instruction[field])], with [ValueError] and
    [TypeError] caught: [None] is the [return False] of the handler.
    Any other exception leaves the method. *)
Definition coerce (v : pyval) : M W (option float) :=
  match py_float (str_to_float env) v with
  | Return f => ret (Some f)
  | Raise ValueError => log ERROR ;;; ret None
  | Raise TypeError => log ERROR ;;; ret None
  | Raise e => raise e
  end.

(** Lines 98-107: the constructor call; the new object takes the next
    id. *)
Definition new_instruction (symbol : pyval) (entry exit sl lot : float)
           (direction : string) (comment : pyval) : M W TradeInstruction :=
  e <- get_executor ;;
  modify_executor (fun e =>
    mkExecutor (max_retries e) (retry_delay e) (trade_instructions e)
               (active_trades e) (instruction_counter e + 1)) ;;;
  ret (mkInstruction (instruction_counter e) symbol entry exit sl lot
                     direction comment).

Definition add_trade_instruction (instruction : RawInstruction) : M W bool :=
  if existsb (fun field => negb (has_key instruction field)) required_fields
  then log ERROR ;;; ret false
  else
    match raw_symbol instruction, raw_entry_price instruction,
          raw_exit_price instruction, raw_stop_loss instruction,
          raw_lot_size instruction with
    | Some symbol, Some v_entry, Some v_exit, Some v_sl, Some v_lot =>
        o_entry <- coerce v_entry ;;
        match o_entry with None => ret false | Some entry =>
        o_exit <- coerce v_exit ;;
        match o_exit with None => ret false | Some exit =>
        o_sl <- coerce v_sl ;;
        match o_sl with None => ret false | Some sl =>
        o_lot <- coerce v_lot ;;
        match o_lot with None => ret false | Some lot =>
          let v_direction :=
            match raw_direction instruction with
            | Some v => v
            | None => PyStr (if PrimFloat.ltb entry exit then "buy" else "sell")
            end in
          d <- lift_outcome (py_lower v_direction) ;;
          if negb (String.eqb d "buy" || String.eqb d "sell")%bool then
            log ERROR ;;; ret false
          else
            trade_instruction <-
              new_instruction symbol entry exit sl lot d
                (default (PyStr "Hunter Bot") (raw_comment instruction)) ;;
            with_lock
              (modify_executor (fun e =>
                 set_instructions (trade_instructions e ++ [trade_instruction]) e)) ;;;
            PriceMonitor.add_symbol env symbol ;;;
            log INFO ;;;
            ret true
        end end end end
    | _, _, _, _, _ => raise KeyError
    end.

Definition get_trade_instructions : M W (list TradeInstruction) :=
  with_lock (e <- get_executor ;; ret (trade_instructions e)).

Definition get_active_trades : M W (list ActiveTrade) :=
  with_lock (e <- get_executor ;; ret (active_trades e)).

(** [list.remove(x)] for the object found by a search with [p]: the first
    element that satisfies [p] goes; [None] is Python's [ValueError]. *)
Fixpoint remove_first {A} (p : A -> bool) (l : list A) : option (list A) :=
  match l with
  | [] => None
  | x :: l' =>
      if p x then Some l'
      else match remove_first p l' with
           | Some r => Some (x :: r)
           | None => None
           end
  end.

(** Lines 267-290.  [symbols_to_monitor.add(...)] raises [TypeError] at
    the first symbol that is unhashable, inside the [with] block. *)
Definition _update_monitored_symbols : M W unit :=
  needed <- with_lock
    (e <- get_executor ;;
     if forallb hashable (map ti_symbol (trade_instructions e))
        && forallb hashable (map symbol (active_trades e))
     then ret (list_to_set (map ti_symbol (trade_instructions e))
               ∪ list_to_set (map symbol (active_trades e)) : gset pyval)
     else raise TypeError) ;;
  m <- get_monitor ;;
  let current_symbols := symbols_to_monitor m in
  for_each (elements (needed ∖ current_symbols))
           (fun s => PriceMonitor.add_symbol env s ;;; ret tt) ;;;
  for_each (elements (current_symbols ∖ needed))
           (fun s => PriceMonitor.remove_symbol s ;;; ret tt).

(** Lines 119-159.  The search loop returns at the first instruction with
    the id, still inside the [with] block. *)
Definition remove_trade_instruction (instruction_id : Z) : M W bool :=
  found <- with_lock
    (e <- get_executor ;;
     match List.find (fun i => Z.eqb (ti_id i) instruction_id)
                     (trade_instructions e) with
     | None => ret false
     | Some instruction =>
         let sym := ti_symbol instruction in
         let used_by_instruction :=
           existsb (fun o => negb (Z.eqb (ti_id o) instruction_id)
                             && bool_decide (ti_symbol o = sym))%bool
                   (trade_instructions e) in
         let used_by_trade :=
           existsb (fun t => bool_decide (symbol t = sym))
                   (active_trades e) in
         let remove_symbol := negb (used_by_instruction || used_by_trade) in
         modify_executor (fun e =>
           set_instructions
             (default (trade_instructions e)
                (remove_first (fun i => Z.eqb (ti_id i) instruction_id)
                              (trade_instructions e))) e) ;;;
         (if remove_symbol then PriceMonitor.remove_symbol sym ;;; ret tt
          else ret tt) ;;;
         log INFO ;;;
         ret true
     end) ;;
  if found then ret true else log WARNING ;;; ret false.

(** Lines 250-265: the attempts of [_close_trade]; the body's [Some true]
    is the [return True] of line 259. *)
Definition close_attempt (tk : Z) (attempt : Z) : M W (option bool) :=
  closed <- broker_close env tk ;;
  if closed then
    with_lock
      (e <- get_executor ;;
       match remove_first (fun t => Z.eqb (ticket t) tk) (active_trades e) with
       | Some rest => modify_executor (set_trades rest)
       | None => raise ValueError
       end ;;;
       _update_monitored_symbols) ;;;
    log INFO ;;;
    ret (Some true)
  else
    e <- get_executor ;;
    log WARNING ;;;
    sleep env (retry_delay e) ;;;
    ret None.

(** Lines 227-265.  [trade_to_remove] is the first trade with the ticket,
    and [active_trades.remove(trade_to_remove)] removes that one. *)
Definition _close_trade (tk : Z) : M W bool :=
  trade_to_remove <- with_lock
    (e <- get_executor ;;
     ret (List.find (fun t => Z.eqb (ticket t) tk) (active_trades e))) ;;
  match trade_to_remove with
  | None => log WARNING ;;; ret false
  | Some _ =>
      e <- get_executor ;;
      for_return (range1 (max_retries e)) (close_attempt tk)
                 (log ERROR ;;; ret false)
  end.

Definition close_trade (trade_id : Z) : M W bool := _close_trade trade_id.

(** Lines 198-213: the loop over [list(self.active_trades)] runs inside
    the [with] block. *)
Fixpoint close_each (trades : list ActiveTrade) (closed_count : Z) : M W Z :=
  match trades with
  | [] => ret closed_count
  | trade :: rest =>
      ok <- _close_trade (ticket trade) ;;
      close_each rest (if ok then closed_count + 1 else closed_count)
  end.

Definition close_all_trades : M W Z :=
  closed_count <- with_lock
    (e <- get_executor ;; close_each (active_trades e) 0) ;;
  log INFO ;;;
  ret closed_count.

(** Lines 181-196. *)
Definition cancel_all_instructions : M W Z :=
  with_lock
    (e <- get_executor ;;
     let count := Z.of_nat (length (trade_instructions e)) in
     modify_executor (set_instructions []) ;;;
     _update_monitored_symbols ;;;
     log INFO ;;;
     ret count).

(** Lines 363-396: one attempt of [_execute_trade]. *)
Definition execute_attempt (instruction : TradeInstruction) (price : Quote)
           (order_type : OrderType) (attempt : Z) : M W (option bool) :=
  tk <- broker_place env (ti_symbol instruction) order_type
          (ti_lot_size instruction) (ti_stop_loss instruction)
          (ti_exit_price instruction) (ti_comment instruction) ;;
  match tk with
  | Some t =>
      if Z.eqb t 0 then
        e <- get_executor ;;
        log WARNING ;;; sleep env (retry_delay e) ;;; ret None
      else
        now <- clock env ;;
        let trade :=
          mkTrade t (ti_symbol instruction)
                  (match order_type with BUY => ask price | SELL => bid price end)
                  (ti_exit_price instruction) (ti_stop_loss instruction)
                  (ti_lot_size instruction) (ti_direction instruction)
                  (ti_comment instruction) now in
        with_lock
          (modify_executor (fun e => set_trades (active_trades e ++ [trade]) e) ;;;
           e <- get_executor ;;
           match remove_first (fun i => Z.eqb (ti_id i) (ti_id instruction))
                              (trade_instructions e) with
           | Some rest => modify_executor (set_instructions rest)
           | None => raise ValueError
           end) ;;;
        log INFO ;;;
        ret (Some true)
  | None =>
      e <- get_executor ;;
      log WARNING ;;; sleep env (retry_delay e) ;;; ret None
  end.

(** Lines 346-399. *)
Definition _execute_trade (instruction : TradeInstruction) (price : Quote)
  : M W bool :=
  log INFO ;;;
  let order_type :=
    if String.eqb (ti_direction instruction) "buy" then BUY else SELL in
  e <- get_executor ;;
  for_return (range1 (max_retries e))
             (execute_attempt instruction price order_type)
             (log ERROR ;;; ret false).

(** The test of lines 312-313. *)
Definition entry_condition (price : Quote) (instruction : TradeInstruction)
  : bool :=
  (String.eqb (ti_direction instruction) "buy"
   && PrimFloat.leb (ask price) (ti_entry_price instruction))
  || (String.eqb (ti_direction instruction) "sell"
      && PrimFloat.leb (ti_entry_price instruction) (bid price)).

(** Lines 292-318. *)
Definition _on_entry_condition (sym : pyval) (price : Quote) : M W unit :=
  instructions_to_execute <- with_lock
    (e <- get_executor ;;
     ret (List.filter
            (fun i => bool_decide (ti_symbol i = sym)
                      && entry_condition price i)%bool
            (trade_instructions e))) ;;
  for_each instructions_to_execute
           (fun i => _execute_trade i price ;;; ret tt).

Definition _on_exit_condition (sym : pyval) (price : Quote)
           (position : Position) : M W unit :=
  log INFO ;;;
  _close_trade (pos_ticket position) ;;; ret tt.

Definition _on_sl_condition (sym : pyval) (price : Quote)
           (position : Position) : M W unit :=
  log INFO ;;;
  _close_trade (pos_ticket position) ;;; ret tt.

(** Calling a registered callback with two arguments, as the monitor does
    for the entry list; a method of three parameters raises
    [TypeError]. *)
Definition call_entry (c : callback) (sym : pyval) (price : Quote)
  : M W unit :=
  match c with
  | on_entry_condition => _on_entry_condition sym price
  | on_exit_condition | on_sl_condition => raise TypeError
  end.

(** Calling a registered callback with three arguments, as the monitor
    does for the exit and stop-loss lists. *)
Definition call_position (c : callback) (sym : pyval) (price : Quote)
           (position : Position) : M W unit :=
  match c with
  | on_entry_condition => raise TypeError
  | on_exit_condition => _on_exit_condition sym price position
  | on_sl_condition => _on_sl_condition sym price position
  end.
End Methods.
End TradeExecutor.

(** ** The assembled system: the monitor's loop calling the executor *)

Section System.
Context {W : Type} (env : Env W).

Definition poll_cycle : M W unit :=
  PriceMonitor.poll_cycle env (TradeExecutor.call_entry env)
                          (TradeExecutor.call_position env).

Definition _monitoring_loop (fuel : nat) : M W PriceMonitor.loop_end :=
  PriceMonitor._monitoring_loop env (TradeExecutor.call_entry env)
                                (TradeExecutor.call_position env) fuel.
End System.

(** ** A scripted broker for closed examples

    The world of the examples: a connection flag, a quote table, the open
    positions, whether closes succeed, the ticket that the next order
    gets ([None]: orders fail), the clock and the stop event.  The broker
    quotes the [str] symbols of its table and raises nothing; [time.sleep]
    raises [ValueError] for a delay that is negative or NaN.  [float] of a
    [str] is read from a table of the numerals that an example uses. *)

Record MockWorld : Type := mkMock {
  mw_connected : bool;
  mw_quotes : list (string * Quote);
  mw_positions : list Position;
  mw_close_ok : bool;
  mw_next_ticket : option Z;
  mw_now : float;
  mw_stop : bool
}.

Definition mock_quote (s : pyval) (w : MockWorld) : option Quote :=
  match s with
  | PyStr s =>
      match List.find (fun e => String.eqb (fst e) s) (mw_quotes w) with
      | Some e => Some (snd e)
      | None => None
      end
  | _ => None
  end.

Definition mock_place (s : pyval) (o : OrderType) (w : MockWorld)
  : option Z * MockWorld :=
  match mw_next_ticket w, s with
  | Some t, PyStr s =>
      (Some t,
       mkMock (mw_connected w) (mw_quotes w)
              (mw_positions w ++
                 [mkPosition t s
                    (Some (PyStr (match o with BUY => "buy" | SELL => "sell" end)))
                    None None])
              (mw_close_ok w) (Some (t + 1)) (mw_now w) (mw_stop w))
  | _, _ => (None, w)
  end.

Definition mock_close (t : Z) (w : MockWorld) : bool * MockWorld :=
  if mw_close_ok w then
    (true,
     mkMock (mw_connected w) (mw_quotes w)
            (List.filter (fun p => negb (Z.eqb (pos_ticket p) t)) (mw_positions w))
            (mw_close_ok w) (mw_next_ticket w) (mw_now w) (mw_stop w))
  else (false, w).

Definition mock_sleep (d : float) (w : MockWorld) : outcome unit * MockWorld :=
  if PrimFloat.leb 0 d then
    (Return tt,
     mkMock (mw_connected w) (mw_quotes w) (mw_positions w) (mw_close_ok w)
            (mw_next_ticket w) (PrimFloat.add (mw_now w) d) (mw_stop w))
  else (Raise ValueError, w).

Definition mock_env (numerals : list (string * float)) : Env MockWorld :=
  mkEnv MockWorld
    (fun w => (mw_connected w, w))
    (fun s w => (if mw_connected w then mock_quote s w else None, w))
    (fun w => (if mw_connected w then mw_positions w else [], w))
    (fun s o _ _ _ _ w =>
       let (t, w') := if mw_connected w then mock_place s o w else (None, w) in
       (Return t, w'))
    (fun t w =>
       let (ok, w') := if mw_connected w then mock_close t w else (false, w) in
       (Return ok, w'))
    (fun w => (mw_now w, w))
    mock_sleep
    (fun w => (mw_stop w, w))
    (fun s => match List.find (fun e => String.eqb (fst e) s) numerals with
              | Some e => Some (snd e)
              | None => None
              end).

Definition empty_monitor : Monitor :=
  mkMonitor 1%float ∅ ∅ [] [] [].

Definition empty_executor : Executor :=
  mkExecutor 3 1%float [] [] 1.

(** A monitor and an executor as the two constructors leave them, the
    executor with [max_retries] and [retry_delay] as given. *)
Definition start_state {W} (w : W) (retries : Z) (delay : float) : State W :=
  snd (TradeExecutor.init retries delay
         (mkState w empty_monitor empty_executor O [])).

(** ** BrokerConnection (broker.py)

    The facade over the MetaTrader5 package.  The package is outside the
    sources: it is a record of the functions that the code calls, over a
    terminal state [T] that each call may change.  The object is taken as
    [__init__] leaves it, [_connected] apart.  The numeric arguments are
    floats, as annotated, so that [float(lot_size)] and [float(stop_loss)]
    return them.  [get_positions] and [get_account_info] are left out:
    their MT5 halves are not in the source file. *)

Module BrokerConnection.

(** [mt5.account_info()]: the two fields that line 279 logs. *)
Record AccountInfo : Type := mkAccountInfo {
  ai_server : string;
  ai_login : Z
}.

(** [mt5.symbol_info(symbol)]. *)
Record SymbolInfo : Type := mkSymbolInfo {
  si_visible : bool;
  si_bid : float;
  si_ask : float
}.

(** [mt5.symbol_info_tick(symbol)]. *)
Record Tick : Type := mkTick {
  tick_bid : float;
  tick_ask : float;
  tick_time : float
}.

(** An element of [mt5.positions_get(ticket=...)]; [tp_type] is 0 for a
    buy position and 1 for a sell position. *)
Record TerminalPosition : Type := mkTerminalPosition {
  tp_ticket : Z;
  tp_symbol : string;
  tp_volume : float;
  tp_type : Z;
  tp_sl : float;
  tp_tp : float
}.

Inductive TradeAction : Type := TRADE_ACTION_DEAL | TRADE_ACTION_MODIFY.

(** The request dict of [mt5.order_send]; a key that a request does not
    have is [None], and the two constants "type_time": ORDER_TIME_GTC and
    "type_filling": ORDER_FILLING_IOC are flags. *)
Record Request : Type := mkRequest {
  rq_action : TradeAction;
  rq_symbol : string;
  rq_volume : option float;
  rq_type : option OrderType;
  rq_position : option Z;
  rq_price : option float;
  rq_deviation : option Z;
  rq_magic : option Z;
  rq_comment : option pyval;
  rq_time_gtc : bool;
  rq_filling_ioc : bool;
  rq_sl : option float;
  rq_tp : option float
}.

(** The result of [mt5.order_send]: [retcode] and [order]. *)
Record OrderResult : Type := mkOrderResult {
  retcode : Z;
  order : Z
}.

Definition TRADE_RETCODE_DONE : Z := 10009.

(** The package.  [MT5_AVAILABLE] is the flag of lines 12-16;
    [mt5_terminal_info] tells whether [terminal_info()] is not [None];
    [mt5_order_send] and [mt5_positions_get] may return [None]. *)
Record MT5 (T : Type) : Type := mkMT5 {
  MT5_AVAILABLE : bool;
  mt5_initialize : option string -> pyval -> string -> string -> T -> bool * T;
  mt5_shutdown : T -> T;
  mt5_last_error : T -> T;
  mt5_terminal_info : T -> bool * T;
  mt5_account_info : T -> option AccountInfo * T;
  mt5_symbol_info : string -> T -> option SymbolInfo * T;
  mt5_symbol_select : string -> bool -> T -> bool * T;
  mt5_symbol_info_tick : string -> T -> option Tick * T;
  mt5_order_send : Request -> T -> option OrderResult * T;
  mt5_positions_get : Z -> T -> option (list TerminalPosition) * T
}.
Arguments MT5_AVAILABLE {T} _.
Arguments mt5_initialize {T} _ _ _ _ _ _.
Arguments mt5_shutdown {T} _ _.
Arguments mt5_last_error {T} _ _.
Arguments mt5_terminal_info {T} _ _.
Arguments mt5_account_info {T} _ _.
Arguments mt5_symbol_info {T} _ _ _.
Arguments mt5_symbol_select {T} _ _ _ _.
Arguments mt5_symbol_info_tick {T} _ _ _.
Arguments mt5_order_send {T} _ _ _.
Arguments mt5_positions_get {T} _ _ _.

(** The fields of a [BrokerConnection]. *)
Record Connection : Type := mkConnection {
  platform : string;
  server : string;
  login : pyval;
  password : string;
  path : option string;
  _connected : bool
}.

(** What the object did, oldest first: the calls into the package with
    their results, and the log records. *)
Inductive call : Type :=
| CInitialize (ok : bool)
| CShutdown
| CLastError
| CTerminalInfo (present : bool)
| CAccountInfo (info : option AccountInfo)
| CSymbolInfo (s : string) (info : option SymbolInfo)
| CSymbolSelect (s : string) (ok : bool)
| CTick (s : string) (tick : option Tick)
| COrderSend (request : Request) (result : option OrderResult)
| CPositionsGet (ticket : Z) (positions : option (list TerminalPosition))
| CLog (l : log_level).

Record World (T : Type) : Type := mkWorld {
  terminal : T;
  connection : Connection;
  calls : list call
}.
Arguments mkWorld {T} _ _ _.
Arguments terminal {T} _.
Arguments connection {T} _.
Arguments calls {T} _.

(** The methods: state passing over the world, with exceptions. *)
Definition B (T A : Type) : Type := World T -> outcome A * World T.

Definition ret {T A} (a : A) : B T A := fun w => (Return a, w).

Definition raise {T A} (e : exn) : B T A := fun w => (Raise e, w).

Definition bind {T A R} (m : B T A) (k : A -> B T R) : B T R :=
  fun w =>
    match m w with
    | (Return a, w') => k a w'
    | (Raise e, w') => (Raise e, w')
    end.

Declare Scope mt5_scope.
Delimit Scope mt5_scope with mt5.
Notation "x <- m ;; k" := (bind m (fun x => k))
  (at level 100, m at next level, right associativity) : mt5_scope.
Notation "m ;;; k" := (bind m (fun _ => k))
  (at level 100, right associativity) : mt5_scope.
Local Open Scope mt5_scope.

Definition log {T} (l : log_level) : B T unit :=
  fun w => (Return tt, mkWorld (terminal w) (connection w) (calls w ++ [CLog l])).

(** A call into the package: the terminal moves on, the call is recorded
    with its result. *)
Definition package {T A} (f : T -> A * T) (c : A -> call) : B T A :=
  fun w =>
    let (a, t) := f (terminal w) in
    (Return a, mkWorld t (connection w) (calls w ++ [c a])).

Definition self {T} : B T Connection := fun w => (Return (connection w), w).

(** [self._connected = b]. *)
Definition set_connected {T} (b : bool) : B T unit :=
  fun w =>
    (Return tt,
     mkWorld (terminal w)
             (mkConnection (platform (connection w)) (server (connection w))
                           (login (connection w)) (password (connection w))
                           (path (connection w)) b)
             (calls w)).

Section Methods.
Context {T : Type} (mt5 : MT5 T).

Definition initialize (c : Connection) : B T bool :=
  package (mt5_initialize mt5 (path c) (login c) (server c) (password c))
          CInitialize.

Definition shutdown : B T unit :=
  package (fun t => (tt, mt5_shutdown mt5 t)) (fun _ => CShutdown).

(** [mt5.last_error()] inside the message of a log record. *)
Definition last_error : B T unit :=
  package (fun t => (tt, mt5_last_error mt5 t)) (fun _ => CLastError).

Definition terminal_info : B T bool :=
  package (mt5_terminal_info mt5) CTerminalInfo.

Definition account_info : B T (option AccountInfo) :=
  package (mt5_account_info mt5) CAccountInfo.

Definition symbol_info (s : string) : B T (option SymbolInfo) :=
  package (mt5_symbol_info mt5 s) (CSymbolInfo s).

Definition symbol_select (s : string) : B T bool :=
  package (mt5_symbol_select mt5 s true) (CSymbolSelect s).

Definition symbol_info_tick (s : string) : B T (option Tick) :=
  package (mt5_symbol_info_tick mt5 s) (CTick s).

Definition order_send (request : Request) : B T (option OrderResult) :=
  package (mt5_order_send mt5 request) (COrderSend request).

Definition positions_get (ticket : Z) : B T (option (list TerminalPosition)) :=
  package (mt5_positions_get mt5 ticket) (CPositionsGet ticket).

(** [self.platform == "MT5"]. *)
Definition on_mt5 (c : Connection) : bool := String.eqb (platform c) "MT5".

(** Lines 94-103.  [terminal_info()] is called first; [_connected] is read
    when it is not [None]. *)
Definition is_connected : B T bool :=
  c <- self ;;
  if (on_mt5 c && MT5_AVAILABLE mt5)%bool then
    present <- terminal_info ;;
    c <- self ;;
    ret (present && _connected c)%bool
  else ret (_connected c).

(** Lines 249-281. *)
Definition _connect_mt5 : B T bool :=
  if negb (MT5_AVAILABLE mt5) then log ERROR ;;; ret false
  else
    c <- self ;;
    ok <- initialize c ;;
    if negb ok then last_error ;;; log ERROR ;;; ret false
    else
      present <- terminal_info ;;
      if negb present then log ERROR ;;; shutdown ;;; ret false
      else
        info <- account_info ;;
        match info with
        | None => last_error ;;; log ERROR ;;; shutdown ;;; ret false
        | Some _ => log INFO ;;; set_connected true ;;; ret true
        end.

(** Lines 56-73. *)
Definition connect : B T bool :=
  c <- self ;;
  if _connected c then log WARNING ;;; ret true
  else
    log INFO ;;;
    if on_mt5 c then _connect_mt5
    else log ERROR ;;; ret false.

(** Lines 283-296. *)
Definition _disconnect_mt5 : B T bool :=
  if negb (MT5_AVAILABLE mt5) then ret false
  else shutdown ;;; set_connected false ;;; log INFO ;;; ret true.

(** Lines 75-92. *)
Definition disconnect : B T bool :=
  c <- self ;;
  if negb (_connected c) then log WARNING ;;; ret true
  else
    log INFO ;;;
    if on_mt5 c then _disconnect_mt5
    else log ERROR ;;; ret false.

(** Lines 308-318 and 355-365: the symbol's info, with the symbol selected
    when it is not visible; [None] when either fails. *)
Definition visible_symbol (s : string) : B T (option SymbolInfo) :=
  info <- symbol_info s ;;
  match info with
  | None => last_error ;;; log ERROR ;;; ret None
  | Some i =>
      if negb (si_visible i) then
        selected <- symbol_select s ;;
        if negb selected then last_error ;;; log ERROR ;;; ret None
        else ret (Some i)
      else ret (Some i)
  end.

(** Lines 298-330. *)
Definition _get_price_mt5 (s : string) : B T (option Quote) :=
  info <- visible_symbol s ;;
  match info with
  | None => ret None
  | Some _ =>
      tick <- symbol_info_tick s ;;
      match tick with
      | None => last_error ;;; log ERROR ;;; ret None
      | Some t =>
          ret (Some (mkQuote (tick_bid t) (tick_ask t) (Some (tick_time t))))
      end
  end.

(** Lines 105-123. *)
Definition get_price (s : string) : B T (option Quote) :=
  connected <- is_connected ;;
  if negb connected then log ERROR ;;; ret None
  else
    c <- self ;;
    if on_mt5 c then _get_price_mt5 s
    else log ERROR ;;; ret None.

(** Lines 391-397, 432-438 and 474-480: the request is sent; a result
    without [retcode], [None], raises [AttributeError]. *)
Definition send (request : Request) : B T (option Z) :=
  result <- order_send request ;;
  match result with
  | None => raise AttributeError
  | Some r =>
      if negb (Z.eqb (retcode r) TRADE_RETCODE_DONE) then
        log ERROR ;;; ret None
      else log INFO ;;; ret (Some (order r))
  end.

(** Lines 332-397. *)
Definition _place_market_order_mt5 (s : string) (order_type : OrderType)
           (lot_size : float) (stop_loss take_profit : option float)
           (comment : pyval) : B T (option Z) :=
  info <- visible_symbol s ;;
  match info with
  | None => ret None
  | Some i =>
      let request :=
        mkRequest TRADE_ACTION_DEAL s (Some lot_size) (Some order_type) None
                  (Some (match order_type with
                         | BUY => si_ask i
                         | SELL => si_bid i
                         end))
                  (Some 10) (Some 123456) (Some comment) true true
                  stop_loss take_profit in
      send request
  end.

(** Lines 125-160. *)
Definition place_market_order (s : string) (order_type : OrderType)
           (lot_size : float) (stop_loss take_profit : option float)
           (comment : pyval) : B T (option Z) :=
  connected <- is_connected ;;
  if negb connected then log ERROR ;;; ret None
  else
    log INFO ;;;
    c <- self ;;
    if on_mt5 c then
      _place_market_order_mt5 s order_type lot_size stop_loss take_profit
                              comment
    else log ERROR ;;; ret None.

(** Lines 409-416 and 457-464: the first position with the ticket. *)
Definition find_position (ticket : Z) : B T (option TerminalPosition) :=
  position <- positions_get ticket ;;
  match position with
  | Some (p :: _) => ret (Some p)
  | _ => last_error ;;; log ERROR ;;; ret None
  end.

(** Lines 399-438.  The dict of the request is built key by key: the tick
    is asked for once, for the price, before the order is sent. *)
Definition _close_position_mt5 (ticket : Z) : B T bool :=
  position <- find_position ticket ;;
  match position with
  | None => ret false
  | Some p =>
      let sold := Z.eqb (tp_type p) 1 in
      tick <- symbol_info_tick (tp_symbol p) ;;
      match tick with
      | None => raise AttributeError
      | Some t =>
          let request :=
            mkRequest TRADE_ACTION_DEAL (tp_symbol p) (Some (tp_volume p))
                      (Some (if sold then BUY else SELL))
                      (Some (tp_ticket p))
                      (Some (if sold then tick_ask t else tick_bid t))
                      (Some 10) (Some 123456)
                      (Some (PyStr "Hunter Bot - Close Position")) true true
                      None None in
          done <- send request ;;
          ret (bool_decide (is_Some done))
      end
  end.

(** Lines 162-182. *)
Definition close_position (ticket : Z) : B T bool :=
  connected <- is_connected ;;
  if negb connected then log ERROR ;;; ret false
  else
    log INFO ;;;
    c <- self ;;
    if on_mt5 c then _close_position_mt5 ticket
    else log ERROR ;;; ret false.

(** Lines 440-480. *)
Definition _modify_position_mt5 (ticket : Z)
           (stop_loss take_profit : option float) : B T bool :=
  position <- find_position ticket ;;
  match position with
  | None => ret false
  | Some p =>
      let request :=
        mkRequest TRADE_ACTION_MODIFY (tp_symbol p) None None
                  (Some (tp_ticket p)) None None None None false false
                  (Some (default (tp_sl p) stop_loss))
                  (Some (default (tp_tp p) take_profit)) in
      done <- send request ;;
      ret (bool_decide (is_Some done))
  end.

(** Lines 184-211. *)
Definition modify_position (ticket : Z) (stop_loss take_profit : option float)
  : B T bool :=
  connected <- is_connected ;;
  if negb connected then log ERROR ;;; ret false
  else
    log INFO ;;;
    c <- self ;;
    if on_mt5 c then _modify_position_mt5 ticket stop_loss take_profit
    else log ERROR ;;; ret false.
End Methods.
End BrokerConnection.

(** ** Settings (config/settings.py)

    The two loaders read files; here they start from what the parser
    returned.  A YAML document is a tree: no mapping occurs twice in it
    (no aliases), so that the in-place update of a nested mapping is an
    update of its one place in the tree. *)

Module Settings.

(** What [yaml.safe_load] returns: scalars, sequences and mappings, a
    mapping with its items in order. *)
#[warnings="-register-all"]
Inductive yaml : Type :=
| YScalar (v : pyval)
| YList (l : list yaml)
| YDict (items : list (string * yaml)).

(** [value.endswith(suffix)]. *)
Definition endswith (suffix value : string) : bool :=
  (Nat.leb (String.length suffix) (String.length value)
   && String.eqb (String.substring (String.length value - String.length suffix)
                                   (String.length suffix) value)
                 suffix)%bool.

(** Lines 93-94: the name inside "${...}", for a string that starts with
    "${" and ends with "}": [value[2:-1]]. *)
Definition placeholder (value : string) : option string :=
  if (String.prefix "${" value && endswith "}" value)%bool then
    Some (String.substring 2 (String.length value - 3) value)
  else None.

(** [for key, value in config_dict.items(): body], where the body may
    assign to [config_dict[key]] and may raise: the items after the one
    that raised are left as they were. *)
Fixpoint for_items (body : yaml -> outcome unit * yaml)
         (items : list (string * yaml)) : outcome unit * list (string * yaml) :=
  match items with
  | [] => (Return tt, [])
  | (key, value) :: rest =>
      match body value with
      | (Return _, value') =>
          let (r, rest') := for_items body rest in
          (r, (key, value') :: rest')
      | (Raise e, value') => (Raise e, (key, value') :: rest)
      end
  end.

(** Lines 91-99: the body of the loop of [_process_env_vars] for one
    value; the result is the value as the loop leaves it. *)
Fixpoint process_value (environ : string -> option string) (value : yaml)
  : outcome unit * yaml :=
  match value with
  | YDict items =>
      let (r, items') := for_items (process_value environ) items in
      (r, YDict items')
  | YScalar (PyStr s) =>
      match placeholder s with
      | Some env_var =>
          match environ env_var with
          | Some env_value => (Return tt, YScalar (PyStr env_value))
          | None => (Raise ValueError, value)
          end
      | None => (Return tt, value)
      end
  | _ => (Return tt, value)
  end.

(** Lines 83-99, for a mapping. *)
Definition _process_env_vars (environ : string -> option string)
           (config_dict : list (string * yaml))
  : outcome unit * list (string * yaml) :=
  for_items (process_value environ) config_dict.

Definition required_fields : list string :=
  ["symbol"; "entry_price"; "exit_price"; "stop_loss"; "lot_size"].

(** Lines 146-150 for one field: [float(instruction[field])] with
    [ValueError] and [TypeError] turned into [ValueError]. *)
Definition numeric (str_to_float : string -> option float) (v : option pyval)
  : outcome unit :=
  match v with
  | None => Raise KeyError
  | Some v =>
      match py_float str_to_float v with
      | Return _ => Return tt
      | Raise ValueError | Raise TypeError => Raise ValueError
      | Raise e => Raise e
      end
  end.

(** [a; b] on outcomes. *)
Definition and_then (a b : outcome unit) : outcome unit :=
  match a with
  | Return _ => b
  | Raise e => Raise e
  end.

(** Lines 129-150. *)
Definition _validate_trade_instruction (str_to_float : string -> option float)
           (instruction : RawInstruction) : outcome unit :=
  if existsb (fun field => negb (TradeExecutor.has_key instruction field))
             required_fields
  then Raise ValueError
  else
    and_then (numeric str_to_float (raw_entry_price instruction))
   (and_then (numeric str_to_float (raw_exit_price instruction))
   (and_then (numeric str_to_float (raw_stop_loss instruction))
             (numeric str_to_float (raw_lot_size instruction)))).

(** Lines 43-65.  [file] is [None] when the file does not exist, and else
    the list that [json.load] returned. *)
Definition load_trade_instructions (str_to_float : string -> option float)
           (file : option (list RawInstruction))
  : outcome (list RawInstruction) :=
  match file with
  | None => Return []
  | Some instructions =>
      match fold_left (fun r instruction =>
                         and_then r (_validate_trade_instruction str_to_float
                                                                 instruction))
                      instructions (Return tt) with
      | Return _ => Return instructions
      | Raise e => Raise e
      end
  end.
End Settings.

(** * The vocabulary of the properties *)

(** ** Comparisons of floats as propositions *)

(** Python's [a <= b], [a >= b] and [a > b] on floats. *)
Definition fle (a b : float) : Prop := PrimFloat.leb a b = true.
Definition fge (a b : float) : Prop := PrimFloat.leb b a = true.
Definition fgt (a b : float) : Prop := PrimFloat.ltb b a = true.

(** ** States *)

(** The state after the events [evs], in the world [w]: the monitor, the
    executor and the lock are as in [st]. *)
Definition moved {W} (st : State W) (w : W) (evs : list event) : State W :=
  mkState w (monitor st) (executor st) (lock_depth st) (trace st ++ evs).

(** The outside world moves between two calls. *)
Definition set_world {W} (w : W) (st : State W) : State W :=
  mkState w (monitor st) (executor st) (lock_depth st) (trace st).

(** The watch-list. *)
Definition watched {W} (st : State W) : gset pyval :=
  symbols_to_monitor (monitor st).

(** The symbols that pending instructions and active trades refer to: the
    set that [_update_monitored_symbols] collects. *)
Definition referenced (e : Executor) : gset pyval :=
  list_to_set (map ti_symbol (trade_instructions e))
  ∪ list_to_set (map symbol (active_trades e)).

(** The symbols of a list of positions. *)
Definition position_symbols (positions : list Position) : gset pyval :=
  list_to_set (map (fun pos => PyStr (pos_symbol pos)) positions).

(** The symbols are [str] objects, as the annotations of the code have
    them: those of the watch-list, of the instructions and of the
    trades. *)
Definition is_str (v : pyval) : bool :=
  match v with PyStr _ => true | _ => false end.

Definition str_symbols {W} (st : State W) : Prop :=
  forall s, s ∈ watched st ∪ referenced (executor st) -> is_str s = true.

(** The elements of a [set] are hashable: a state of the model stands for
    a state of the program only when those of the watch-list are. *)
Definition hashable_watch {W} (st : State W) : Prop :=
  forall s, s ∈ watched st -> hashable s = true.

(** The symbols of the instructions and of the trades are hashable. *)
Definition hashable_references (e : Executor) : Prop :=
  forall s, s ∈ referenced e -> hashable s = true.

(** Every symbol of the watch-list, the backlog and the registry is
    hashable. *)
Definition hashable_symbols {W} (st : State W) : Prop :=
  hashable_watch st /\ hashable_references (executor st).

(** The registered callbacks and the polling period: what the methods of
    the monitor never change after the set-up. *)
Definition same_setup (m m' : Monitor) : Prop :=
  update_interval m' = update_interval m
  /\ entry_callbacks m' = entry_callbacks m
  /\ exit_callbacks m' = exit_callbacks m
  /\ sl_callbacks m' = sl_callbacks m.

(** What a call of [_close_trade] for [tk] did to a state: nothing to the
    executor and the watch-list, or the first trade with the ticket is gone
    and the watch-list has been reconciled. *)
Definition untouched {W} (st st' : State W) : Prop :=
  executor st' = executor st /\ watched st' = watched st.

Definition trade_removed {W} (tk : Z) (st st' : State W) : Prop :=
  exists rest,
    TradeExecutor.remove_first (fun t => Z.eqb (ticket t) tk)
                               (active_trades (executor st)) = Some rest
    /\ executor st' = TradeExecutor.set_trades rest (executor st)
    /\ watched st' ⊆ referenced (executor st')
    /\ watched st ∩ referenced (executor st') ⊆ watched st'.

(** The first trade with the ticket is gone and the reconciliation of the
    watch-list raised: what is watched was watched before or is
    referenced. *)
Definition trade_dropped {W} (tk : Z) (st st' : State W) : Prop :=
  exists rest,
    TradeExecutor.remove_first (fun t => Z.eqb (ticket t) tk)
                               (active_trades (executor st)) = Some rest
    /\ executor st' = TradeExecutor.set_trades rest (executor st)
    /\ watched st' ⊆ watched st ∪ referenced (executor st').

(** ** Validation of an instruction *)

(** [float(v)] returns. *)
Definition coercible {W} (env : Env W) (v : pyval) : Prop :=
  exists f, py_float (str_to_float env) v = Return f.

(** [float(v)] raises one of the two exceptions that lines 81-83 catch. *)
Definition not_numeric {W} (env : Env W) (v : pyval) : Prop :=
  py_float (str_to_float env) v = Raise ValueError
  \/ py_float (str_to_float env) v = Raise TypeError.

(** The four numeric fields, in the order of [numeric_fields]. *)
Definition numeric_values (r : RawInstruction) : list (option pyval) :=
  [raw_entry_price r; raw_exit_price r; raw_stop_loss r; raw_lot_size r].

(** ** Reading a trace *)

Definition is_close_attempt (e : event) : bool :=
  match e with EClosePosition _ => true | _ => false end.

Definition is_order_attempt (e : event) : bool :=
  match e with EPlaceOrder _ _ => true | _ => false end.

Definition is_sleep (e : event) : bool :=
  match e with ESleep _ => true | _ => false end.

Definition count (p : event -> bool) (l : list event) : nat :=
  length (List.filter p l).

(** Sleeps only between attempts: after each sleep another attempt
    follows. *)
Fixpoint sleeps_between (attempt : event -> bool) (l : list event) : bool :=
  match l with
  | [] => true
  | e :: l' =>
      (if is_sleep e then existsb attempt l' else true)
      && sleeps_between attempt l'
  end.

(** What a failed attempt leaves in the trace. *)
Definition failed_close (tk : Z) (d : float) : list event :=
  [EClosePosition tk; ELog WARNING; ESleep d].

Definition failed_order (s : pyval) (o : OrderType) (d : float) : list event :=
  [EPlaceOrder s o; ELog WARNING; ESleep d].

(** The world after [n] failed attempts to close [tk], each followed by a
    sleep of [d]. *)
Fixpoint after_failed_closes {W} (env : Env W) (tk : Z) (d : float) (n : nat)
         (w : W) : W :=
  match n with
  | O => w
  | S n' =>
      after_failed_closes env tk d n'
        (snd (time_sleep env d (snd (close_position env tk w))))
  end.

(** The world after [n] failed attempts to place the order of [i]. *)
Fixpoint after_failed_orders {W} (env : Env W) (i : TradeInstruction)
         (o : OrderType) (d : float) (n : nat) (w : W) : W :=
  match n with
  | O => w
  | S n' =>
      after_failed_orders env i o d n'
        (snd (time_sleep env d
                (snd (place_market_order env (ti_symbol i) o (ti_lot_size i)
                        (ti_stop_loss i) (ti_exit_price i) (ti_comment i) w))))
  end.

(** [if ticket:] fails on [None] and on the ticket 0. *)
Definition falsy_ticket (o : option Z) : bool :=
  match o with
  | None => true
  | Some t => Z.eqb t 0
  end.

(** The order came back without a ticket: the call returned [None] or the
    ticket 0. *)
Definition refused_order (r : outcome (option Z)) : bool :=
  match r with
  | Return o => falsy_ticket o
  | Raise _ => false
  end.

(** [time.sleep(d)] returns, in every world. *)
Definition sleep_returns {W} (env : Env W) (d : float) : Prop :=
  forall w, fst (time_sleep env d w) = Return tt.

(** [time.sleep(d)] raises [e], in every world. *)
Definition sleep_raises {W} (env : Env W) (d : float) (e : exn) : Prop :=
  forall w, fst (time_sleep env d w) = Raise e.

(** Line 360. *)
Definition order_type_of (i : TradeInstruction) : OrderType :=
  if String.eqb (ti_direction i) "buy" then BUY else SELL.

(** ** The lock discipline, read off a trace *)

(** The calls that the discipline keeps out of the lock: order placement
    and position close. *)
Definition is_gateway_call (e : event) : bool :=
  match e with
  | EPlaceOrder _ _ | EClosePosition _ => true
  | _ => false
  end.

(** The recursion depth of the lock after an event. *)
Definition lock_step (d : nat) (e : event) : nat :=
  match e with
  | EAcquire => S d
  | ERelease => Nat.pred d
  | _ => d
  end.

Definition depth_after (d : nat) (l : list event) : nat :=
  fold_left lock_step l d.

(** No order and no close while the lock is held, for a run that starts
    with the lock at depth [d]. *)
Fixpoint calls_outside_lock (d : nat) (l : list event) : bool :=
  match l with
  | [] => true
  | e :: l' =>
      (negb (is_gateway_call e) || Nat.eqb d 0)
      && calls_outside_lock (lock_step d e) l'
  end.

(** An event that is neither a lock operation nor an order or a close. *)
Definition plain (e : event) : Prop :=
  is_gateway_call e = false /\ forall d, lock_step d e = d.

(** The discipline as an invariant of a run: so far every order and close
    was requested with the lock free, and the lock is now held [k] times
    over. *)
Definition disciplined {W} (k : nat) (st : State W) : Prop :=
  calls_outside_lock 0 (trace st) = true
  /\ depth_after 0 (trace st) = k
  /\ lock_depth st = k.

(** ** Invariants of a run *)

(** [keeps I m]: the method [m] takes a state in [I] to a state in [I],
    whether it returns or raises. *)
Definition keeps {W A} (I : State W -> Prop) (m : M W A) : Prop :=
  forall st o st', I st -> m st = (o, st') -> I st'.

(** An invariant that reads the monitor and the executor only. *)
Definition on_objects {W} (I : State W -> Prop) : Prop :=
  forall st st' : State W,
    monitor st' = monitor st -> executor st' = executor st -> I st -> I st'.

(** Every watched and every referenced symbol is in [U]. *)
Definition within {W} (U : gset pyval) (st : State W) : Prop :=
  watched st ⊆ U /\ referenced (executor st) ⊆ U.

(** ** Removing an instruction *)

(** The symbol [sym] is used by an instruction with another id than [id]
    or by an active trade: the two searches of lines 137-146. *)
Definition used_elsewhere (e : Executor) (id : Z) (sym : pyval) : Prop :=
  (exists o, In o (trade_instructions e) /\ ti_id o <> id /\ ti_symbol o = sym)
  \/ (exists t, In t (active_trades e) /\ symbol t = sym).

(** ** A broker that answers *)

(** The broker reports connected and quotes every symbol, in every
    world. *)
Definition reliable_quotes {W} (env : Env W) : Prop :=
  (forall w, fst (is_connected env w) = true)
  /\ (forall s w, is_Some (fst (broker_get_price env (PyStr s) w))).

(** The symbols of the active trades. *)
Definition trade_symbols (e : Executor) : gset pyval :=
  list_to_set (map symbol (active_trades e)).

(** [close_position] raises nothing: it returns [True] or [False], for
    every ticket and in every world. *)
Definition closes_return {W} (env : Env W) : Prop :=
  forall t w, exists b, fst (close_position env t w) = Return b.

(** [place_market_order] raises nothing, whatever the order and the
    world. *)
Definition orders_return {W} (env : Env W) : Prop :=
  forall s o lot sl tp c w,
    exists t, fst (place_market_order env s o lot sl tp c w) = Return t.

(** The broker closes every position at every request. *)
Definition always_closes {W} (env : Env W) : Prop :=
  forall t w, fst (close_position env t w) = Return true.

(** The broker closes no position. *)
Definition never_closes {W} (env : Env W) : Prop :=
  forall t w, fst (close_position env t w) = Return false.

(** ** Executing an instruction *)

(** The record of lines 375-385: the instruction [i] filled under the
    ticket [tk] at the time [now], with the quote [q] that the caller
    passed. *)
Definition trade_of (i : TradeInstruction) (q : Quote) (tk : Z) (now : float)
  : ActiveTrade :=
  mkTrade tk (ti_symbol i)
          (match order_type_of i with BUY => ask q | SELL => bid q end)
          (ti_exit_price i) (ti_stop_loss i) (ti_lot_size i)
          (ti_direction i) (ti_comment i) now.

(** Every order among the events is an order of [i]. *)
Definition orders_of (i : TradeInstruction) (evs : list event) : Prop :=
  forall s o, In (EPlaceOrder s o) evs -> s = ti_symbol i /\ o = order_type_of i.

(** Every order among the events is for the symbol [sym]. *)
Definition orders_for (sym : pyval) (evs : list event) : Prop :=
  forall s o, In (EPlaceOrder s o) evs -> s = sym.

(** No position is closed among the events. *)
Definition no_close (evs : list event) : Prop :=
  forall t, ~ In (EClosePosition t) evs.

(** The broker raises [x] at an order of [i], in some world. *)
Definition order_raises {W} (env : Env W) (i : TradeInstruction) (x : exn)
  : Prop :=
  exists w,
    fst (place_market_order env (ti_symbol i) (order_type_of i)
           (ti_lot_size i) (ti_stop_loss i) (ti_exit_price i) (ti_comment i) w)
    = Raise x.

(** [time.sleep(d)] raises [x], in some world. *)
Definition sleep_may_raise {W} (env : Env W) (d : float) (x : exn) : Prop :=
  exists w, fst (time_sleep env d w) = Raise x.

(** What [_execute_trade] did for [i] between two states: the three
    endings of its own, and the exception of an order or of a sleep, which
    it does not catch. *)
Inductive execution {W} (env : Env W) (i : TradeInstruction) (q : Quote)
          (e e' : Executor) : outcome bool -> Prop :=
| not_filled :
    e' = e -> execution env i q e e' (Return false)
| filled tk now rest :
    tk <> 0 ->
    TradeExecutor.remove_first (fun j => Z.eqb (ti_id j) (ti_id i))
                               (trade_instructions e) = Some rest ->
    e' = TradeExecutor.set_instructions rest
           (TradeExecutor.set_trades (active_trades e ++ [trade_of i q tk now]) e) ->
    execution env i q e e' (Return true)
| filled_unlisted tk now :
    tk <> 0 ->
    ~ In (ti_id i) (map ti_id (trade_instructions e)) ->
    e' = TradeExecutor.set_trades (active_trades e ++ [trade_of i q tk now]) e ->
    execution env i q e e' (Raise ValueError)
| interrupted x :
    e' = e ->
    order_raises env i x \/ sleep_may_raise env (retry_delay e) x ->
    execution env i q e e' (Raise x).

(** The test of lines 305-313 for the symbol [sym] at the quote [q]. *)
Definition due (sym : pyval) (q : Quote) (i : TradeInstruction) : bool :=
  bool_decide (ti_symbol i = sym) && TradeExecutor.entry_condition q i.

(** The trade [t] is the fill at [q] of an instruction of [l] that is not
    in [l'] any more. *)
Definition fill_of (q : Quote) (l l' : list TradeInstruction) (t : ActiveTrade)
  : Prop :=
  exists i tk now,
    In i l /\ ~ In i l' /\ tk <> 0 /\ t = trade_of i q tk now.

(** ** The broker connection *)

(** The requests that were sent with [order_send], oldest first. *)
Definition requests (l : list BrokerConnection.call)
  : list BrokerConnection.Request :=
  flat_map (fun c => match c with
                     | BrokerConnection.COrderSend rq _ => [rq]
                     | _ => []
                     end) l.

(** Whether a terminal session is open after the calls: a successful
    [initialize] opens one, [shutdown] ends it. *)
Definition session_step (open : bool) (c : BrokerConnection.call) : bool :=
  match c with
  | BrokerConnection.CInitialize true => true
  | BrokerConnection.CShutdown => false
  | _ => open
  end.

Definition session_open (l : list BrokerConnection.call) : bool :=
  fold_left session_step l false.

(** Calls that only look: the connection test and log records. *)
Definition looks_only (c : BrokerConnection.call) : Prop :=
  match c with
  | BrokerConnection.CTerminalInfo _ | BrokerConnection.CLog _ => True
  | _ => False
  end.

(** The method [m] fails at once in [w]: it returns [failure], leaves the
    object as it was, and nothing reached the terminal but the test of the
    connection. *)
Definition fails_quietly {T A} (m : BrokerConnection.B T A) (failure : A)
           (w : BrokerConnection.World T) : Prop :=
  exists w' new,
    m w = (Return failure, w')
    /\ BrokerConnection.connection w' = BrokerConnection.connection w
    /\ BrokerConnection.calls w' = BrokerConnection.calls w ++ new
    /\ Forall looks_only new.

(** The flag [_connected] tells whether a session is open, and it is set
    only on the platform MT5 with the package installed. *)
Definition sound_connection {T} (mt5 : BrokerConnection.MT5 T)
           (w : BrokerConnection.World T) : Prop :=
  BrokerConnection._connected (BrokerConnection.connection w)
  = session_open (BrokerConnection.calls w)
  /\ (BrokerConnection._connected (BrokerConnection.connection w) = true ->
      BrokerConnection.on_mt5 (BrokerConnection.connection w) = true
      /\ BrokerConnection.MT5_AVAILABLE mt5 = true).

(** What the result of [order_send] makes of a market order. *)
Definition order_outcome (r : option BrokerConnection.OrderResult)
  : outcome (option Z) :=
  match r with
  | None => Raise AttributeError
  | Some r =>
      if Z.eqb (BrokerConnection.retcode r) BrokerConnection.TRADE_RETCODE_DONE
      then Return (Some (BrokerConnection.order r))
      else Return None
  end.

(** What it makes of a close or a modification. *)
Definition done_outcome (r : option BrokerConnection.OrderResult)
  : outcome bool :=
  match r with
  | None => Raise AttributeError
  | Some r =>
      Return (Z.eqb (BrokerConnection.retcode r)
                    BrokerConnection.TRADE_RETCODE_DONE)
  end.

(** ** Settings *)

(** The names of the placeholders that [_process_env_vars] meets in a
    value, in the order in which it meets them: those of the strings that
    are values of a mapping, at any depth of mappings, and none from inside
    a sequence. *)
Fixpoint placeholders (value : Settings.yaml) : list string :=
  match value with
  | Settings.YDict items => flat_map (fun kv => placeholders (snd kv)) items
  | Settings.YScalar (PyStr s) =>
      match Settings.placeholder s with
      | Some env_var => [env_var]
      | None => []
      end
  | _ => []
  end.

(** The placeholders of the items of a mapping. *)
Definition placeholders_of (items : list (string * Settings.yaml))
  : list string :=
  flat_map (fun kv => placeholders (snd kv)) items.

(** No variable of the environment holds a placeholder. *)
Definition plain_environ (environ : string -> option string) : Prop :=
  forall x v, environ x = Some v -> Settings.placeholder v = None.

(** How [add_trade_instruction] answers a dict whose required fields are
    there and numeric: it takes it; or it stores it and leaves with the
    [TypeError] of the monitor's set, for a symbol that is unhashable; or
    it refuses its direction, by raising [AttributeError] for a direction
    that is no string or by returning [False] for a string that is neither
    "buy" nor "sell" in lower case. *)
Definition taken_or_direction {W} (env : Env W) (r : RawInstruction)
           (st : State W) : Prop :=
  (exists st', TradeExecutor.add_trade_instruction env r st = (Return true, st'))
  \/ (exists v,
        raw_symbol r = Some v
        /\ hashable v = false
        /\ fst (TradeExecutor.add_trade_instruction env r st)
           = Raise TypeError)
  \/ (exists v,
        raw_direction r = Some v
        /\ py_lower v = Raise AttributeError
        /\ fst (TradeExecutor.add_trade_instruction env r st)
           = Raise AttributeError)
  \/ (exists v d,
        raw_direction r = Some v
        /\ py_lower v = Return d /\ d <> "buy" /\ d <> "sell"
        /\ fst (TradeExecutor.add_trade_instruction env r st) = Return false).

(** * Example data *)

(** ** Brokers *)

Definition eurusd_quote : Quote := mkQuote 1.0950%float 1.0952%float None.

(** A connected broker that quotes EURUSD, has no open position, fills
    orders from ticket 1001 on and closes positions. *)
Definition quoting_world : MockWorld :=
  mkMock true [("EURUSD", eurusd_quote)] [] true (Some 1001) 0%float false.

(** The same broker, disconnected. *)
Definition unplugged_world : MockWorld :=
  mkMock false [("EURUSD", eurusd_quote)] [] true (Some 1001) 100%float false.

(** The broker with the position 1001 open, which it closes on request. *)
Definition filled_world : MockWorld :=
  mkMock true [("EURUSD", eurusd_quote)]
         [mkPosition 1001 "EURUSD" (Some (PyStr "buy")) (Some 1.1050%float)
                     (Some 1.0950%float)]
         true (Some 1002) 0%float false.

(** The broker with the position 1001 open, refusing closes and orders. *)
Definition refusing_world : MockWorld :=
  mkMock true [("EURUSD", eurusd_quote)]
         [mkPosition 1001 "EURUSD" (Some (PyStr "buy")) (Some 1.1050%float)
                     (Some 1.0950%float)]
         false None 0%float false.

(** A broker that refuses every close and fills no order, whatever the
    world. *)
Definition refusing_env : Env MockWorld :=
  mkEnv MockWorld
    (is_connected (mock_env []))
    (broker_get_price (mock_env []))
    (get_positions (mock_env []))
    (fun _ _ _ _ _ _ w => (Return None, w))
    (fun _ w => (Return false, w))
    (time_time (mock_env []))
    (time_sleep (mock_env []))
    (stop_is_set (mock_env []))
    (str_to_float (mock_env [])).

(** The market at a bid and an ask, with the positions that are open and
    the ticket of the next fill. *)
Definition market (b a : float) (positions : list Position) (next : Z)
  : MockWorld :=
  mkMock true [("EURUSD", mkQuote b a (Some 0%float))] positions true
         (Some next) 0%float false.

(** ** States *)

(** The two objects right after their constructors, three retries one
    second apart. *)
Definition fresh_state : State MockWorld := start_state quoting_world 3 1%float.

(** A monitor that watches EURUSD and holds a quote without "time" for
    it. *)
Definition cached_monitor : Monitor :=
  mkMonitor 1%float {[PyStr "EURUSD"]} {[PyStr "EURUSD" := eurusd_quote]} [] [] [].

Definition plugged_state : State MockWorld :=
  mkState quoting_world cached_monitor empty_executor O [].

Definition unplugged_state : State MockWorld :=
  mkState unplugged_world cached_monitor empty_executor O [].

(** An executor without instructions and trades at a broker without
    positions, and EURUSD left in the watch-list. *)
Definition idle_state : State MockWorld :=
  mkState quoting_world
    (mkMonitor 1%float {[PyStr "EURUSD"]} {[PyStr "EURUSD" := eurusd_quote]}
               [on_entry_condition] [on_exit_condition] [on_sl_condition])
    (mkExecutor 3 1%float [] [] 1)
    O [].



(** An executor with one open buy trade, ticket 1001. *)
Definition open_trade : ActiveTrade :=
  mkTrade 1001 (PyStr "EURUSD") 1.0999%float 1.1050%float 1.0950%float 1%float
          "buy" (PyStr "Hunter Bot") 0%float.

Definition one_trade_state (w : MockWorld) : State MockWorld :=
  mkState w
    (mkMonitor 1%float {[PyStr "EURUSD"]} {[PyStr "EURUSD" := eurusd_quote]}
               [on_entry_condition] [on_exit_condition] [on_sl_condition])
    (mkExecutor 3 1%float [] [open_trade] 1)
    O [].

(** The same executor with a negative [retry_delay], which [time.sleep]
    refuses. *)
Definition hasty_state (w : MockWorld) : State MockWorld :=
  mkState w
    (mkMonitor 1%float {[PyStr "EURUSD"]} {[PyStr "EURUSD" := eurusd_quote]}
               [on_entry_condition] [on_exit_condition] [on_sl_condition])
    (mkExecutor 3 (-1)%float [] [open_trade] 1)
    O [].

(** ** Instructions *)

(** The instruction of the specification's end-to-end example. *)
Definition buy_instruction : RawInstruction :=
  mkRaw (Some (PyStr "EURUSD")) (Some (PyFloat 1.1000%float))
        (Some (PyFloat 1.1050%float)) (Some (PyFloat 1.0950%float))
        (Some (PyFloat 1%float)) (Some (PyStr "buy")) None.

(** The same without "direction". *)
Definition eurusd_instruction : RawInstruction :=
  mkRaw (Some (PyStr "EURUSD")) (Some (PyFloat 1.1000%float))
        (Some (PyFloat 1.1050%float)) (Some (PyFloat 1.0950%float))
        (Some (PyFloat 1%float)) None None.

(** With a lot size that is no number. *)
Definition bad_lot_instruction : RawInstruction :=
  mkRaw (Some (PyStr "EURUSD")) (Some (PyFloat 1.1000%float))
        (Some (PyFloat 1.1050%float)) (Some (PyFloat 1.0950%float))
        (Some (PyStr "abc")) (Some (PyStr "buy")) None.

(** With a direction that is no string: the [None] of a JSON null. *)
Definition null_direction_instruction : RawInstruction :=
  mkRaw (Some (PyStr "EURUSD")) (Some (PyFloat 1.1000%float))
        (Some (PyFloat 1.1050%float)) (Some (PyFloat 1.0950%float))
        (Some (PyFloat 1%float)) (Some PyNone) None.

(** With an entry price that is an integer beyond the floats. *)
Definition huge_entry_instruction : RawInstruction :=
  mkRaw (Some (PyStr "EURUSD")) (Some (PyInt (10 ^ 400)))
        (Some (PyFloat 1.1050%float)) (Some (PyFloat 1.0950%float))
        (Some (PyFloat 1%float)) (Some (PyStr "buy")) None.

(** With a symbol that is a list, as [json.load] yields one for a JSON
    array. *)
Definition list_symbol_instruction : RawInstruction :=
  mkRaw (Some (PyContainer "[1, 2]")) (Some (PyFloat 1.1000%float))
        (Some (PyFloat 1.1050%float)) (Some (PyFloat 1.0950%float))
        (Some (PyFloat 1%float)) (Some (PyStr "buy")) None.

(** ** The end-to-end example of the specification

    The instruction is added above the entry price; the ask falls to
    1.0999 and a cycle runs; the bid rises to 1.1050 and a cycle runs. *)
Definition after_add : State MockWorld :=
  snd (TradeExecutor.add_trade_instruction (mock_env []) buy_instruction
         (start_state (market 1.1010 1.1012 [] 1001) 3 1%float)).

Definition after_entry : State MockWorld :=
  snd (poll_cycle (mock_env [])
         (set_world (market 1.0997 1.0999 [] 1001) after_add)).

Definition after_exit : State MockWorld :=
  snd (poll_cycle (mock_env [])
         (set_world
            (market 1.1050 1.1052
               [mkPosition 1001 "EURUSD" (Some (PyStr "buy")) (Some 1.1050%float)
                           (Some 1.0950%float)] 1002)
            after_entry)).

(** ** Backlogs and registries *)

(** A pending buy instruction with the id and the symbol given. *)
Definition pending (id : Z) (sym : string) : TradeInstruction :=
  mkInstruction id (PyStr sym) 1.1000%float 1.1050%float 1.0950%float 1%float "buy"
                (PyStr "Hunter Bot").

(** Two pending instructions on EURUSD, ids 1 and 2, and one on GBPUSD,
    id 3; no trade. *)
Definition backlog_state : State MockWorld :=
  mkState quoting_world
    (mkMonitor 1%float ({[PyStr "EURUSD"]} ∪ {[PyStr "GBPUSD"]})
               {[PyStr "EURUSD" := eurusd_quote]}
               [on_entry_condition] [on_exit_condition] [on_sl_condition])
    (mkExecutor 3 1%float
                [pending 1 "EURUSD"; pending 2 "EURUSD"; pending 3 "GBPUSD"]
                [] 4)
    O [].

(** A second open trade, ticket 1002, and an executor with both. *)
Definition second_trade : ActiveTrade :=
  mkTrade 1002 (PyStr "GBPUSD") 1.2500%float 1.2600%float 1.2400%float 1%float
          "buy" (PyStr "Hunter Bot") 0%float.

Definition two_trade_state : State MockWorld :=
  mkState filled_world
    (mkMonitor 1%float ({[PyStr "EURUSD"]} ∪ {[PyStr "GBPUSD"]})
               {[PyStr "EURUSD" := eurusd_quote]}
               [on_entry_condition] [on_exit_condition] [on_sl_condition])
    (mkExecutor 3 1%float [pending 1 "EURUSD"] [open_trade; second_trade] 2)
    O [].

(** A broker that closes whatever it is asked to close. *)
Definition closing_env : Env MockWorld :=
  mkEnv MockWorld
    (is_connected (mock_env []))
    (broker_get_price (mock_env []))
    (get_positions (mock_env []))
    (place_market_order (mock_env []))
    (fun _ w => (Return true, w))
    (time_time (mock_env []))
    (time_sleep (mock_env []))
    (stop_is_set (mock_env []))
    (str_to_float (mock_env [])).

(** A broker that is connected and quotes every symbol, whatever the
    world. *)
Definition steady_env : Env MockWorld :=
  mkEnv MockWorld
    (fun w => (true, w))
    (fun _ w => (Some eurusd_quote, w))
    (get_positions (mock_env []))
    (place_market_order (mock_env []))
    (close_position (mock_env []))
    (time_time (mock_env []))
    (time_sleep (mock_env []))
    (stop_is_set (mock_env []))
    (str_to_float (mock_env [])).

(** ** A scripted terminal

    The terminal of the examples: whether [initialize] succeeds and the
    terminal answers, the one symbol it knows with its tick, the one
    position it holds, and the result of the next [order_send]. *)
Record MockTerminal : Type := mkTerminal {
  mt_starts : bool;
  mt_alive : bool;
  mt_symbol : string;
  mt_info : BrokerConnection.SymbolInfo;
  mt_tick : BrokerConnection.Tick;
  mt_position : BrokerConnection.TerminalPosition;
  mt_result : option BrokerConnection.OrderResult
}.

Definition mock_mt5 (available : bool) : BrokerConnection.MT5 MockTerminal :=
  BrokerConnection.mkMT5 MockTerminal available
    (fun _ _ _ _ t => (mt_starts t, t))
    (fun t => t)
    (fun t => t)
    (fun t => (mt_alive t, t))
    (fun t => (if mt_alive t
               then Some (BrokerConnection.mkAccountInfo "Demo" 1)
               else None, t))
    (fun s t => (if String.eqb s (mt_symbol t) then Some (mt_info t) else None, t))
    (fun _ _ t => (true, t))
    (fun s t => (if String.eqb s (mt_symbol t) then Some (mt_tick t) else None, t))
    (fun _ t => (mt_result t, t))
    (fun tk t =>
       (Some (if Z.eqb tk (BrokerConnection.tp_ticket (mt_position t))
              then [mt_position t] else []), t)).

(** A terminal that quotes EURUSD at 1.0950/1.0952, holds the sell
    position 7 of 0.5 lots and fills the next order under the ticket 8. *)
Definition demo_terminal : MockTerminal :=
  mkTerminal true true "EURUSD"
    (BrokerConnection.mkSymbolInfo true 1.0950%float 1.0952%float)
    (BrokerConnection.mkTick 1.0950%float 1.0952%float 1700000000%float)
    (BrokerConnection.mkTerminalPosition 7 "EURUSD" 0.5%float 1
                                         1.1000%float 1.0900%float)
    (Some (BrokerConnection.mkOrderResult 10009 8)).

(** A connection object on [platform], connected or not, with no call made
    so far. *)
Definition demo_connection (platform : string) (connected : bool)
  : BrokerConnection.World MockTerminal :=
  BrokerConnection.mkWorld demo_terminal
    (BrokerConnection.mkConnection platform "Demo-Server" (PyInt 1) "secret"
                                   None connected)
    [].

(** ** A configuration *)

(** A document with a password from the environment, a nested mapping and
    a placeholder inside a sequence. *)
Definition demo_settings : list (string * Settings.yaml) :=
  [("broker",
    Settings.YDict
      [("platform", Settings.YScalar (PyStr "MT5"));
       ("password", Settings.YScalar (PyStr "${MT5_PASSWORD}"))]);
   ("symbols",
    Settings.YList [Settings.YScalar (PyStr "${SYMBOL}")]);
   ("general",
    Settings.YDict [("update_interval", Settings.YScalar (PyFloat 1%float))])].

Definition demo_environ (x : string) : option string :=
  if String.eqb x "MT5_PASSWORD" then Some "secret" else None.

(** * Properties *)

(** ** Reading the monad *)

Ltac run :=
  unfold bind, ret, raise, log, emit, call, call_raising, get_monitor,
    get_executor, modify_monitor, modify_executor, lift_outcome, with_lock,
    acquire, release, try_except in *;
  cbn [fst snd world monitor executor lock_depth trace] in *.

Lemma bind_return {W A B} (m : M W A) (k : A -> M W B) st a st' :
  m st = (Return a, st') -> bind m k st = k a st'.
Proof. intros H. unfold bind. now rewrite H. Qed.

Lemma bind_raise {W A B} (m : M W A) (k : A -> M W B) st e st' :
  m st = (Raise e, st') -> bind m k st = (Raise e, st').
Proof. intros H. unfold bind. now rewrite H. Qed.
(** ** The trigger predicates

    C8.  The trigger predicates compare the current quote with the level,
    boundary included: given the quote [q] that [get_price] returns, the
    entry condition of a buy instruction holds iff [ask q <= entry_price]
    and of a sell instruction iff [bid q >= entry_price] (for the monitor's
    [check_entry_condition] and for the executor's test); the take-profit
    condition of a buy position holds iff [bid q >= take_profit] and of a
    sell position iff [ask q <= take_profit]; the stop-loss condition of a
    buy position holds iff [bid q <= stop_loss] and of a sell position iff
    [ask q >= stop_loss].  The kind of a position is its "type" in lower
    case, the empty string when the key is missing; for a position with
    the level and a "type" that is no [str], the two position predicates
    raise the [AttributeError] of [.lower()] instead of returning. *)
Theorem trigger_predicates_inclusive {W} (env : Env W) (st st' : State W)
        (sym : pyval) (q : Quote)
        (Hquote : PriceMonitor.get_price env sym st = (Return (Some q), st')) :
  (forall r v entry d,
      raw_entry_price r = Some v ->
      py_float (str_to_float env) v = Return entry ->
      py_lower (default (PyStr "buy") (raw_direction r)) = Return d ->
      exists b, PriceMonitor.check_entry_condition env sym r st = (Return b, st')
                /\ (d = "buy" -> (b = true <-> fle (ask q) entry))
                /\ (d = "sell" -> (b = true <-> fge (bid q) entry)))
  /\ (forall i,
         (ti_direction i = "buy" ->
          (TradeExecutor.entry_condition q i = true <-> fle (ask q) (ti_entry_price i)))
         /\ (ti_direction i = "sell" ->
             (TradeExecutor.entry_condition q i = true <-> fge (bid q) (ti_entry_price i))))
  /\ (forall pos take_profit,
         pos_take_profit pos = Some take_profit ->
         (forall kind,
             py_lower (default (PyStr "") (pos_type pos)) = Return kind ->
             exists b, PriceMonitor.check_exit_condition env sym pos st = (Return b, st')
                       /\ (kind = "buy" -> (b = true <-> fge (bid q) take_profit))
                       /\ (kind = "sell" -> (b = true <-> fle (ask q) take_profit)))
         /\ (py_lower (default (PyStr "") (pos_type pos)) = Raise AttributeError ->
             PriceMonitor.check_exit_condition env sym pos st
             = (Raise AttributeError, st')))
  /\ (forall pos stop_loss,
         pos_stop_loss pos = Some stop_loss ->
         (forall kind,
             py_lower (default (PyStr "") (pos_type pos)) = Return kind ->
             exists b, PriceMonitor.check_sl_condition env sym pos st = (Return b, st')
                       /\ (kind = "buy" -> (b = true <-> fle (bid q) stop_loss))
                       /\ (kind = "sell" -> (b = true <-> fge (ask q) stop_loss)))
         /\ (py_lower (default (PyStr "") (pos_type pos)) = Raise AttributeError ->
             PriceMonitor.check_sl_condition env sym pos st
             = (Raise AttributeError, st'))).
Proof.
  unfold fle, fge. split; [|split; [|split]].
  - intros r v entry d Hv Hf Hd.
    unfold PriceMonitor.check_entry_condition.
    unfold bind, lift_outcome, ret. rewrite Hquote, Hv, Hf, Hd.
    exists ((String.eqb d "buy" && PrimFloat.leb (ask q) entry)
            || (String.eqb d "sell" && PrimFloat.leb entry (bid q)))%bool.
    split.
    + destruct (String.eqb d "buy" && _)%bool; [reflexivity|].
      destruct (String.eqb d "sell" && _)%bool; reflexivity.
    + split; intros ->; cbn; [rewrite orb_false_r|]; reflexivity.
  - intros i. unfold TradeExecutor.entry_condition.
    split; intros ->; cbn; [rewrite orb_false_r|]; reflexivity.
  - intros pos tp Htp.
    unfold PriceMonitor.check_exit_condition.
    unfold bind, lift_outcome, ret. rewrite Hquote, Htp.
    split; [intros kind Hkind|intros Hkind]; rewrite Hkind; [|reflexivity].
    exists ((String.eqb kind "buy" && PrimFloat.leb tp (bid q))
            || (String.eqb kind "sell" && PrimFloat.leb (ask q) tp))%bool.
    split.
    + destruct (String.eqb _ "buy" && _)%bool; [reflexivity|].
      destruct (String.eqb _ "sell" && _)%bool; reflexivity.
    + split; intros ->; cbn; [rewrite orb_false_r|]; reflexivity.
  - intros pos sl Hsl.
    unfold PriceMonitor.check_sl_condition.
    unfold bind, lift_outcome, ret. rewrite Hquote, Hsl.
    split; [intros kind Hkind|intros Hkind]; rewrite Hkind; [|reflexivity].
    exists ((String.eqb kind "buy" && PrimFloat.leb (bid q) sl)
            || (String.eqb kind "sell" && PrimFloat.leb sl (ask q)))%bool.
    split.
    + destruct (String.eqb _ "buy" && _)%bool; [reflexivity|].
      destruct (String.eqb _ "sell" && _)%bool; reflexivity.
    + split; intros ->; cbn; [rewrite orb_false_r|]; reflexivity.
Qed.

Lemma trigger_predicates_witness :
  (exists b st',
      PriceMonitor.check_sl_condition (mock_env []) (PyStr "EURUSD")
        (mkPosition 1001 "EURUSD" (Some (PyStr "BUY")) None (Some 1.0950%float))
        (start_state quoting_world 3 1%float) = (Return b, st')
      /\ b = true)
  /\ fst (PriceMonitor.check_sl_condition (mock_env []) (PyStr "EURUSD")
            (mkPosition 1001 "EURUSD" (Some PyNone) None (Some 1.0950%float))
            (start_state quoting_world 3 1%float))
     = Raise AttributeError.
Proof.
  destruct (trigger_predicates_inclusive (mock_env []) (start_state quoting_world 3 1%float)
              _ (PyStr "EURUSD") eurusd_quote eq_refl) as (_ & _ & _ & Hsl).
  split.
  - destruct (Hsl (mkPosition 1001 "EURUSD" (Some (PyStr "BUY")) None
                              (Some 1.0950%float))
                  1.0950%float eq_refl) as [Hreturns _].
    destruct (Hreturns "buy" eq_refl) as (b & Hrun & Hbuy & _).
    exists b. eexists. split; [exact Hrun|].
    apply Hbuy; reflexivity.
  - destruct (Hsl (mkPosition 1001 "EURUSD" (Some PyNone) None
                              (Some 1.0950%float))
                  1.0950%float eq_refl) as [_ Hraises].
    now rewrite (Hraises eq_refl).
Defined.
(** ** The quote cache *)

(** C10, as the claim states it, fails: with the broker disconnected
    [get_price] returns [None], not the cached entry. *)
Lemma get_price_cached_counterexample :
  price_data (monitor unplugged_state) !! PyStr "EURUSD" = Some eurusd_quote
  /\ time eurusd_quote = None
  /\ fst (PriceMonitor.get_price (mock_env []) (PyStr "EURUSD") unplugged_state)
     = Return None.
Proof. repeat split. Qed.

(** C10, amended.  When the broker reports that it is not connected,
    [get_price] returns [None], whatever the cache holds: the broker is
    asked for no quote and an error is logged.  For a symbol whose cached
    entry has no "time", once the broker has reported connected [get_price]
    returns the cached entry whatever the clock says; the broker is asked
    whether it is connected and for no quote.  An entry with a "time" is
    returned when it is younger than five seconds and fetched again
    otherwise. *)
Theorem get_price_timeless_cache {W} (env : Env W) (st : State W)
        (sym : pyval) :
  (forall w1,
      is_connected env (world st) = (false, w1) ->
      PriceMonitor.get_price env sym st
      = (Return None, moved st w1 [EIsConnected; ELog ERROR]))
  /\ (forall (q : Quote) (w1 w2 : W) (now : float),
         hashable sym = true ->
         price_data (monitor st) !! sym = Some q ->
         is_connected env (world st) = (true, w1) ->
         time_time env w1 = (now, w2) ->
         (time q = None ->
          PriceMonitor.get_price env sym st
          = (Return (Some q), moved st w2 [EIsConnected; EClock]))
         /\ (forall t, time q = Some t ->
               PriceMonitor.get_price env sym st
               = if PrimFloat.ltb (PrimFloat.sub now t) 5
                 then (Return (Some q), moved st w2 [EIsConnected; EClock])
                 else PriceMonitor.fetch_price env sym
                        (moved st w2 [EIsConnected; EClock]))).
Proof.
  split.
  - intros w1 Hdown.
    unfold PriceMonitor.get_price, broker_is_connected, moved.
    run. rewrite Hdown. cbn. now rewrite <- app_assoc.
  - intros q w1 w2 now Hhash Hcached Hconnected Hclock.
    assert (Hrun : PriceMonitor.get_price env sym st
                   = if PriceMonitor.fresh now q
                     then (Return (Some q), moved st w2 [EIsConnected; EClock])
                     else PriceMonitor.fetch_price env sym
                            (moved st w2 [EIsConnected; EClock])).
    { unfold PriceMonitor.get_price, broker_is_connected, clock, moved.
      run. rewrite Hconnected. cbn. rewrite Hhash. cbn. rewrite Hcached. run.
      rewrite Hclock. cbn. rewrite <- app_assoc. cbn.
      destruct (PriceMonitor.fresh now q); reflexivity. }
    unfold PriceMonitor.fresh in Hrun.
    split.
    + intros Ht. now rewrite Ht in Hrun.
    + intros t Ht. now rewrite Ht in Hrun.
Qed.

Lemma get_price_timeless_cache_witness :
  fst (PriceMonitor.get_price (mock_env []) (PyStr "EURUSD") plugged_state)
  = Return (Some eurusd_quote)
  /\ fst (PriceMonitor.get_price (mock_env []) (PyStr "EURUSD") unplugged_state)
     = Return None.
Proof.
  split.
  - destruct (get_price_timeless_cache (mock_env []) plugged_state
                (PyStr "EURUSD")) as [_ H].
    destruct (H eurusd_quote quoting_world quoting_world 0%float
                eq_refl eq_refl eq_refl eq_refl) as [Hq _].
    now rewrite (Hq eq_refl).
  - destruct (get_price_timeless_cache (mock_env []) unplugged_state
                (PyStr "EURUSD")) as [H _].
    now rewrite (H unplugged_world eq_refl).
Defined.
(** ** Closing a trade that is not there *)

Lemma find_ticket_None (tk : Z) (l : list ActiveTrade) :
  ~ In tk (map ticket l) ->
  List.find (fun t => Z.eqb (ticket t) tk) l = None.
Proof.
  induction l as [|t l IH]; cbn [List.find map]; [reflexivity|].
  intros H. destruct (Z.eqb_spec (ticket t) tk) as [E|_].
  - exfalso. apply H. now left.
  - apply IH. intros Hin. apply H. now right.
Qed.

(** C9.  For a ticket that no active trade carries, [close_trade] returns
    [False] at once: the world is as before (no broker call, no sleep), and
    so are the backlog, the registry and the watch-list; the run is a lock
    round and a warning. *)
Theorem close_trade_unknown_ticket {W} (env : Env W) (st : State W) (tk : Z)
        (Habsent : ~ In tk (map ticket (active_trades (executor st)))) :
  TradeExecutor.close_trade env tk st
  = (Return false, moved st (world st) [EAcquire; ERelease; ELog WARNING]).
Proof.
  unfold TradeExecutor.close_trade, TradeExecutor._close_trade, moved.
  run. rewrite (find_ticket_None _ _ Habsent). cbn.
  now rewrite <- !app_assoc.
Qed.

Lemma close_trade_unknown_ticket_witness :
  fst (TradeExecutor.close_trade (mock_env []) 7
         (start_state quoting_world 3 1%float)) = Return false.
Proof.
  rewrite (close_trade_unknown_ticket (mock_env [])
             (start_state quoting_world 3 1%float) 7).
  - reflexivity.
  - cbn. intros [].
Defined.

(** ** Adding an instruction *)

(** [add_symbol] leaves the executor and the lock alone; it returns, or
    it raises [TypeError] for an unhashable symbol and leaves the monitor
    alone as well. *)
Lemma add_symbol_frame {W} (env : Env W) (s : pyval) (st : State W) :
  exists o st', PriceMonitor.add_symbol env s st = (o, st')
    /\ executor st' = executor st /\ lock_depth st' = lock_depth st
    /\ ((exists b, o = Return b)
        \/ (o = Raise TypeError /\ hashable s = false
            /\ monitor st' = monitor st)).
Proof.
  unfold PriceMonitor.add_symbol, broker_is_connected, broker_price. run.
  destruct (is_connected env (world st)) as [[] w1]; cbn.
  - destruct (broker_get_price env s w1) as [[p|] w2]; cbn; eauto 10.
    destruct (hashable s); cbn; eauto 10.
  - eauto 10.
Qed.

Lemma coerce_cases {W} (env : Env W) (v : pyval) (st : State W) :
  (exists f, py_float (str_to_float env) v = Return f
             /\ TradeExecutor.coerce env v st = (Return (Some f), st))
  \/ (exists st', TradeExecutor.coerce env v st = (Return None, st')
                  /\ executor st' = executor st /\ monitor st' = monitor st
                  /\ world st' = world st /\ lock_depth st' = lock_depth st)
  \/ (exists e, TradeExecutor.coerce env v st = (Raise e, st)).
Proof.
  unfold TradeExecutor.coerce.
  destruct (py_float (str_to_float env) v) as [f|[]]; run; eauto 10.
Qed.

(** C7.  An accepted instruction without "direction" is stored as the new
    last entry of the backlog, with direction "buy" iff its exit price is
    greater than its entry price, and "sell" otherwise. *)
Theorem default_direction {W} (env : Env W) (st st' : State W)
        (r : RawInstruction)
        (Homitted : raw_direction r = None)
        (Haccepted : TradeExecutor.add_trade_instruction env r st
                     = (Return true, st')) :
  exists i v_entry v_exit,
    trade_instructions (executor st')
    = (trade_instructions (executor st) ++ [i])%list
    /\ raw_entry_price r = Some v_entry
    /\ raw_exit_price r = Some v_exit
    /\ py_float (str_to_float env) v_entry = Return (ti_entry_price i)
    /\ py_float (str_to_float env) v_exit = Return (ti_exit_price i)
    /\ (ti_direction i = "buy" <-> fgt (ti_exit_price i) (ti_entry_price i))
    /\ (ti_direction i = "sell" <-> ~ fgt (ti_exit_price i) (ti_entry_price i)).
Proof.
  unfold TradeExecutor.add_trade_instruction in Haccepted.
  destruct (existsb _ _); [run; discriminate|].
  destruct r as [[sym|] [ve|] [vx|] [vs|] [vl|] dir com]; try (run; discriminate).
  cbn [raw_symbol raw_entry_price raw_exit_price raw_stop_loss raw_lot_size
       raw_direction raw_comment] in *. subst dir.
  unfold bind at 1 in Haccepted.
  destruct (coerce_cases env ve st) as [(entry & Hfe & Hc)|[(s1 & Hc & _)|(e & Hc)]];
    rewrite Hc in Haccepted; clear Hc; try discriminate.
  unfold bind at 1 in Haccepted.
  destruct (coerce_cases env vx st) as [(exit & Hfx & Hc)|[(s1 & Hc & _)|(e & Hc)]];
    rewrite Hc in Haccepted; clear Hc; try discriminate.
  unfold bind at 1 in Haccepted.
  destruct (coerce_cases env vs st) as [(sl & Hfs & Hc)|[(s1 & Hc & _)|(e & Hc)]];
    rewrite Hc in Haccepted; clear Hc; try discriminate.
  unfold bind at 1 in Haccepted.
  destruct (coerce_cases env vl st) as [(lot & Hfl & Hc)|[(s1 & Hc & _)|(e & Hc)]];
    rewrite Hc in Haccepted; clear Hc; try discriminate.
  set (d := if PrimFloat.ltb entry exit then "buy" else "sell") in *.
  assert (Hd : lower d = d) by (subst d; destruct (PrimFloat.ltb entry exit); reflexivity).
  assert (Hok : (String.eqb d "buy" || String.eqb d "sell")%bool = true)
    by (subst d; destruct (PrimFloat.ltb entry exit); reflexivity).
  cbn [py_lower] in Haccepted. rewrite Hd in Haccepted.
  unfold bind at 1, lift_outcome in Haccepted. rewrite Hok in Haccepted.
  cbn [negb] in Haccepted.
  unfold TradeExecutor.new_instruction in Haccepted. run.
  match type of Haccepted with
  | context [PriceMonitor.add_symbol env sym ?s] =>
      destruct (add_symbol_frame env sym s)
        as (o & s' & Hadd & Hex & _ & [[b ->]|[-> _]]);
      rewrite Hadd in Haccepted; cbn in Hex; [|discriminate]
  end.
  injection Haccepted as Hst. subst st'. cbn. rewrite Hex.
  eexists. exists ve, vx. split; [reflexivity|].
  cbn. unfold fgt. subst d.
  destruct (PrimFloat.ltb entry exit); repeat split;
    try assumption; try reflexivity; try discriminate; try congruence.
Qed.

Lemma default_direction_witness :
  exists i,
    trade_instructions
      (executor (snd (TradeExecutor.add_trade_instruction (mock_env [])
                        eurusd_instruction fresh_state))) = [i]
    /\ ti_direction i = "buy".
Proof.
  assert (Hrun : TradeExecutor.add_trade_instruction (mock_env [])
                   eurusd_instruction fresh_state
                 = (Return true,
                    snd (TradeExecutor.add_trade_instruction (mock_env [])
                           eurusd_instruction fresh_state)))
    by (vm_compute; reflexivity).
  destruct (default_direction (mock_env []) fresh_state _ eurusd_instruction
              eq_refl Hrun)
    as (i & ve & vx & Hl & He & Hx & Hfe & Hfx & Hbuy & _).
  exists i. split; [exact Hl|].
  apply Hbuy. unfold fgt.
  injection He as <-. injection Hx as <-.
  injection Hfe as <-. injection Hfx as <-. reflexivity.
Defined.

(** Whatever [add_trade_instruction] does short of accepting the
    instruction, it leaves the world, the monitor, the executor and the lock
    as they were, with one exception: the instruction is appended to the
    backlog before its symbol is handed to the monitor (lines 110-114), so
    that for an unhashable symbol that the broker quotes the call raises the
    [TypeError] of [symbols_to_monitor.add] with the backlog one longer. *)
Theorem add_trade_instruction_rejects_cleanly {W} (env : Env W)
        (st st' : State W) (r : RawInstruction) (o : outcome bool) :
  TradeExecutor.add_trade_instruction env r st = (o, st') ->
  o <> Return true ->
  (world st' = world st /\ monitor st' = monitor st
   /\ executor st' = executor st /\ lock_depth st' = lock_depth st)
  \/ (exists v i,
         raw_symbol r = Some v /\ hashable v = false
         /\ o = Raise TypeError
         /\ ti_symbol i = v
         /\ trade_instructions (executor st')
            = (trade_instructions (executor st) ++ [i])%list
         /\ active_trades (executor st') = active_trades (executor st)
         /\ monitor st' = monitor st /\ lock_depth st' = lock_depth st).
Proof.
  intros Hrun Hno.
  unfold TradeExecutor.add_trade_instruction in Hrun.
  destruct (existsb _ _); [run; injection Hrun as <- <-; auto|].
  destruct r as [[sym|] [ve|] [vx|] [vs|] [vl|] dir com];
    try (run; injection Hrun as <- <-; now auto).
  cbn [raw_symbol raw_entry_price raw_exit_price raw_stop_loss raw_lot_size
       raw_direction raw_comment] in *.
  unfold bind at 1 in Hrun.
  destruct (coerce_cases env ve st)
    as [(entry & Hfe & Hc)|[(s1 & Hc & ? & ? & ? & ?)|(e & Hc)]];
    rewrite Hc in Hrun; clear Hc;
    try (run; injection Hrun as <- <-; now auto).
  unfold bind at 1 in Hrun.
  destruct (coerce_cases env vx st)
    as [(exit & Hfx & Hc)|[(s1 & Hc & ? & ? & ? & ?)|(e & Hc)]];
    rewrite Hc in Hrun; clear Hc;
    try (run; injection Hrun as <- <-; now auto).
  unfold bind at 1 in Hrun.
  destruct (coerce_cases env vs st)
    as [(sl & Hfs & Hc)|[(s1 & Hc & ? & ? & ? & ?)|(e & Hc)]];
    rewrite Hc in Hrun; clear Hc;
    try (run; injection Hrun as <- <-; now auto).
  unfold bind at 1 in Hrun.
  destruct (coerce_cases env vl st)
    as [(lot & Hfl & Hc)|[(s1 & Hc & ? & ? & ? & ?)|(e & Hc)]];
    rewrite Hc in Hrun; clear Hc;
    try (run; injection Hrun as <- <-; now auto).
  unfold bind at 1, lift_outcome in Hrun.
  destruct (py_lower _) as [d|e]; [|injection Hrun as <- <-; now auto].
  destruct (negb _); [run; injection Hrun as <- <-; now auto|].
  unfold TradeExecutor.new_instruction in Hrun. run.
  match type of Hrun with
  | context [PriceMonitor.add_symbol env sym ?s] =>
      destruct (add_symbol_frame env sym s)
        as (o' & s' & Hadd & Hex & Hlock & [[b ->]|(-> & Hunhashable & Hm)]);
      rewrite Hadd in Hrun; cbn in Hex, Hlock
  end.
  - exfalso. apply Hno. now injection Hrun as <- _.
  - right. cbn in Hm. injection Hrun as <- <-.
    exists sym. eexists. rewrite Hex, Hm, Hlock. cbn.
    repeat split; try reflexivity; assumption.
Qed.

Lemma add_trade_instruction_rejects_cleanly_witness :
  executor (snd (TradeExecutor.add_trade_instruction (mock_env [])
                   null_direction_instruction fresh_state))
  = executor fresh_state
  /\ length (trade_instructions
               (executor (snd (TradeExecutor.add_trade_instruction steady_env
                                 list_symbol_instruction fresh_state))))
     = 1%nat.
Proof.
  split.
  - assert (Hno : fst (TradeExecutor.add_trade_instruction (mock_env [])
                         null_direction_instruction fresh_state)
                  <> Return true) by (vm_compute; discriminate).
    destruct (add_trade_instruction_rejects_cleanly (mock_env []) fresh_state _
                null_direction_instruction _ (surjective_pairing _) Hno)
      as [(_ & _ & He & _)|(v & i & _ & _ & Hraise & _)].
    + exact He.
    + exfalso. revert Hraise. vm_compute. discriminate.
  - assert (Hno : fst (TradeExecutor.add_trade_instruction steady_env
                         list_symbol_instruction fresh_state)
                  <> Return true) by (vm_compute; discriminate).
    destruct (add_trade_instruction_rejects_cleanly steady_env fresh_state _
                list_symbol_instruction _ (surjective_pairing _) Hno)
      as [(_ & _ & He & _)|(v & i & _ & _ & _ & _ & Hl & _)].
    + rewrite He. exfalso. revert He. vm_compute. discriminate.
    + now rewrite Hl.
Defined.

(** A required field that is missing: [False]. *)
Lemma add_trade_instruction_missing_field {W} (env : Env W) (st : State W)
      (r : RawInstruction) :
  existsb (fun field => negb (TradeExecutor.has_key r field))
          TradeExecutor.required_fields = true ->
  TradeExecutor.add_trade_instruction env r st
  = (Return false, moved st (world st) [ELog ERROR]).
Proof.
  intros H. unfold TradeExecutor.add_trade_instruction. now rewrite H.
Qed.

(** C6 fails on the code.  A direction that is present and is no string has
    no [lower]: the call raises [AttributeError] and returns nothing.  In
    the same way an integer too large for a float raises [OverflowError],
    which the handler of lines 81-83 does not catch. *)
Theorem add_trade_instruction_raises :
  fst (TradeExecutor.add_trade_instruction (mock_env [])
         null_direction_instruction fresh_state) = Raise AttributeError
  /\ fst (TradeExecutor.add_trade_instruction (mock_env [])
            huge_entry_instruction fresh_state) = Raise OverflowError.
Proof. split; vm_compute; reflexivity. Qed.

(** ** Retries *)

Lemma length_range1 (n : Z) : length (range1 n) = Z.to_nat n.
Proof. unfold range1. now rewrite length_map, length_seq. Qed.

Lemma moved_moved {W} (st : State W) w1 w2 e1 e2 :
  moved (moved st w1 e1) w2 e2 = moved st w2 (e1 ++ e2).
Proof. unfold moved. cbn. now rewrite app_assoc. Qed.

Lemma count_app p l1 l2 : count p (l1 ++ l2) = (count p l1 + count p l2)%nat.
Proof. unfold count. now rewrite List.filter_app, length_app. Qed.

Lemma count_concat_repeat p l n :
  count p (concat (repeat l n)) = (n * count p l)%nat.
Proof.
  induction n as [|n IH]; cbn [repeat concat]; [reflexivity|].
  rewrite count_app, IH. lia.
Qed.

(** The scripted broker raises nothing, and the scripted [time.sleep]
    accepts the delays from 0 on. *)
Lemma mock_closes_return numerals : closes_return (mock_env numerals).
Proof.
  intros t w. cbn. destruct (mw_connected w); [|now exists false].
  unfold mock_close. destruct (mw_close_ok w); eauto.
Qed.

Lemma mock_orders_return numerals : orders_return (mock_env numerals).
Proof.
  intros s o lot sl tp c w. cbn.
  destruct (mw_connected w); [destruct (mock_place s o w)|]; eauto.
Qed.

Lemma mock_sleep_returns numerals d :
  PrimFloat.leb 0 d = true -> sleep_returns (mock_env numerals) d.
Proof. intros H w. cbn. unfold mock_sleep. now rewrite H. Qed.

Lemma range1_pos (n : Z) : 0 < n -> exists l, range1 n = 1 :: l.
Proof.
  intros H. unfold range1.
  destruct (Z.to_nat n) as [|k] eqn:E; [lia|].
  cbn. eauto.
Qed.

Section Retry.
Context {W : Type} (env : Env W).

(** A refused close: the attempt, the warning, the sleep. *)
Lemma close_attempt_refused tk a (st : State W) :
  fst (close_position env tk (world st)) = Return false ->
  fst (time_sleep env (retry_delay (executor st))
         (snd (close_position env tk (world st)))) = Return tt ->
  TradeExecutor.close_attempt env tk a st
  = (Return None,
     moved st (snd (time_sleep env (retry_delay (executor st))
                      (snd (close_position env tk (world st)))))
           (failed_close tk (retry_delay (executor st)))).
Proof.
  intros H Hs. unfold TradeExecutor.close_attempt, broker_close, sleep, moved.
  run. destruct (close_position env tk (world st)) as [b w1].
  cbn in H, Hs. subst b. cbn.
  destruct (time_sleep env _ w1) as [r w2]. cbn in Hs. subst r. cbn.
  now rewrite <- !app_assoc.
Qed.

(** A refused close whose sleep raises. *)
Lemma close_attempt_sleep_raises tk a e (st : State W) :
  fst (close_position env tk (world st)) = Return false ->
  fst (time_sleep env (retry_delay (executor st))
         (snd (close_position env tk (world st)))) = Raise e ->
  TradeExecutor.close_attempt env tk a st
  = (Raise e,
     moved st (snd (time_sleep env (retry_delay (executor st))
                      (snd (close_position env tk (world st)))))
           (failed_close tk (retry_delay (executor st)))).
Proof.
  intros H Hs. unfold TradeExecutor.close_attempt, broker_close, sleep, moved.
  run. destruct (close_position env tk (world st)) as [b w1].
  cbn in H, Hs. subst b. cbn.
  destruct (time_sleep env _ w1) as [r w2]. cbn in Hs. subst r. cbn.
  now rewrite <- !app_assoc.
Qed.

Lemma close_attempts_refused tk (l : list Z) (after : M W bool) (st : State W) :
  (forall w, fst (close_position env tk w) = Return false) ->
  sleep_returns env (retry_delay (executor st)) ->
  for_return l (TradeExecutor.close_attempt env tk) after st
  = after (moved st
             (after_failed_closes env tk (retry_delay (executor st))
                                  (length l) (world st))
             (concat (repeat (failed_close tk (retry_delay (executor st)))
                             (length l)))).
Proof.
  intros Hrefuse. revert st.
  induction l as [|a l IH]; intros st Hsleep.
  - cbn. unfold moved. rewrite app_nil_r. now destruct st.
  - cbn [for_return length repeat concat after_failed_closes].
    rewrite (bind_return _ _ _ _ _
               (close_attempt_refused tk a st (Hrefuse _) (Hsleep _))).
    rewrite IH by exact Hsleep. now rewrite moved_moved.
Qed.

Lemma execute_attempt_refused i q a (st : State W) :
  refused_order
    (fst (place_market_order env (ti_symbol i) (order_type_of i)
            (ti_lot_size i) (ti_stop_loss i) (ti_exit_price i)
            (ti_comment i) (world st))) = true ->
  fst (time_sleep env (retry_delay (executor st))
         (snd (place_market_order env (ti_symbol i) (order_type_of i)
                 (ti_lot_size i) (ti_stop_loss i) (ti_exit_price i)
                 (ti_comment i) (world st)))) = Return tt ->
  TradeExecutor.execute_attempt env i q (order_type_of i) a st
  = (Return None,
     moved st
       (snd (time_sleep env (retry_delay (executor st))
               (snd (place_market_order env (ti_symbol i) (order_type_of i)
                       (ti_lot_size i) (ti_stop_loss i) (ti_exit_price i)
                       (ti_comment i) (world st)))))
       (failed_order (ti_symbol i) (order_type_of i)
                     (retry_delay (executor st)))).
Proof.
  intros H Hs. unfold TradeExecutor.execute_attempt, broker_place, sleep, moved.
  run. destruct (place_market_order env _ _ _ _ _ _ (world st)) as [[[t|]|] w1];
    cbn in H, Hs |- *; [rewrite H; cbn| |discriminate];
    destruct (time_sleep env _ w1) as [r w2]; cbn in Hs; subst r; cbn;
    now rewrite <- !app_assoc.
Qed.

(** A refused order whose sleep raises. *)
Lemma execute_attempt_sleep_raises i q a e (st : State W) :
  refused_order
    (fst (place_market_order env (ti_symbol i) (order_type_of i)
            (ti_lot_size i) (ti_stop_loss i) (ti_exit_price i)
            (ti_comment i) (world st))) = true ->
  fst (time_sleep env (retry_delay (executor st))
         (snd (place_market_order env (ti_symbol i) (order_type_of i)
                 (ti_lot_size i) (ti_stop_loss i) (ti_exit_price i)
                 (ti_comment i) (world st)))) = Raise e ->
  TradeExecutor.execute_attempt env i q (order_type_of i) a st
  = (Raise e,
     moved st
       (snd (time_sleep env (retry_delay (executor st))
               (snd (place_market_order env (ti_symbol i) (order_type_of i)
                       (ti_lot_size i) (ti_stop_loss i) (ti_exit_price i)
                       (ti_comment i) (world st)))))
       (failed_order (ti_symbol i) (order_type_of i)
                     (retry_delay (executor st)))).
Proof.
  intros H Hs. unfold TradeExecutor.execute_attempt, broker_place, sleep, moved.
  run. destruct (place_market_order env _ _ _ _ _ _ (world st)) as [[[t|]|] w1];
    cbn in H, Hs |- *; [rewrite H; cbn| |discriminate];
    destruct (time_sleep env _ w1) as [r w2]; cbn in Hs; subst r; cbn;
    now rewrite <- !app_assoc.
Qed.

Lemma execute_attempts_refused i q (l : list Z) (after : M W bool)
      (st : State W) :
  (forall w,
      refused_order
        (fst (place_market_order env (ti_symbol i) (order_type_of i)
                (ti_lot_size i) (ti_stop_loss i) (ti_exit_price i)
                (ti_comment i) w)) = true) ->
  sleep_returns env (retry_delay (executor st)) ->
  for_return l (TradeExecutor.execute_attempt env i q (order_type_of i))
             after st
  = after (moved st
             (after_failed_orders env i (order_type_of i)
                (retry_delay (executor st)) (length l) (world st))
             (concat (repeat (failed_order (ti_symbol i) (order_type_of i)
                                           (retry_delay (executor st)))
                             (length l)))).
Proof.
  intros Hrefuse. revert st.
  induction l as [|a l IH]; intros st Hsleep.
  - cbn. unfold moved. rewrite app_nil_r. now destruct st.
  - cbn [for_return length repeat concat after_failed_orders].
    rewrite (bind_return _ _ _ _ _
               (execute_attempt_refused i q a st (Hrefuse _) (Hsleep _))).
    rewrite IH by exact Hsleep. now rewrite moved_moved.
Qed.
End Retry.

(** C3, as the claim states it, fails: after the last refused attempt the
    code sleeps once more, so the sleeps are not only between attempts. *)
Lemma close_trade_sleeps_counterexample :
  let run := TradeExecutor.close_trade (mock_env []) 1001
               (one_trade_state refusing_world) in
  fst run = Return false
  /\ count is_close_attempt (trace (snd run)) = 3%nat
  /\ count is_sleep (trace (snd run)) = 3%nat
  /\ sleeps_between is_close_attempt (trace (snd run)) = false.
Proof. repeat split. Qed.

(** C3, amended.  With [max_retries >= 0] and a [retry_delay] that
    [time.sleep] accepts, closing an active trade at a broker that refuses
    every close (it returns [False]) makes exactly [max_retries] attempts,
    sleeps [retry_delay] after every refused attempt, the last one
    included, returns [False] and leaves the executor and the monitor as
    they were: the trade stays in the registry.  In the same way
    [_execute_trade] at a broker that fills no order (it returns [None] or
    the ticket 0) makes [max_retries] attempts, each followed by a sleep,
    returns [False] and leaves the instruction in the backlog.  With a
    [retry_delay] for which [time.sleep] raises, and [max_retries > 0],
    either method makes one attempt and leaves with the exception of the
    sleep, the executor and the monitor as they were. *)
Theorem retries_exhausted {W} (env : Env W) (st : State W)
        (Hretries : 0 <= max_retries (executor st)) :
  let n := Z.to_nat (max_retries (executor st)) in
  let d := retry_delay (executor st) in
  (sleep_returns env d ->
   (forall tk,
       In tk (map ticket (active_trades (executor st))) ->
       (forall w, fst (close_position env tk w) = Return false) ->
       exists w' evs,
         TradeExecutor.close_trade env tk st = (Return false, moved st w' evs)
         /\ evs = [EAcquire; ERelease] ++ concat (repeat (failed_close tk d) n)
                  ++ [ELog ERROR]
         /\ Z.of_nat (count is_close_attempt evs) = max_retries (executor st)
         /\ Z.of_nat (count is_sleep evs) = max_retries (executor st))
   /\ (forall i q,
          (forall w,
              refused_order
                (fst (place_market_order env (ti_symbol i) (order_type_of i)
                        (ti_lot_size i) (ti_stop_loss i) (ti_exit_price i)
                        (ti_comment i) w)) = true) ->
          exists w' evs,
            TradeExecutor._execute_trade env i q st
            = (Return false, moved st w' evs)
            /\ evs = [ELog INFO]
                     ++ concat (repeat (failed_order (ti_symbol i)
                                                     (order_type_of i) d) n)
                     ++ [ELog ERROR]
            /\ Z.of_nat (count is_order_attempt evs) = max_retries (executor st)
            /\ Z.of_nat (count is_sleep evs) = max_retries (executor st)))
  /\ (forall e,
         sleep_raises env d e ->
         0 < max_retries (executor st) ->
         (forall tk,
             In tk (map ticket (active_trades (executor st))) ->
             (forall w, fst (close_position env tk w) = Return false) ->
             exists w',
               TradeExecutor.close_trade env tk st
               = (Raise e,
                  moved st w' ([EAcquire; ERelease] ++ failed_close tk d)))
         /\ (forall i q,
                (forall w,
                    refused_order
                      (fst (place_market_order env (ti_symbol i)
                              (order_type_of i) (ti_lot_size i)
                              (ti_stop_loss i) (ti_exit_price i)
                              (ti_comment i) w)) = true) ->
                exists w',
                  TradeExecutor._execute_trade env i q st
                  = (Raise e,
                     moved st w'
                       ([ELog INFO]
                        ++ failed_order (ti_symbol i) (order_type_of i) d)))).
Proof.
  intros n d.
  assert (Hfind : forall tk,
             In tk (map ticket (active_trades (executor st))) ->
             exists t, List.find (fun t => Z.eqb (ticket t) tk)
                                 (active_trades (executor st)) = Some t).
  { intros tk Hin. destruct (List.find _ _) as [t|] eqn:E; [eauto|exfalso].
    apply in_map_iff in Hin as (t & Ht & Hin).
    apply (find_none _ _ E) in Hin. cbn in Hin. lia. }
  split; [intros Hsleep; split|intros e Hsleep Hpos; split].
  - intros tk Hin Hrefuse.
    destruct (Hfind tk Hin) as (t & Hfound).
    eexists. eexists. split; [|split; [reflexivity|]].
    + unfold TradeExecutor.close_trade, TradeExecutor._close_trade.
      run. rewrite Hfound. cbn.
      rewrite close_attempts_refused by assumption.
      cbn. rewrite length_range1. unfold moved. cbn.
      rewrite <- !app_assoc. reflexivity.
    + rewrite !count_app, !count_concat_repeat. cbn. subst n. lia.
  - intros i q Hrefuse.
    eexists. eexists. split; [|split; [reflexivity|]].
    + unfold TradeExecutor._execute_trade. run.
      fold (order_type_of i).
      rewrite execute_attempts_refused by assumption.
      cbn. rewrite length_range1. unfold moved. cbn.
      rewrite <- !app_assoc. reflexivity.
    + rewrite !count_app, !count_concat_repeat. cbn. subst n. lia.
  - intros tk Hin Hrefuse.
    destruct (Hfind tk Hin) as (t & Hfound).
    destruct (range1_pos _ Hpos) as (l & Hl).
    eexists.
    unfold TradeExecutor.close_trade, TradeExecutor._close_trade.
    run. rewrite Hfound. cbn. rewrite Hl. cbn [for_return].
    erewrite bind_raise
      by (apply close_attempt_sleep_raises; [apply Hrefuse|apply Hsleep]).
    unfold moved. cbn. rewrite <- !app_assoc. reflexivity.
  - intros i q Hrefuse.
    destruct (range1_pos _ Hpos) as (l & Hl).
    eexists.
    unfold TradeExecutor._execute_trade. run.
    fold (order_type_of i). rewrite Hl. cbn [for_return].
    erewrite bind_raise
      by (apply execute_attempt_sleep_raises; [apply Hrefuse|apply Hsleep]).
    unfold moved. cbn. rewrite <- !app_assoc. reflexivity.
Qed.

Lemma retries_exhausted_witness :
  (let run := TradeExecutor.close_trade refusing_env 1001
                (one_trade_state refusing_world) in
   fst run = Return false
   /\ active_trades (executor (snd run)) = [open_trade])
  /\ (let run := TradeExecutor.close_trade refusing_env 1001
                   (hasty_state refusing_world) in
      fst run = Raise ValueError
      /\ count is_close_attempt (trace (snd run)) = 1%nat).
Proof.
  split.
  - assert (Hretries : 0 <= max_retries (executor (one_trade_state refusing_world)))
      by (cbn; lia).
    destruct (retries_exhausted refusing_env (one_trade_state refusing_world)
                Hretries) as [Hreturns _].
    destruct (Hreturns (fun w => eq_refl)) as [Hclose _].
    destruct (Hclose 1001 (or_introl eq_refl) (fun w => eq_refl))
      as (w' & evs & Hrun & _).
    cbv zeta. rewrite Hrun. split; reflexivity.
  - assert (Hretries : 0 <= max_retries (executor (hasty_state refusing_world)))
      by (cbn; lia).
    destruct (retries_exhausted refusing_env (hasty_state refusing_world)
                Hretries) as [_ Hraises].
    destruct (Hraises ValueError (fun w => eq_refl) eq_refl) as [Hclose _].
    destruct (Hclose 1001 (or_introl eq_refl) (fun w => eq_refl))
      as (w' & Hrun).
    cbv zeta. rewrite Hrun. split; reflexivity.
Defined.
(** ** The watch-list under the methods of the monitor *)

Lemma same_setup_refl m : same_setup m m.
Proof. now repeat split. Qed.

Lemma same_setup_trans m1 m2 m3 :
  same_setup m1 m2 -> same_setup m2 m3 -> same_setup m1 m3.
Proof.
  unfold same_setup. intros (?&?&?&?) (?&?&?&?). repeat split; congruence.
Qed.

(** Reading the executor under the lock. *)
Lemma with_lock_read {W A} (f : Executor -> A) (st : State W) :
  with_lock (e <- get_executor ;; ret (f e)) st
  = (Return (f (executor st)), moved st (world st) [EAcquire; ERelease]).
Proof. unfold moved. run. now rewrite <- app_assoc. Qed.

Lemma is_str_hashable v : is_str v = true -> hashable v = true.
Proof. now destruct v. Qed.

(** The test of [_update_monitored_symbols] on the symbols it collects. *)
Lemma hashable_references_test (e : Executor) :
  forallb hashable (map ti_symbol (trade_instructions e))
  && forallb hashable (map symbol (active_trades e)) = true
  <-> hashable_references e.
Proof.
  unfold hashable_references, referenced.
  rewrite andb_true_iff, !forallb_forall. split.
  - intros [Hi Ht] s Hs.
    apply elem_of_union in Hs as [Hs|Hs];
      apply elem_of_list_to_set, list_elem_of_In in Hs; auto.
  - intros H. split; intros s Hs; apply H;
      [apply elem_of_union_l|apply elem_of_union_r];
      now apply elem_of_list_to_set, list_elem_of_In.
Qed.

Section WatchList.
Context {W : Type} (env : Env W).

(** [add_symbol] returns for a hashable symbol, and raises [TypeError],
    with the monitor as it was, for an unhashable one that the broker
    quotes. *)
Lemma add_symbol_watch (s : pyval) (st : State W) :
  exists o st',
    PriceMonitor.add_symbol env s st = (o, st')
    /\ executor st' = executor st
    /\ lock_depth st' = lock_depth st
    /\ same_setup (monitor st) (monitor st')
    /\ match o with
       | Return b =>
           watched st' = (if b then {[s]} ∪ watched st else watched st)
           /\ (b = true -> hashable s = true)
       | Raise e =>
           e = TypeError /\ hashable s = false /\ monitor st' = monitor st
       end.
Proof.
  unfold PriceMonitor.add_symbol, broker_is_connected, broker_price, watched.
  run.
  destruct (is_connected env (world st)) as [[] w1]; cbn.
  - destruct (broker_get_price env s w1) as [[p|] w2]; cbn.
    + destruct (hashable s) eqn:Hs; cbn.
      * exists (Return true). eexists. now repeat split.
      * exists (Raise TypeError). eexists. now repeat split.
    + exists (Return false). eexists. now repeat split.
  - exists (Return false). eexists. now repeat split.
Qed.

Lemma remove_symbol_watch (s : pyval) (st : State W) :
  exists o st',
    PriceMonitor.remove_symbol s st = (o, st')
    /\ executor st' = executor st
    /\ lock_depth st' = lock_depth st
    /\ world st' = world st
    /\ same_setup (monitor st) (monitor st')
    /\ match o with
       | Return b => watched st' = watched st ∖ {[s]} /\ hashable s = true
       | Raise e => e = TypeError /\ hashable s = false /\ st' = st
       end.
Proof.
  unfold PriceMonitor.remove_symbol, watched.
  destruct (hashable s) eqn:Hs; cbn [negb].
  - run.
    destruct (bool_decide (s ∈ symbols_to_monitor (monitor st))) eqn:Hin; cbn.
    + exists (Return true). eexists. now repeat split.
    + exists (Return false). eexists. repeat split. cbn.
      apply bool_decide_eq_false in Hin. clear - Hin. set_solver.
  - exists (Raise TypeError), st. now repeat split.
Qed.

(** Adding a list of symbols: the watch-list grows by symbols of the list
    only, and the run returns when they are hashable. *)
Lemma add_symbols_watch (l : list pyval) (st : State W) :
  exists o st',
    for_each l (fun s => PriceMonitor.add_symbol env s ;;; ret tt) st
    = (o, st')
    /\ executor st' = executor st
    /\ lock_depth st' = lock_depth st
    /\ same_setup (monitor st) (monitor st')
    /\ watched st ⊆ watched st'
    /\ watched st' ⊆ watched st ∪ list_to_set l
    /\ (forall s, s ∈ watched st' -> s ∈ watched st \/ hashable s = true)
    /\ (o = Return tt \/ o = Raise TypeError)
    /\ (Forall (fun s => hashable s = true) l -> o = Return tt).
Proof.
  revert st. induction l as [|s l IH]; intros st.
  - exists (Return tt), st. cbn. repeat split; auto; set_solver.
  - destruct (add_symbol_watch s st) as (o1 & st1 & Hadd & He & Hl & Hs & Hw).
    cbn [for_each]. unfold bind at 1. unfold bind at 1. rewrite Hadd.
    destruct o1 as [b|e].
    + destruct Hw as [Hw Hb].
      destruct (IH st1) as (o & st2 & Hrest & He2 & Hl2 & Hs2 & Hsub & Hsup
                            & Hhash & Hshape & Hret).
      exists o, st2. unfold ret at 1.
      rewrite Hrest. split; [reflexivity|].
      split; [congruence|]. split; [congruence|].
      split; [eauto using same_setup_trans|].
      rewrite list_to_set_cons.
      split; [|split; [|split; [|split]]].
      * clear - Hw Hsub. destruct b; rewrite Hw in *; set_solver.
      * clear - Hw Hsup. destruct b; rewrite Hw in *; set_solver.
      * intros x Hx. destruct (Hhash x Hx) as [Hx1|Hx1]; [|now right].
        destruct b; rewrite Hw in Hx1; [|now left].
        apply elem_of_union in Hx1 as [Hx1|Hx1]; [|now left].
        apply elem_of_singleton in Hx1 as ->. right. now apply Hb.
      * exact Hshape.
      * intros Hall. apply Hret. now inversion Hall.
    + destruct Hw as (-> & Hunhashable & Hm).
      exists (Raise TypeError), st1.
      split; [reflexivity|]. split; [assumption|]. split; [assumption|].
      split; [assumption|]. unfold watched. rewrite Hm.
      split; [reflexivity|]. split; [set_solver|].
      split; [now left|]. split; [now right|].
      intros Hall. inversion Hall; congruence.
Qed.

(** Removing a list of symbols: the watch-list shrinks, by exactly the
    list when the run returns, and it returns when the symbols are
    hashable. *)
Lemma remove_symbols_watch (l : list pyval) (st : State W) :
  exists o st',
    for_each l (fun s => PriceMonitor.remove_symbol s ;;; ret tt) st
    = (o, st')
    /\ executor st' = executor st
    /\ lock_depth st' = lock_depth st
    /\ world st' = world st
    /\ same_setup (monitor st) (monitor st')
    /\ watched st' ⊆ watched st
    /\ (o = Return tt -> watched st' = watched st ∖ list_to_set l)
    /\ (o = Return tt \/ o = Raise TypeError)
    /\ (Forall (fun s => hashable s = true) l -> o = Return tt).
Proof.
  revert st. induction l as [|s l IH]; intros st.
  - exists (Return tt), st. cbn. repeat split; auto; set_solver.
  - destruct (remove_symbol_watch s st)
      as (o1 & st1 & Hrm & He & Hl & Hw & Hs & Hwatch).
    cbn [for_each]. unfold bind at 1. unfold bind at 1. rewrite Hrm.
    destruct o1 as [b|e].
    + destruct Hwatch as [Hwatch Hb].
      destruct (IH st1) as (o & st2 & Hrest & He2 & Hl2 & Hw2 & Hs2 & Hsub2
                            & Hwatch2 & Hshape & Hret).
      exists o, st2. unfold ret at 1.
      rewrite Hrest. split; [reflexivity|].
      split; [congruence|]. split; [congruence|]. split; [congruence|].
      split; [eauto using same_setup_trans|].
      split; [|split; [|split]].
      * clear - Hwatch Hsub2. set_solver.
      * intros Ho. rewrite (Hwatch2 Ho), Hwatch, list_to_set_cons.
        clear. set_solver.
      * exact Hshape.
      * intros Hall. apply Hret. now inversion Hall.
    + destruct Hwatch as (-> & Hunhashable & ->).
      exists (Raise TypeError), st.
      repeat split; try reflexivity; try discriminate; auto.
      intros Hall. inversion Hall; congruence.
Qed.

(** Reading the references under the lock, as [_update_monitored_symbols]
    does. *)
Lemma collect_references (st : State W) :
  with_lock
    (e <- get_executor ;;
     if forallb hashable (map ti_symbol (trade_instructions e))
        && forallb hashable (map symbol (active_trades e))
     then ret (list_to_set (map ti_symbol (trade_instructions e))
               ∪ list_to_set (map symbol (active_trades e)) : gset pyval)
     else raise TypeError) st
  = (if forallb hashable (map ti_symbol (trade_instructions (executor st)))
        && forallb hashable (map symbol (active_trades (executor st)))
     then Return (referenced (executor st)) else Raise TypeError,
     moved st (world st) [EAcquire; ERelease]).
Proof.
  unfold moved, referenced. run.
  destruct (forallb hashable _ && forallb hashable _); cbn;
    now rewrite <- app_assoc.
Qed.

(** [_update_monitored_symbols] changes the watch-list only, towards the
    referenced symbols; when it returns, every watched symbol is referenced
    and every symbol that was watched and is referenced is still watched;
    and it returns when the watched and the referenced symbols are
    hashable. *)
Lemma update_monitored_symbols_watch (st : State W) :
  exists o st',
    TradeExecutor._update_monitored_symbols env st = (o, st')
    /\ executor st' = executor st
    /\ lock_depth st' = lock_depth st
    /\ same_setup (monitor st) (monitor st')
    /\ watched st' ⊆ watched st ∪ referenced (executor st)
    /\ (hashable_watch st -> hashable_watch st')
    /\ (o = Return tt ->
        watched st' ⊆ referenced (executor st)
        /\ watched st ∩ referenced (executor st) ⊆ watched st')
    /\ (o = Return tt \/ o = Raise TypeError)
    /\ (hashable_watch st -> hashable_references (executor st) ->
        o = Return tt).
Proof.
  unfold TradeExecutor._update_monitored_symbols.
  unfold bind at 1. rewrite collect_references.
  set (st0 := moved st (world st) [EAcquire; ERelease]).
  destruct (forallb hashable _ && forallb hashable _) eqn:Htest.
  2:{ exists (Raise TypeError), st0.
      split; [reflexivity|]. split; [reflexivity|]. split; [reflexivity|].
      split; [apply same_setup_refl|].
      split; [apply union_subseteq_l|].
      split; [auto|]. split; [discriminate|]. split; [now right|].
      intros _ Hr. apply hashable_references_test in Hr. congruence. }
  apply hashable_references_test in Htest.
  unfold bind at 1, get_monitor at 1.
  change (monitor st0) with (monitor st).
  destruct (add_symbols_watch
              (elements (referenced (executor st) ∖ symbols_to_monitor (monitor st)))
              st0)
    as (o1 & st1 & Hadd & He1 & Hl1 & Hs1 & Hsub1 & Hsup1 & Hhash1 & _ & Hret1).
  change (executor st0) with (executor st) in He1.
  change (lock_depth st0) with (lock_depth st) in Hl1.
  change (monitor st0) with (monitor st) in Hs1.
  change (watched st0) with (watched st) in Hsub1, Hsup1, Hhash1.
  rewrite list_to_set_elements_L in Hsup1.
  assert (Ho1 : o1 = Return tt).
  { apply Hret1, List.Forall_forall. intros s Hs.
    apply list_elem_of_In, elem_of_elements, elem_of_difference in Hs as [Hs _].
    now apply Htest. }
  subst o1. rewrite (bind_return _ _ _ _ _ Hadd).
  destruct (remove_symbols_watch
              (elements (symbols_to_monitor (monitor st) ∖ referenced (executor st)))
              st1)
    as (o2 & st2 & Hrm & He2 & Hl2 & Hw2 & Hs2 & Hsub2 & Hwatch2 & Hshape2
        & Hret2).
  rewrite list_to_set_elements_L in Hwatch2.
  rewrite Hrm. exists o2, st2.
  split; [reflexivity|].
  split; [congruence|]. split; [congruence|].
  split; [eauto using same_setup_trans|].
  fold (watched st) in Hwatch2, Hsup1.
  split; [|split; [|split; [|split]]].
  - clear - Hsub2 Hsup1. set_solver.
  - intros Hw s Hs. apply Hsub2 in Hs.
    destruct (Hhash1 s Hs) as [Hin|Hin]; auto.
  - intros Ho. specialize (Hwatch2 Ho). rewrite Hwatch2.
    generalize dependent (watched st1).
    generalize (referenced (executor st)).
    generalize (watched st).
    clear. intros A B C HA HB _ _.
    split; set_solver.
  - exact Hshape2.
  - intros Hw _. apply Hret2, List.Forall_forall. intros s Hs.
    apply list_elem_of_In, elem_of_elements, elem_of_difference in Hs as [Hs _].
    now apply Hw.
Qed.
End WatchList.
(** ** Closing a trade *)

Lemma remove_first_sublist {A} (p : A -> bool) (l rest : list A) :
  TradeExecutor.remove_first p l = Some rest -> forall x, In x rest -> In x l.
Proof.
  revert rest. induction l as [|y l IH]; intros rest; cbn; [discriminate|].
  destruct (p y).
  - intros [= <-] x Hx. now right.
  - destruct (TradeExecutor.remove_first p l) as [r|]; [|discriminate].
    intros [= <-] x [->|Hx]; [now left|right; eauto].
Qed.

Lemma referenced_set_trades (e : Executor) (rest : list ActiveTrade) :
  (forall t, In t rest -> In t (active_trades e)) ->
  referenced (TradeExecutor.set_trades rest e) ⊆ referenced e.
Proof.
  intros Hsub s Hs. unfold referenced in *. cbn in Hs.
  apply elem_of_union in Hs as [Hs|Hs];
    [now apply elem_of_union_l|apply elem_of_union_r].
  apply elem_of_list_to_set, list_elem_of_In, in_map_iff in Hs as (t & <- & Ht).
  apply elem_of_list_to_set, list_elem_of_In, in_map_iff. eauto.
Qed.

Section Closing.
Context {W : Type} (env : Env W).

(** What one attempt of [_close_trade] does.  It returns [None] after a
    refused close, or it raises, with the executor and the watch-list as
    they were; or it returns [True] with the trade removed and the
    watch-list reconciled; or the trade is removed and the reconciliation
    raises [TypeError], which it does only at an unhashable symbol. *)
Lemma close_attempt_effect tk a (st : State W) o st' :
  TradeExecutor.close_attempt env tk a st = (o, st') ->
  lock_depth st' = lock_depth st
  /\ same_setup (monitor st) (monitor st')
  /\ (hashable_watch st -> hashable_watch st')
  /\ ((o = Return None \/ exists e, o = Raise e) /\ untouched st st'
      \/ o = Return (Some true) /\ trade_removed tk st st'
      \/ o = Raise TypeError /\ trade_dropped tk st st'
         /\ ~ (hashable_watch st /\ hashable_references (executor st'))).
Proof.
  unfold TradeExecutor.close_attempt, broker_close.
  unfold bind at 1, call_raising at 1.
  destruct (close_position env tk (world st)) as [[[]|e] w1].
  - unfold bind at 1, with_lock.
    set (st0 := snd (acquire _)).
    unfold bind at 1, get_executor at 1.
    unfold bind at 1.
    change (executor st0) with (executor st).
    destruct (TradeExecutor.remove_first _ _) as [rest|] eqn:Hrm.
    + unfold modify_executor at 1.
      match goal with
      | |- context [TradeExecutor._update_monitored_symbols env ?s] =>
          destruct (update_monitored_symbols_watch env s)
            as (o2 & st2 & Hup & He & Hl & Hs & Hbound & Hhw & Hsub & Hshape
                & Hret);
          rewrite Hup; cbn in He, Hl, Hs, Hbound, Hsub
      end.
      destruct Hshape as [-> | ->].
      * destruct (Hsub eq_refl) as [Hsub1 Hkeep].
        unfold bind, log, emit, release, ret. cbn.
        intros [= <- <-]. cbn.
        split; [now rewrite Hl|]. split; [assumption|].
        split; [exact Hhw|].
        right. left. split; [reflexivity|]. exists rest.
        unfold watched in *. cbn. rewrite He. auto.
      * unfold release. cbn.
        intros [= <- <-]. cbn.
        split; [now rewrite Hl|]. split; [assumption|].
        split; [exact Hhw|].
        right. right. split; [reflexivity|]. split.
        -- exists rest. unfold watched in *. cbn. rewrite He. auto.
        -- cbn. rewrite He. intros [Hw Hr].
           specialize (Hret Hw Hr). discriminate.
    + unfold raise. cbn. intros [= <- <-]. cbn.
      split; [reflexivity|]. split; [apply same_setup_refl|].
      split; [auto|].
      left. split; [eauto|]. now split.
  - unfold bind at 1, get_executor at 1.
    unfold bind at 1, log at 1, emit at 1.
    unfold bind at 1, sleep, call_raising. cbn.
    destruct (time_sleep env _ w1) as [[[]|e] w2]; cbn;
      intros [= <- <-]; cbn;
      (split; [reflexivity|]); (split; [apply same_setup_refl|]);
      (split; [auto|]); left; (split; [eauto|]); now split.
  - intros [= <- <-]. cbn.
    split; [reflexivity|]. split; [apply same_setup_refl|].
    split; [auto|]. left. split; [eauto|]. now split.
Qed.

Lemma untouched_refl (st : State W) : untouched st st.
Proof. now split. Qed.

Lemma untouched_trans (st1 st2 st3 : State W) :
  untouched st1 st2 -> untouched st2 st3 -> untouched st1 st3.
Proof. unfold untouched. intros [] []. split; congruence. Qed.

Lemma trade_removed_after tk (st1 st2 st3 : State W) :
  untouched st1 st2 -> trade_removed tk st2 st3 -> trade_removed tk st1 st3.
Proof.
  unfold untouched, trade_removed. intros [He Hw] (rest & Hrm & He3 & H1 & H2).
  exists rest. rewrite <- He, <- Hw. auto.
Qed.

Lemma trade_dropped_after tk (st1 st2 st3 : State W) :
  untouched st1 st2 -> trade_dropped tk st2 st3 -> trade_dropped tk st1 st3.
Proof.
  unfold untouched, trade_dropped. intros [He Hw] (rest & Hrm & He3 & H1).
  exists rest. rewrite <- He, <- Hw. auto.
Qed.

Lemma hashable_watch_untouched (st1 st2 : State W) :
  untouched st1 st2 -> hashable_watch st2 -> hashable_watch st1.
Proof. unfold untouched, hashable_watch. intros [_ ->]. auto. Qed.

Lemma close_attempts_effect tk (l : list Z) (st : State W) o st' :
  for_return l (TradeExecutor.close_attempt env tk)
             (log ERROR ;;; ret false) st = (o, st') ->
  lock_depth st' = lock_depth st
  /\ same_setup (monitor st) (monitor st')
  /\ (hashable_watch st -> hashable_watch st')
  /\ ((o = Return false \/ exists e, o = Raise e) /\ untouched st st'
      \/ o = Return true /\ trade_removed tk st st'
      \/ o = Raise TypeError /\ trade_dropped tk st st'
         /\ ~ (hashable_watch st /\ hashable_references (executor st'))).
Proof.
  revert st. induction l as [|a l IH]; intros st.
  - cbn. unfold bind, log, emit, ret. cbn. intros [= <- <-]. cbn.
    split; [reflexivity|]. split; [apply same_setup_refl|].
    split; [auto|]. left. split; [auto|]. now split.
  - cbn [for_return]. unfold bind at 1.
    destruct (TradeExecutor.close_attempt env tk a st) as [r st1] eqn:Hat.
    apply close_attempt_effect in Hat as (Hl & Hs & Hhw & Hcases).
    destruct Hcases as [[[-> | [e ->]] Hun] | [[-> Hrm] | (-> & Hdrop & Hno)]].
    + intros Hrest. apply IH in Hrest as (Hl2 & Hs2 & Hhw2 & Hcases).
      split; [congruence|]. split; [eauto using same_setup_trans|].
      split; [auto|].
      destruct Hcases as [[Ho Hun2] | [[Ho Hrm] | (Ho & Hdrop & Hno)]].
      * left. split; [exact Ho|]. eauto using untouched_trans.
      * right. left. split; [exact Ho|]. eauto using trade_removed_after.
      * right. right. split; [exact Ho|].
        split; [eauto using trade_dropped_after|].
        intros [Hw Hr]. apply Hno. auto.
    + intros [= <- <-]. split; [assumption|]. split; [assumption|].
      split; [assumption|]. left. split; [eauto|assumption].
    + unfold ret. intros [= <- <-]. split; [assumption|].
      split; [assumption|]. split; [assumption|]. right. left. now split.
    + intros [= <- <-]. split; [assumption|].
      split; [assumption|]. split; [assumption|]. right. right. now split.
Qed.

Lemma close_trade_effect tk (st : State W) o st' :
  TradeExecutor._close_trade env tk st = (o, st') ->
  lock_depth st' = lock_depth st
  /\ same_setup (monitor st) (monitor st')
  /\ (hashable_watch st -> hashable_watch st')
  /\ ((o = Return false \/ exists e, o = Raise e) /\ untouched st st'
      \/ o = Return true /\ trade_removed tk st st'
      \/ o = Raise TypeError /\ trade_dropped tk st st'
         /\ ~ (hashable_watch st /\ hashable_references (executor st'))).
Proof.
  unfold TradeExecutor._close_trade.
  rewrite (bind_return _ _ _ _ _ (with_lock_read _ st)).
  destruct (List.find _ _) as [t|].
  - unfold bind at 1, get_executor at 1.
    intros H. apply close_attempts_effect in H. exact H.
  - unfold bind, log, emit, ret. cbn. intros [= <- <-]. cbn.
    split; [reflexivity|]. split; [apply same_setup_refl|].
    split; [auto|]. left. split; [auto|]. now split.
Qed.
End Closing.

Lemma remove_first_ticket_gone tk (l rest : list ActiveTrade) :
  TradeExecutor.remove_first (fun t => Z.eqb (ticket t) tk) l = Some rest ->
  List.NoDup (map ticket l) ->
  ~ In tk (map ticket rest).
Proof.
  revert rest. induction l as [|t l IH]; intros rest; cbn [TradeExecutor.remove_first map].
  - discriminate.
  - destruct (Z.eqb_spec (ticket t) tk) as [E|E].
    + intros [= <-] Hnd. apply List.NoDup_cons_iff in Hnd as [Hnotin _]. congruence.
    + destruct (TradeExecutor.remove_first _ l) as [r|]; [|discriminate].
      intros [= <-] Hnd. apply List.NoDup_cons_iff in Hnd as [_ Hnd].
      cbn. intros [H|H]; [congruence|]. now apply (IH r).
Qed.

(** C5.  After [close_trade(ticket)] has returned [True], with the tickets
    of the registry distinct as the gateway assigns them, the ticket is in
    no trade that [get_active_trades] returns; and if no pending
    instruction and no active trade that is left refers to the symbol of
    the closed trade, the symbol is not in the watch-list. *)
Theorem close_trade_success {W} (env : Env W) (st st' : State W) (tk : Z)
        (closed : ActiveTrade)
        (Hunique : List.NoDup (map ticket (active_trades (executor st))))
        (Hfound : List.find (fun t => Z.eqb (ticket t) tk)
                            (active_trades (executor st)) = Some closed)
        (Hclosed : TradeExecutor.close_trade env tk st = (Return true, st')) :
  (exists l st'', TradeExecutor.get_active_trades st' = (Return l, st'')
                  /\ ~ In tk (map ticket l))
  /\ ((forall i, In i (trade_instructions (executor st')) ->
                 ti_symbol i <> symbol closed) ->
      (forall t, In t (active_trades (executor st')) ->
                 symbol t <> symbol closed) ->
      symbol closed ∉ symbols_to_monitor (monitor st')).
Proof.
  apply close_trade_effect in Hclosed
    as (_ & _ & _ & [[[H|[e H]] _]|[[_ Hrm]|[H _]]]);
    try discriminate.
  destruct Hrm as (rest & Hrest & He & Hsub & _).
  split.
  - exists (active_trades (executor st')). eexists.
    split; [apply (with_lock_read active_trades)|].
    rewrite He. cbn. eauto using remove_first_ticket_gone.
  - intros Hinstr Htrades Hin.
    apply Hsub in Hin. unfold referenced in Hin.
    apply elem_of_union in Hin as [Hin|Hin];
      apply elem_of_list_to_set, list_elem_of_In, in_map_iff in Hin
        as (x & Hx & Hin).
    + now apply (Hinstr x).
    + now apply (Htrades x).
Qed.

Lemma close_trade_success_witness :
  let run := TradeExecutor.close_trade (mock_env []) 1001
               (one_trade_state filled_world) in
  fst run = Return true
  /\ PyStr "EURUSD" ∉ symbols_to_monitor (monitor (snd run)).
Proof.
  cbv zeta.
  assert (Hrun : TradeExecutor.close_trade (mock_env []) 1001
                   (one_trade_state filled_world)
                 = (Return true,
                    snd (TradeExecutor.close_trade (mock_env []) 1001
                           (one_trade_state filled_world))))
    by (vm_compute; reflexivity).
  assert (Hunique : List.NoDup
                      (map ticket (active_trades
                                     (executor (one_trade_state filled_world)))))
    by (repeat constructor; intros []).
  destruct (close_trade_success (mock_env []) (one_trade_state filled_world) _
              1001 open_trade Hunique eq_refl Hrun) as [_ Hsymbol].
  split; [now rewrite Hrun|].
  apply Hsymbol.
  - intros i Hin. vm_compute in Hin. destruct Hin.
  - intros t Hin. vm_compute in Hin. destruct Hin.
Defined.

(** ** The monitoring loop *)

Section Loop.
Context {W : Type} (env : Env W).
Variable call_entry : callback -> pyval -> Quote -> M W unit.
Variable call_position : callback -> pyval -> Quote -> Position -> M W unit.

(** The [try] block of a cycle never raises: it catches what its body
    raises.  What is left of the cycle is the sleep, outside the block. *)
Lemma poll_cycle_sleeps (st : State W) :
  exists st1,
    try_except (PriceMonitor.cycle_body env call_entry call_position)
               (fun _ => log ERROR) st = (Return tt, st1)
    /\ PriceMonitor.poll_cycle env call_entry call_position st
       = sleep env (update_interval (monitor st1)) st1.
Proof.
  unfold PriceMonitor.poll_cycle.
  unfold bind at 1.
  unfold try_except.
  destruct (PriceMonitor.cycle_body env call_entry call_position st)
    as [[[]|e] st1].
  - exists st1. split; [reflexivity|]. reflexivity.
  - eexists. split; [reflexivity|]. reflexivity.
Qed.

(** A cycle returns when its sleep does. *)
Lemma poll_cycle_returns (st : State W) :
  (forall d, sleep_returns env d) ->
  exists st',
    PriceMonitor.poll_cycle env call_entry call_position st = (Return tt, st').
Proof.
  intros Hsleep.
  destruct (poll_cycle_sleeps st) as (st1 & _ & ->).
  unfold sleep, call_raising.
  pose proof (Hsleep (update_interval (monitor st1)) (world st1)) as H.
  destruct (time_sleep env _ _) as [r w]. cbn in H. subst r. eauto.
Qed.


End Loop.


(** ** The lock and the gateway *)

(** C1 fails on the code for [close_all_trades]: the method takes the
    lock and, holding it, calls [_close_trade], whose [close_position]
    request goes to the broker at lock depth 1.  The trace of closing the
    one open trade shows it; [close_trade] on the same state makes the
    request between its two lock rounds. *)
Theorem close_all_trades_holds_lock :
  let all := TradeExecutor.close_all_trades (mock_env [])
               (one_trade_state filled_world) in
  let one := TradeExecutor.close_trade (mock_env []) 1001
               (one_trade_state filled_world) in
  fst all = Return 1
  /\ trace (snd all)
     = [EAcquire; EAcquire; ERelease; EClosePosition 1001; EAcquire;
        EAcquire; ERelease; ELog INFO; ERelease; ELog INFO; ERelease;
        ELog INFO]
  /\ calls_outside_lock 0 (trace (snd all)) = false
  /\ fst one = Return true
  /\ calls_outside_lock 0 (trace (snd one)) = true.
Proof. repeat split. Qed.

(** ** Invariants *)

Section Keeps.
Context {W : Type}.
Variable Inv : State W -> Prop.

Lemma keeps_ret {A} (a : A) : keeps Inv (ret a).
Proof. intros st o st' HI [= <- <-]. exact HI. Qed.

Lemma keeps_raise {A} (e : exn) : keeps Inv (@raise W A e).
Proof. intros st o st' HI [= <- <-]. exact HI. Qed.

Lemma keeps_bind {A B} (m : M W A) (k : A -> M W B) :
  keeps Inv m -> (forall a, keeps Inv (k a)) -> keeps Inv (bind m k).
Proof.
  intros Hm Hk st o st' HI. unfold bind.
  destruct (m st) as [[a|e] st1] eqn:E.
  - apply (Hk a). exact (Hm _ _ _ HI E).
  - intros [= <- <-]. exact (Hm _ _ _ HI E).
Qed.

Lemma keeps_try_except {A} (m : M W A) (h : exn -> M W A) :
  keeps Inv m -> (forall e, keeps Inv (h e)) -> keeps Inv (try_except m h).
Proof.
  intros Hm Hh st o st' HI. unfold try_except.
  destruct (m st) as [[a|e] st1] eqn:E.
  - intros [= <- <-]. exact (Hm _ _ _ HI E).
  - apply (Hh e). exact (Hm _ _ _ HI E).
Qed.

Lemma keeps_for_each {A} (l : list A) (body : A -> M W unit) :
  (forall x, In x l -> keeps Inv (body x)) -> keeps Inv (for_each l body).
Proof.
  induction l as [|x l IH]; intros Hbody; cbn [for_each].
  - apply keeps_ret.
  - apply keeps_bind.
    + apply Hbody. now left.
    + intros _. apply IH. intros y Hy. apply Hbody. now right.
Qed.

Lemma keeps_for_return {A R} (l : list A) (body : A -> M W (option R))
      (after : M W R) :
  (forall x, keeps Inv (body x)) -> keeps Inv after ->
  keeps Inv (for_return l body after).
Proof.
  intros Hbody Hafter. induction l as [|x l IH]; cbn [for_return].
  - exact Hafter.
  - apply keeps_bind; [apply Hbody|].
    intros [r|]; [apply keeps_ret|exact IH].
Qed.

Hypothesis Hobjects : on_objects Inv.

Lemma keeps_emit (e : event) : keeps Inv (emit e).
Proof. intros st o st' HI [= <- <-]. now apply (Hobjects st). Qed.

Lemma keeps_log (l : log_level) : keeps Inv (log l).
Proof. apply keeps_emit. Qed.

Lemma keeps_call {A} (e : event) (f : W -> A * W) : keeps Inv (call e f).
Proof.
  intros st o st' HI. unfold call. destruct (f (world st)) as [a w].
  intros [= <- <-]. now apply (Hobjects st).
Qed.

Lemma keeps_call_raising {A} (e : event) (f : W -> outcome A * W) :
  keeps Inv (call_raising e f).
Proof.
  intros st o st' HI. unfold call_raising. destruct (f (world st)) as [a w].
  intros [= <- <-]. now apply (Hobjects st).
Qed.

Lemma keeps_lift_outcome {A} (r : outcome A) : keeps Inv (lift_outcome r).
Proof. intros st o st' HI [= <- <-]. exact HI. Qed.

Lemma keeps_get_monitor : keeps Inv get_monitor.
Proof. intros st o st' HI [= <- <-]. exact HI. Qed.

Lemma keeps_get_executor : keeps Inv get_executor.
Proof. intros st o st' HI [= <- <-]. exact HI. Qed.

Lemma keeps_with_lock {A} (body : M W A) :
  keeps Inv body -> keeps Inv (with_lock body).
Proof.
  intros Hbody st o st' HI. unfold with_lock.
  destruct (body (snd (acquire st))) as [r st1] eqn:E.
  intros [= <- <-].
  apply (Hobjects st1); try reflexivity.
  apply (Hbody (snd (acquire st)) r st1); [|exact E].
  now apply (Hobjects st).
Qed.
End Keeps.

(** ** The watch-list over a poll cycle *)

Lemma within_on_objects {W} (U : gset pyval) : on_objects (@within W U).
Proof.
  intros st st' Hm He [H1 H2]. unfold within, watched. now rewrite Hm, He.
Qed.

Lemma remove_first_incl {A} (p : A -> bool) (l rest : list A) :
  TradeExecutor.remove_first p l = Some rest -> incl rest l.
Proof.
  revert rest. induction l as [|x l IH]; intros rest; cbn; [discriminate|].
  destruct (p x).
  - intros [= <-]. apply incl_tl, incl_refl.
  - destruct (TradeExecutor.remove_first p l) as [r|]; [|discriminate].
    intros [= <-]. apply incl_cons; [now left|].
    apply incl_tl. now apply IH.
Qed.

Lemma list_to_set_map_incl {A} (f : A -> pyval) (l1 l2 : list A) :
  incl l1 l2 ->
  (list_to_set (map f l1) : gset pyval) ⊆ list_to_set (map f l2).
Proof.
  intros H s. rewrite !elem_of_list_to_set, !list_elem_of_In, !in_map_iff.
  intros (x & Hx & Hin). exists x. split; [exact Hx|]. now apply H.
Qed.

Section Cycle.
Context {W : Type} (env : Env W).
Variable U : gset pyval.

Local Abbreviation Inv := (@within W U).

Let Hobj : on_objects Inv := within_on_objects U.

Lemma keeps_add_symbol (s : pyval) :
  s ∈ U -> keeps Inv (PriceMonitor.add_symbol env s).
Proof.
  intros Hs st o st' [Hw Hr] Hrun.
  destruct (add_symbol_watch env s st) as (r & st1 & Hadd & He & _ & _ & Hw1).
  rewrite Hadd in Hrun. injection Hrun as <- <-.
  split; [|now rewrite He].
  destruct r as [b|e].
  - destruct Hw1 as [-> _]. destruct b; set_solver.
  - destruct Hw1 as (_ & _ & Hm). unfold watched. now rewrite Hm.
Qed.

Lemma keeps_update_monitored_symbols :
  keeps Inv (TradeExecutor._update_monitored_symbols env).
Proof.
  intros st o st' [Hw Hr] Hrun.
  destruct (update_monitored_symbols_watch env st)
    as (r & st1 & Hup & He & _ & _ & Hbound & _).
  rewrite Hup in Hrun. injection Hrun as <- <-.
  split; [|now rewrite He]. set_solver.
Qed.

Lemma keeps_close_trade (tk : Z) : keeps Inv (TradeExecutor._close_trade env tk).
Proof.
  intros st o st' [Hw Hr] Hrun.
  apply close_trade_effect in Hrun
    as (_ & _ & _ & [[_ [He Hw1]]|[[_ Hrm]|(_ & Hdrop & _)]]).
  - split; [now rewrite Hw1|now rewrite He].
  - destruct Hrm as (rest & Hrest & He & Hsub & _).
    assert (Href : referenced (executor st') ⊆ referenced (executor st)).
    { rewrite He. unfold referenced. cbn.
      pose proof (list_to_set_map_incl symbol _ _ (remove_first_incl _ _ _ Hrest)).
      set_solver. }
    split; set_solver.
  - destruct Hdrop as (rest & Hrest & He & Hsub).
    assert (Href : referenced (executor st') ⊆ referenced (executor st)).
    { rewrite He. unfold referenced. cbn.
      pose proof (list_to_set_map_incl symbol _ _ (remove_first_incl _ _ _ Hrest)).
      set_solver. }
    split; set_solver.
Qed.

Lemma keeps_execute_attempt (i : TradeInstruction) (q : Quote) (o : OrderType)
      (a : Z) :
  ti_symbol i ∈ U -> keeps Inv (TradeExecutor.execute_attempt env i q o a).
Proof.
  intros Hs. unfold TradeExecutor.execute_attempt, broker_place, sleep, clock.
  apply keeps_bind; [now apply keeps_call_raising|].
  intros [t|].
  - destruct (Z.eqb t 0).
    + repeat (apply keeps_bind; [|intros ?]);
        auto using keeps_get_executor, keeps_log, keeps_call_raising, keeps_ret.
    + apply keeps_bind; [now apply keeps_call|]. intros now.
      apply keeps_bind; [|intros _].
      * apply keeps_with_lock; [exact Hobj|].
        intros st o' st' [Hw Hr].
        unfold bind, modify_executor, get_executor. cbn.
        destruct (TradeExecutor.remove_first _ _) as [rest|] eqn:Hrm;
          intros [= <- <-]; (split; [exact Hw|]);
          unfold referenced in *; cbn;
          rewrite map_app, list_to_set_app_L; cbn.
        -- pose proof (list_to_set_map_incl ti_symbol _ _
                         (remove_first_incl _ _ _ Hrm)).
           set_solver.
        -- set_solver.
      * apply keeps_bind; [now apply keeps_log|]. intros _. apply keeps_ret.
  - repeat (apply keeps_bind; [|intros ?]);
      auto using keeps_get_executor, keeps_log, keeps_call_raising, keeps_ret.
Qed.

Lemma keeps_execute_trade (i : TradeInstruction) (q : Quote) :
  ti_symbol i ∈ U -> keeps Inv (TradeExecutor._execute_trade env i q).
Proof.
  intros Hs. unfold TradeExecutor._execute_trade.
  apply keeps_bind; [now apply keeps_log|]. intros _.
  apply keeps_bind; [apply keeps_get_executor|]. intros e.
  apply keeps_for_return.
  - intros a. now apply keeps_execute_attempt.
  - apply keeps_bind; [now apply keeps_log|]. intros _. apply keeps_ret.
Qed.

Lemma keeps_on_entry_condition (s : pyval) (q : Quote) :
  keeps Inv (TradeExecutor._on_entry_condition env s q).
Proof.
  intros st o st' HI. unfold TradeExecutor._on_entry_condition.
  rewrite (bind_return _ _ _ _ _ (with_lock_read _ st)).
  apply keeps_for_each.
  - intros i Hin. apply keeps_bind; [|intros _; apply keeps_ret].
    apply keeps_execute_trade.
    apply filter_In in Hin as [Hin _].
    destruct HI as [_ Hr]. apply Hr. unfold referenced.
    apply elem_of_union_l, elem_of_list_to_set, list_elem_of_In, in_map.
    exact Hin.
  - now apply (Hobj st).
Qed.

Lemma keeps_call_entry (c : callback) (s : pyval) (q : Quote) :
  keeps Inv (TradeExecutor.call_entry env c s q).
Proof.
  destruct c; cbn; auto using keeps_on_entry_condition, keeps_raise.
Qed.

Lemma keeps_call_position (c : callback) (s : pyval) (q : Quote)
      (p : Position) :
  keeps Inv (TradeExecutor.call_position env c s q p).
Proof.
  destruct c; cbn; [apply keeps_raise| |];
    unfold TradeExecutor._on_exit_condition, TradeExecutor._on_sl_condition;
    (apply keeps_bind; [now apply keeps_log|]; intros _;
     apply keeps_bind; [apply keeps_close_trade|]; intros _; apply keeps_ret).
Qed.

(** Caching a quote leaves the watch-list alone. *)
Lemma keeps_cache (s : pyval) (q : Quote) :
  keeps Inv (modify_monitor (PriceMonitor.cache s q)).
Proof. intros st o st' HI [= <- <-]. exact HI. Qed.

Lemma keeps_get_price (s : pyval) : keeps Inv (PriceMonitor.get_price env s).
Proof.
  unfold PriceMonitor.get_price, PriceMonitor.fetch_price, broker_is_connected,
    broker_price, clock.
  apply keeps_bind; [now apply keeps_call|]. intros [|]; cbn [negb].
  - destruct (negb (hashable s)); [apply keeps_raise|].
    apply keeps_bind; [apply keeps_get_monitor|]. intros m.
    assert (Hfetch : keeps Inv (price <- call (EGetPrice s) (broker_get_price env s) ;;
                              match price with
                              | Some p => modify_monitor (PriceMonitor.cache s p) ;;; ret (Some p)
                              | None => ret None
                              end)).
    { apply keeps_bind; [now apply keeps_call|]. intros [p|]; [|apply keeps_ret].
      apply keeps_bind; [apply keeps_cache|]. intros _. apply keeps_ret. }
    destruct (price_data m !! s) as [q|]; [|exact Hfetch].
    apply keeps_bind; [now apply keeps_call|]. intros now.
    destruct (PriceMonitor.fresh now q); [apply keeps_ret|exact Hfetch].
  - apply keeps_bind; [now apply keeps_log|]. intros _. apply keeps_ret.
Qed.

Lemma keeps_check_exit_condition (s : pyval) (p : Position) :
  keeps Inv (PriceMonitor.check_exit_condition env s p).
Proof.
  unfold PriceMonitor.check_exit_condition.
  apply keeps_bind; [apply keeps_get_price|]. intros [q|]; [|apply keeps_ret].
  destruct (pos_take_profit p); [|apply keeps_ret].
  apply keeps_bind; [apply keeps_lift_outcome|]. intros kind.
  repeat match goal with |- context [if ?b then _ else _] => destruct b end;
    apply keeps_ret.
Qed.

Lemma keeps_check_sl_condition (s : pyval) (p : Position) :
  keeps Inv (PriceMonitor.check_sl_condition env s p).
Proof.
  unfold PriceMonitor.check_sl_condition.
  apply keeps_bind; [apply keeps_get_price|]. intros [q|]; [|apply keeps_ret].
  destruct (pos_stop_loss p); [|apply keeps_ret].
  apply keeps_bind; [apply keeps_lift_outcome|]. intros kind.
  repeat match goal with |- context [if ?b then _ else _] => destruct b end;
    apply keeps_ret.
Qed.

Lemma keeps_guarded (callbacks : list callback) (run : callback -> M W unit) :
  (forall c, keeps Inv (run c)) -> keeps Inv (PriceMonitor.guarded callbacks run).
Proof.
  intros Hrun. unfold PriceMonitor.guarded. apply keeps_for_each.
  intros c _. apply keeps_try_except; [apply Hrun|].
  intros _. now apply keeps_log.
Qed.

Lemma keeps_check_position (s : pyval) (q : Quote) (p : Position) :
  keeps Inv (PriceMonitor.check_position env (TradeExecutor.call_position env)
                                       s q p).
Proof.
  unfold PriceMonitor.check_position.
  destruct (negb _); [apply keeps_ret|].
  apply keeps_bind; [apply keeps_check_exit_condition|]. intros tp.
  apply keeps_bind.
  - destruct tp; [|apply keeps_ret].
    apply keeps_bind; [apply keeps_get_monitor|]. intros m.
    apply keeps_guarded. intros c. apply keeps_call_position.
  - intros _.
    apply keeps_bind; [apply keeps_check_sl_condition|]. intros sl.
    destruct sl; [|apply keeps_ret].
    apply keeps_bind; [apply keeps_get_monitor|]. intros m.
    apply keeps_guarded. intros c. apply keeps_call_position.
Qed.

Lemma keeps_check_symbol (positions : list Position) (s : pyval) :
  keeps Inv (PriceMonitor.check_symbol env (TradeExecutor.call_entry env)
                                     (TradeExecutor.call_position env)
                                     positions s).
Proof.
  unfold PriceMonitor.check_symbol, broker_price.
  apply keeps_bind; [now apply keeps_call|]. intros [q|]; [|apply keeps_ret].
  apply keeps_bind; [apply keeps_cache|]. intros _.
  apply keeps_bind; [apply keeps_get_monitor|]. intros m.
  apply keeps_bind.
  - apply keeps_guarded. intros c. apply keeps_call_entry.
  - intros _. apply keeps_for_each. intros p _. apply keeps_check_position.
Qed.

Lemma keeps_add_position_symbols (positions : list Position) :
  position_symbols positions ⊆ U ->
  keeps Inv (PriceMonitor.add_position_symbols env positions).
Proof.
  intros Hsub. unfold PriceMonitor.add_position_symbols.
  apply keeps_for_each. intros s Hin.
  apply keeps_bind; [apply keeps_get_monitor|]. intros m.
  destruct (bool_decide _); [apply keeps_ret|].
  apply keeps_bind; [|intros _; apply keeps_ret].
  apply keeps_add_symbol. apply Hsub.
  apply list_elem_of_In, elem_of_elements in Hin. exact Hin.
Qed.
End Cycle.

Section Reconcile.
Context {W : Type} (env : Env W).

Lemma cycle_body_within (st st' : State W) (o : outcome unit) :
  PriceMonitor.cycle_body env (TradeExecutor.call_entry env)
                          (TradeExecutor.call_position env) st = (o, st') ->
  within (watched st ∪ referenced (executor st)
          ∪ position_symbols (fst (get_positions env (world st)))) st'.
Proof.
  unfold PriceMonitor.cycle_body, broker_positions.
  unfold bind at 1, call at 1.
  destruct (get_positions env (world st)) as [positions w1]. cbn [fst].
  set (U := watched st ∪ referenced (executor st) ∪ position_symbols positions).
  assert (Hobj : on_objects (@within W U)) by apply within_on_objects.
  assert (Hst : within U st) by (split; subst U; set_solver).
  apply keeps_bind.
  - apply keeps_add_position_symbols. subst U. set_solver.
  - intros _. apply keeps_bind; [apply keeps_get_monitor|]. intros m.
    apply keeps_for_each. intros s _. apply keeps_check_symbol.
  - now apply (Hobj st).
Qed.

(** The cycle as a whole: what is watched afterwards was watched before,
    or is referenced by the executor, or is the symbol of a listed
    position. *)
Lemma poll_cycle_within (st st' : State W) (o : outcome unit) :
  poll_cycle env st = (o, st') ->
  watched st'
  ⊆ watched st ∪ referenced (executor st)
    ∪ position_symbols (fst (get_positions env (world st))).
Proof.
  unfold poll_cycle, PriceMonitor.poll_cycle.
  unfold bind at 1, try_except.
  destruct (PriceMonitor.cycle_body env _ _ st) as [r st1] eqn:Hbody.
  apply cycle_body_within in Hbody as [Hw _].
  destruct r as [[]|e];
    unfold log, emit, bind, get_monitor, sleep, call_raising; cbn;
    destruct (time_sleep env _ _) as [r w];
    intros [= <- <-]; exact Hw.
Qed.

Lemma add_symbol_reliable (s : string) (st : State W) :
  (forall w, fst (is_connected env w) = true) ->
  (forall s w, is_Some (fst (broker_get_price env (PyStr s) w))) ->
  exists st', PriceMonitor.add_symbol env (PyStr s) st = (Return true, st').
Proof.
  intros Hconn Hquote.
  unfold PriceMonitor.add_symbol, broker_is_connected, broker_price.
  unfold bind, call, modify_monitor, log, emit, ret.
  specialize (Hconn (world st)).
  destruct (is_connected env (world st)) as [c w1]. cbn in Hconn. subst c.
  cbn. specialize (Hquote s w1).
  destruct (broker_get_price env (PyStr s) w1) as [[p|] w2];
    cbn in Hquote |- *.
  - eauto.
  - now destruct Hquote.
Qed.

(** The reconciliation step of the cycle only adds, and only symbols of
    the positions. *)
Lemma add_position_symbols_watch (l : list pyval) (st : State W) :
  Forall (fun s => is_str s = true) l ->
  exists st',
    for_each l (fun symbol =>
      m <- get_monitor ;;
      if bool_decide (symbol ∈ symbols_to_monitor m) then ret tt
      else PriceMonitor.add_symbol env symbol ;;; ret tt) st
    = (Return tt, st')
    /\ executor st' = executor st
    /\ watched st ⊆ watched st'
    /\ watched st' ⊆ watched st ∪ list_to_set l
    /\ ((forall w, fst (is_connected env w) = true) ->
        (forall s w, is_Some (fst (broker_get_price env (PyStr s) w))) ->
        list_to_set l ⊆ watched st').
Proof.
  revert st. induction l as [|s l IH]; intros st Hstr.
  - exists st. cbn. repeat split; set_solver.
  - apply List.Forall_cons_iff in Hstr as [Hs Hstr].
    cbn [for_each]. unfold bind at 1. unfold bind at 1, get_monitor at 1.
    destruct (bool_decide (s ∈ symbols_to_monitor (monitor st))) eqn:Hin.
    + apply bool_decide_eq_true in Hin. unfold ret at 1.
      destruct (IH st Hstr) as (st' & Hrun & He & Hsub & Hsup & Hall).
      exists st'. rewrite Hrun. split; [reflexivity|]. split; [exact He|].
      rewrite list_to_set_cons. fold (watched st) in Hin.
      split; [exact Hsub|]. split; [clear - Hsup; set_solver|].
      intros Hc Hq. specialize (Hall Hc Hq). clear - Hall Hin Hsub.
      set_solver.
    + destruct (add_symbol_watch env s st)
        as (r & st1 & Hadd & He1 & _ & _ & Hw1).
      destruct r as [b|e];
        [destruct Hw1 as [Hw1 _]
        |destruct Hw1 as (_ & Hunhashable & _);
         apply is_str_hashable in Hs; congruence].
      unfold bind at 1. rewrite Hadd. unfold ret at 1.
      destruct (IH st1 Hstr) as (st' & Hrun & He & Hsub & Hsup & Hall).
      exists st'. rewrite Hrun. split; [reflexivity|].
      split; [congruence|].
      rewrite list_to_set_cons.
      split; [clear - Hw1 Hsub; destruct b; set_solver|].
      split; [clear - Hw1 Hsup; destruct b; set_solver|].
      intros Hc Hq. specialize (Hall Hc Hq).
      destruct s as [| | | |s|]; try discriminate.
      destruct (add_symbol_reliable s st Hc Hq) as (st1' & Hadd').
      rewrite Hadd in Hadd'. injection Hadd' as -> _.
      clear - Hw1 Hall Hsub. set_solver.
Qed.

Lemma position_symbols_str (positions : list Position) :
  Forall (fun s => is_str s = true) (elements (position_symbols positions)).
Proof.
  apply List.Forall_forall. intros s Hs.
  apply list_elem_of_In, elem_of_elements in Hs.
  unfold position_symbols in Hs.
  apply elem_of_list_to_set, list_elem_of_In, in_map_iff in Hs as (p & <- & _).
  reflexivity.
Qed.
End Reconcile.

(** C2, as the claim states it, fails: a symbol that nothing refers to any
    more stays in the watch-list through a full cycle. *)
Lemma watch_list_orphan_counterexample :
  let run := poll_cycle (mock_env []) idle_state in
  fst run = Return tt
  /\ PyStr "EURUSD" ∈ watched (snd run)
  /\ trade_instructions (executor (snd run)) = []
  /\ active_trades (executor (snd run)) = []
  /\ fst (get_positions (mock_env []) (world (snd run))) = [].
Proof.
  cbv zeta. split; [reflexivity|]. split; [|repeat split].
  apply (bool_decide_unpack _). vm_compute. exact Logic.I.
Qed.

(** C2, amended.  The cycle reconciles the watch-list in one direction and
    against the open positions only.  Its reconciliation step (lines
    295-301) leaves the executor alone, removes no symbol and adds only
    symbols of the listed positions, all of them when the broker is
    connected and quotes them.  After the full cycle every watched symbol
    was watched before the cycle, or was referenced by a pending
    instruction or an active trade, or is the symbol of a position that the
    broker listed in this cycle. *)
Theorem watch_list_after_cycle {W} (env : Env W) (st st' : State W)
        (o : outcome unit)
        (Hcycle : poll_cycle env st = (o, st')) :
  watched st'
  ⊆ watched st ∪ referenced (executor st)
    ∪ position_symbols (fst (get_positions env (world st)))
  /\ forall positions (st1 : State W),
       exists st2,
         PriceMonitor.add_position_symbols env positions st1 = (Return tt, st2)
         /\ executor st2 = executor st1
         /\ watched st1 ⊆ watched st2
         /\ watched st2 ⊆ watched st1 ∪ position_symbols positions
         /\ ((forall w, fst (is_connected env w) = true) ->
             (forall s w, is_Some (fst (broker_get_price env (PyStr s) w))) ->
             position_symbols positions ⊆ watched st2).
Proof.
  split; [exact (poll_cycle_within env st st' o Hcycle)|].
  intros positions st1.
  destruct (add_position_symbols_watch env
              (elements (position_symbols positions)) st1
              (position_symbols_str positions))
    as (st2 & Hrun & He & Hsub & Hsup & Hall).
  exists st2. unfold PriceMonitor.add_position_symbols.
  fold (position_symbols positions).
  rewrite list_to_set_elements_L in Hsup, Hall.
  now repeat split.
Qed.

Lemma watch_list_after_cycle_witness :
  watched (snd (poll_cycle (mock_env []) idle_state)) ⊆ {[PyStr "EURUSD"]}.
Proof.
  destruct (watch_list_after_cycle (mock_env []) idle_state
              (snd (poll_cycle (mock_env []) idle_state)) (Return tt)
              eq_refl) as [Hsub _].
  intros s Hs. apply Hsub in Hs.
  apply elem_of_union in Hs as [Hs|Hs].
  - apply elem_of_union in Hs as [Hs|Hs]; [exact Hs|].
    unfold referenced in Hs. cbn in Hs. set_solver.
  - unfold position_symbols in Hs. cbn in Hs. set_solver.
Defined.

(** ** The lock discipline of [close_trade] and of the entry handler *)

Lemma depth_after_snoc d l e :
  depth_after d (l ++ [e]) = lock_step (depth_after d l) e.
Proof. unfold depth_after. now rewrite fold_left_app. Qed.

Lemma calls_outside_lock_snoc d l e :
  calls_outside_lock d (l ++ [e])
  = (calls_outside_lock d l
     && (negb (is_gateway_call e) || Nat.eqb (depth_after d l) 0))%bool.
Proof.
  revert d. induction l as [|x l IH]; intros d; cbn.
  - now rewrite andb_true_r.
  - rewrite IH. now rewrite andb_assoc.
Qed.

Section Discipline.
Context {W : Type} (env : Env W).

Lemma disciplined_snoc (k : nat) (st : State W) (e : event) (w : W)
      (m : Monitor) (x : Executor) :
  disciplined k st ->
  (is_gateway_call e = true -> k = O) ->
  disciplined (lock_step k e)
              (mkState w m x (lock_step k e) (trace st ++ [e])).
Proof.
  intros (Hc & Hd & Hl) Hg. unfold disciplined. cbn [trace lock_depth].
  rewrite calls_outside_lock_snoc, depth_after_snoc, Hc, Hd.
  repeat split. cbn [andb].
  destruct (is_gateway_call e); [|reflexivity].
  now rewrite (Hg eq_refl).
Qed.

Lemma keeps_plain_emit k e : plain e -> keeps (@disciplined W k) (emit e).
Proof.
  intros [Hg Hs] st o st' HD [= <- <-].
  pose proof (disciplined_snoc k st e (world st) (monitor st) (executor st) HD)
    as H.
  rewrite Hs in H. destruct HD as (_ & _ & Hl). rewrite Hl.
  apply H. congruence.
Qed.

Lemma keeps_plain_call {A} k e (f : W -> A * W) :
  plain e -> keeps (@disciplined W k) (call e f).
Proof.
  intros [Hg Hs] st o st' HD. unfold call.
  destruct (f (world st)) as [a w]. intros [= <- <-].
  pose proof (disciplined_snoc k st e w (monitor st) (executor st) HD) as H.
  rewrite Hs in H. destruct HD as (_ & _ & Hl). rewrite Hl.
  apply H. congruence.
Qed.

(** An order or a close, requested with the lock free. *)
Lemma keeps_free_call {A} e (f : W -> A * W) :
  (forall d, lock_step d e = d) -> keeps (@disciplined W 0) (call e f).
Proof.
  intros Hs st o st' HD. unfold call.
  destruct (f (world st)) as [a w]. intros [= <- <-].
  pose proof (disciplined_snoc 0 st e w (monitor st) (executor st) HD) as H.
  rewrite Hs in H. destruct HD as (_ & _ & Hl). rewrite Hl.
  now apply H.
Qed.

Lemma keeps_plain_call_raising {A} k e (f : W -> outcome A * W) :
  plain e -> keeps (@disciplined W k) (call_raising e f).
Proof.
  intros [Hg Hs] st o st' HD. unfold call_raising.
  destruct (f (world st)) as [a w]. intros [= <- <-].
  pose proof (disciplined_snoc k st e w (monitor st) (executor st) HD) as H.
  rewrite Hs in H. destruct HD as (_ & _ & Hl). rewrite Hl.
  apply H. congruence.
Qed.

(** An order or a close that may raise, requested with the lock free. *)
Lemma keeps_free_call_raising {A} e (f : W -> outcome A * W) :
  (forall d, lock_step d e = d) -> keeps (@disciplined W 0) (call_raising e f).
Proof.
  intros Hs st o st' HD. unfold call_raising.
  destruct (f (world st)) as [a w]. intros [= <- <-].
  pose proof (disciplined_snoc 0 st e w (monitor st) (executor st) HD) as H.
  rewrite Hs in H. destruct HD as (_ & _ & Hl). rewrite Hl.
  now apply H.
Qed.

Lemma keeps_disciplined_lock {A} k (body : M W A) :
  keeps (@disciplined W (S k)) body -> keeps (@disciplined W k) (with_lock body).
Proof.
  intros Hbody st o st' HD. unfold with_lock.
  destruct (body (snd (acquire st))) as [r st1] eqn:E.
  intros [= <- <-].
  assert (H1 : disciplined (S k) (snd (acquire st))).
  { pose proof (disciplined_snoc k st EAcquire (world st) (monitor st)
                                 (executor st) HD) as H.
    destruct HD as (_ & _ & Hl). unfold acquire. cbn. rewrite Hl.
    apply H. discriminate. }
  pose proof (Hbody _ _ _ H1 E) as H2.
  pose proof (disciplined_snoc (S k) st1 ERelease (world st1) (monitor st1)
                               (executor st1) H2) as H.
  destruct H2 as (_ & _ & Hl). unfold release. cbn. rewrite Hl.
  apply H. discriminate.
Qed.

Lemma keeps_disciplined_monitor k (f : Monitor -> Monitor) :
  keeps (@disciplined W k) (modify_monitor f).
Proof. intros st o st' HD [= <- <-]. exact HD. Qed.

Lemma keeps_disciplined_executor k (f : Executor -> Executor) :
  keeps (@disciplined W k) (modify_executor f).
Proof. intros st o st' HD [= <- <-]. exact HD. Qed.

Lemma plain_log l : plain (ELog l).
Proof. now split. Qed.

Lemma keeps_disciplined_log k l : keeps (@disciplined W k) (log l).
Proof. apply keeps_plain_emit, plain_log. Qed.

Lemma keeps_disciplined_sleep k d : keeps (@disciplined W k) (sleep env d).
Proof. apply keeps_plain_call_raising. now split. Qed.

Lemma keeps_disciplined_add_symbol k s :
  keeps (@disciplined W k) (PriceMonitor.add_symbol env s).
Proof.
  unfold PriceMonitor.add_symbol, broker_is_connected, broker_price.
  apply keeps_bind; [apply keeps_plain_call; now split|].
  intros []; cbn [negb].
  - apply keeps_bind; [apply keeps_plain_call; now split|].
    intros [p|].
    + destruct (negb (hashable s)); [apply keeps_raise|].
      apply keeps_bind; [apply keeps_disciplined_monitor|]. intros _.
      apply keeps_bind; [apply keeps_disciplined_log|]. intros _.
      apply keeps_ret.
    + apply keeps_bind; [apply keeps_disciplined_log|]. intros _.
      apply keeps_ret.
  - apply keeps_bind; [apply keeps_disciplined_log|]. intros _.
    apply keeps_ret.
Qed.

Lemma keeps_disciplined_remove_symbol k s :
  keeps (@disciplined W k) (PriceMonitor.remove_symbol s).
Proof.
  unfold PriceMonitor.remove_symbol.
  destruct (negb (hashable s)); [apply keeps_raise|].
  apply keeps_bind; [apply keeps_get_monitor|]. intros m.
  destruct (bool_decide _).
  - apply keeps_bind; [apply keeps_disciplined_monitor|]. intros _.
    apply keeps_bind; [apply keeps_disciplined_log|]. intros _.
    apply keeps_ret.
  - apply keeps_bind; [apply keeps_disciplined_log|]. intros _.
    apply keeps_ret.
Qed.

Lemma keeps_disciplined_update k :
  keeps (@disciplined W k) (TradeExecutor._update_monitored_symbols env).
Proof.
  unfold TradeExecutor._update_monitored_symbols.
  apply keeps_bind.
  - apply keeps_disciplined_lock.
    apply keeps_bind; [apply keeps_get_executor|]. intros e.
    destruct (_ && _); [apply keeps_ret|apply keeps_raise].
  - intros needed. apply keeps_bind; [apply keeps_get_monitor|]. intros m.
    apply keeps_bind; [|intros _]; apply keeps_for_each; intros s _;
      (apply keeps_bind; [|intros _; apply keeps_ret]).
    + apply keeps_disciplined_add_symbol.
    + apply keeps_disciplined_remove_symbol.
Qed.

Lemma keeps_disciplined_close_trade tk :
  keeps (@disciplined W 0) (TradeExecutor._close_trade env tk).
Proof.
  unfold TradeExecutor._close_trade.
  apply keeps_bind.
  - apply keeps_disciplined_lock.
    apply keeps_bind; [apply keeps_get_executor|]. intros e. apply keeps_ret.
  - intros [t|].
    + apply keeps_bind; [apply keeps_get_executor|]. intros e.
      apply keeps_for_return.
      * intros a. unfold TradeExecutor.close_attempt, broker_close.
        apply keeps_bind; [now apply keeps_free_call_raising|].
        intros [].
        -- apply keeps_bind.
           ++ apply keeps_disciplined_lock.
              apply keeps_bind; [apply keeps_get_executor|]. intros e'.
              apply keeps_bind.
              ** destruct (TradeExecutor.remove_first _ _);
                   [apply keeps_disciplined_executor|apply keeps_raise].
              ** intros _. apply keeps_disciplined_update.
           ++ intros _. apply keeps_bind; [apply keeps_disciplined_log|].
              intros _. apply keeps_ret.
        -- apply keeps_bind; [apply keeps_get_executor|]. intros e'.
           apply keeps_bind; [apply keeps_disciplined_log|]. intros _.
           apply keeps_bind; [apply keeps_disciplined_sleep|]. intros _.
           apply keeps_ret.
      * apply keeps_bind; [apply keeps_disciplined_log|]. intros _.
        apply keeps_ret.
    + apply keeps_bind; [apply keeps_disciplined_log|]. intros _.
      apply keeps_ret.
Qed.

Lemma keeps_disciplined_execute_trade i q :
  keeps (@disciplined W 0) (TradeExecutor._execute_trade env i q).
Proof.
  unfold TradeExecutor._execute_trade.
  apply keeps_bind; [apply keeps_disciplined_log|]. intros _.
  apply keeps_bind; [apply keeps_get_executor|]. intros e.
  assert (Hfail : keeps (@disciplined W 0)
                    (e0 <- get_executor ;;
                     log WARNING ;;; sleep env (retry_delay e0) ;;; ret None
                     : M W (option bool))).
  { apply keeps_bind; [apply keeps_get_executor|]. intros e'.
    apply keeps_bind; [apply keeps_disciplined_log|]. intros _.
    apply keeps_bind; [apply keeps_disciplined_sleep|]. intros _.
    apply keeps_ret. }
  apply keeps_for_return.
  - intros a. unfold TradeExecutor.execute_attempt, broker_place, clock.
    apply keeps_bind; [now apply keeps_free_call_raising|].
    intros [t|]; [|exact Hfail].
    destruct (Z.eqb t 0); [exact Hfail|].
    apply keeps_bind; [apply keeps_plain_call; now split|]. intros now.
    apply keeps_bind.
    + apply keeps_disciplined_lock.
      apply keeps_bind; [apply keeps_disciplined_executor|]. intros _.
      apply keeps_bind; [apply keeps_get_executor|]. intros e'.
      destruct (TradeExecutor.remove_first _ _);
        [apply keeps_disciplined_executor|apply keeps_raise].
    + intros _. apply keeps_bind; [apply keeps_disciplined_log|].
      intros _. apply keeps_ret.
  - apply keeps_bind; [apply keeps_disciplined_log|]. intros _.
    apply keeps_ret.
Qed.

Lemma keeps_disciplined_on_entry s q :
  keeps (@disciplined W 0) (TradeExecutor._on_entry_condition env s q).
Proof.
  unfold TradeExecutor._on_entry_condition.
  apply keeps_bind.
  - apply keeps_disciplined_lock.
    apply keeps_bind; [apply keeps_get_executor|]. intros e. apply keeps_ret.
  - intros l. apply keeps_for_each. intros i _.
    apply keeps_bind; [apply keeps_disciplined_execute_trade|].
    intros _. apply keeps_ret.
Qed.
End Discipline.

(** For every broker: [close_trade] and the entry handler, started with the
    lock free, request every close and every order with the lock free, and
    leave the lock free. *)
Theorem close_and_entry_outside_lock {W} (env : Env W) (st : State W)
        (Hfree : disciplined 0 st) :
  (forall tk o st',
      TradeExecutor.close_trade env tk st = (o, st') -> disciplined 0 st')
  /\ (forall s q o st',
         TradeExecutor._on_entry_condition env s q st = (o, st') ->
         disciplined 0 st').
Proof.
  split.
  - intros tk o st' Hrun.
    exact (keeps_disciplined_close_trade env tk st o st' Hfree Hrun).
  - intros s q o st' Hrun.
    exact (keeps_disciplined_on_entry env s q st o st' Hfree Hrun).
Qed.

Lemma close_and_entry_outside_lock_witness :
  calls_outside_lock 0
    (trace (snd (TradeExecutor.close_trade (mock_env []) 1001
                   (one_trade_state filled_world)))) = true.
Proof.
  assert (Hfree : disciplined 0 (one_trade_state filled_world))
    by (repeat split).
  destruct (close_and_entry_outside_lock (mock_env [])
              (one_trade_state filled_world) Hfree) as [Hclose _].
  destruct (Hclose 1001 _ _ (surjective_pairing _)) as [Hcalls _].
  exact Hcalls.
Defined.

Lemma coerce_not_numeric {W} (env : Env W) (v : pyval) (st : State W) :
  not_numeric env v ->
  TradeExecutor.coerce env v st = (Return None, moved st (world st) [ELog ERROR]).
Proof.
  unfold TradeExecutor.coerce. intros [-> | ->]; reflexivity.
Qed.

Lemma coerce_coercible {W} (env : Env W) (v : pyval) (st : State W) f :
  py_float (str_to_float env) v = Return f ->
  TradeExecutor.coerce env v st = (Return (Some f), st).
Proof. unfold TradeExecutor.coerce. now intros ->. Qed.

(** The three rejections that the code makes: a required key is missing;
    or every numeric field is a number or raises [ValueError] or
    [TypeError] under [float], and one of them raises; or the numeric fields
    are numbers and the direction is a string other than "buy" and "sell",
    in any case of letters.  Each returns [False] after one error record,
    with the world, the monitor, the executor and the lock as before. *)
Lemma add_trade_instruction_rejects {W} (env : Env W) (st : State W)
      (r : RawInstruction) :
  (exists field, In field TradeExecutor.required_fields
                 /\ TradeExecutor.has_key r field = false)
  \/ (raw_symbol r <> None
      /\ Forall (fun o => exists v, o = Some v
                                    /\ (coercible env v \/ not_numeric env v))
                (numeric_values r)
      /\ Exists (fun o => exists v, o = Some v /\ not_numeric env v)
                (numeric_values r))
  \/ (raw_symbol r <> None
      /\ Forall (fun o => exists v, o = Some v /\ coercible env v)
                (numeric_values r)
      /\ exists s, raw_direction r = Some (PyStr s)
                   /\ lower s <> "buy" /\ lower s <> "sell") ->
  TradeExecutor.add_trade_instruction env r st
  = (Return false, moved st (world st) [ELog ERROR]).
Proof.
  intros [Hmissing | [Hnumeric | Hdirection]].
  - apply add_trade_instruction_missing_field.
    destruct Hmissing as (field & Hin & Hkey).
    apply existsb_exists. exists field. split; [exact Hin|].
    now rewrite Hkey.
  - destruct Hnumeric as (Hsym & Hall & Hone).
    destruct r as [[sym|] oe ox os ol dir com]; [clear Hsym|now cbn in Hsym].
    unfold numeric_values in *. cbn in Hall, Hone.
    apply Forall_cons_iff in Hall as [(ve & -> & He) Hall].
    apply Forall_cons_iff in Hall as [(vx & -> & Hx) Hall].
    apply Forall_cons_iff in Hall as [(vs & -> & Hs) Hall].
    apply Forall_cons_iff in Hall as [(vl & -> & Hl) _].
    unfold TradeExecutor.add_trade_instruction.
    cbn [existsb TradeExecutor.required_fields TradeExecutor.has_key
         raw_symbol raw_entry_price raw_exit_price raw_stop_loss raw_lot_size
         raw_direction raw_comment].
    cbn.
    destruct He as [(e & He) | He];
      [rewrite (bind_return _ _ _ _ _ (coerce_coercible env ve st e He))
      |now rewrite (bind_return _ _ _ _ _ (coerce_not_numeric env ve st He))].
    destruct Hx as [(x & Hx) | Hx];
      [rewrite (bind_return _ _ _ _ _ (coerce_coercible env vx st x Hx))
      |now rewrite (bind_return _ _ _ _ _ (coerce_not_numeric env vx st Hx))].
    destruct Hs as [(s & Hs) | Hs];
      [rewrite (bind_return _ _ _ _ _ (coerce_coercible env vs st s Hs))
      |now rewrite (bind_return _ _ _ _ _ (coerce_not_numeric env vs st Hs))].
    destruct Hl as [(l & Hl) | Hl];
      [|now rewrite (bind_return _ _ _ _ _ (coerce_not_numeric env vl st Hl))].
    exfalso.
    unfold not_numeric in Hone.
    repeat (apply Exists_cons in Hone as [(v & [= <-] & [H|H]) | Hone];
            [congruence|congruence|]).
    inversion Hone.
  - destruct Hdirection as (Hsym & Hall & s & Hdir & Hbuy & Hsell).
    destruct r as [[sym|] oe ox os ol dir com]; [clear Hsym|now cbn in Hsym].
    unfold numeric_values in *. cbn in Hall, Hdir. subst dir.
    apply Forall_cons_iff in Hall as [(ve & -> & e & He) Hall].
    apply Forall_cons_iff in Hall as [(vx & -> & x & Hx) Hall].
    apply Forall_cons_iff in Hall as [(vs & -> & sl & Hs) Hall].
    apply Forall_cons_iff in Hall as [(vl & -> & l & Hl) _].
    unfold TradeExecutor.add_trade_instruction.
    cbn.
    rewrite (bind_return _ _ _ _ _ (coerce_coercible env ve st e He)).
    rewrite (bind_return _ _ _ _ _ (coerce_coercible env vx st x Hx)).
    rewrite (bind_return _ _ _ _ _ (coerce_coercible env vs st sl Hs)).
    rewrite (bind_return _ _ _ _ _ (coerce_coercible env vl st l Hl)).
    unfold bind at 1, lift_outcome.
    apply String.eqb_neq in Hbuy, Hsell. rewrite Hbuy, Hsell. reflexivity.
Qed.

Lemma add_trade_instruction_rejects_witness :
  TradeExecutor.add_trade_instruction (mock_env []) bad_lot_instruction
                                      fresh_state
  = (Return false, moved fresh_state quoting_world [ELog ERROR]).
Proof.
  apply (add_trade_instruction_rejects (mock_env []) fresh_state
                                       bad_lot_instruction).
  right. left. split; [discriminate|]. split.
  - repeat constructor; eexists; (split; [reflexivity|]);
      try (now left; eexists); now right; left.
  - do 3 apply Exists_cons_tl. apply Exists_cons_hd.
    eexists. split; [reflexivity|]. now left.
Defined.

(** ** The end-to-end example

    Property 9 of the specification: after the add the instruction is
    pending and its symbol watched; after the cycle at ask 1.0999 the
    backlog is empty and the trade 1001 is active, entered at the ask;
    after the cycle at bid 1.1050 no trade is active and the symbol is
    unregistered. *)
Example end_to_end :
  map ti_symbol (trade_instructions (executor after_add)) = [PyStr "EURUSD"]
  /\ elements (watched after_add) = [PyStr "EURUSD"]
  /\ trade_instructions (executor after_entry) = []
  /\ map ticket (active_trades (executor after_entry)) = [1001]
  /\ map entry_price (active_trades (executor after_entry)) = [1.0999%float]
  /\ active_trades (executor after_exit) = []
  /\ elements (watched after_exit) = [].
Proof. vm_compute. repeat split. Qed.

(** * More of the executor *)

(** ** Removing an instruction *)

Lemma find_instruction_None (id : Z) (l : list TradeInstruction) :
  ~ In id (map ti_id l) ->
  List.find (fun i => Z.eqb (ti_id i) id) l = None.
Proof.
  induction l as [|i l IH]; cbn [List.find map]; [reflexivity|].
  intros H. destruct (Z.eqb_spec (ti_id i) id) as [E|_].
  - exfalso. apply H. now left.
  - apply IH. intros Hin. apply H. now right.
Qed.

Lemma remove_first_of_find {A} (p : A -> bool) (l : list A) (x : A) :
  List.find p l = Some x ->
  exists rest, TradeExecutor.remove_first p l = Some rest.
Proof.
  induction l as [|y l IH]; cbn; [discriminate|].
  destruct (p y); [eauto|].
  intros H. destruct (IH H) as (rest & ->). eauto.
Qed.

Lemma existsb_used_elsewhere (e : Executor) (id : Z) (sym : pyval) :
  (existsb (fun o => negb (Z.eqb (ti_id o) id)
                     && bool_decide (ti_symbol o = sym))
           (trade_instructions e)
   || existsb (fun t => bool_decide (symbol t = sym)) (active_trades e))%bool
  = true
  <-> used_elsewhere e id sym.
Proof.
  unfold used_elsewhere. rewrite orb_true_iff, !existsb_exists.
  split; (intros [(x & Hin & H) | (x & Hin & H)]; [left | right]); exists x.
  - apply andb_true_iff in H as [H1 H2].
    apply negb_true_iff, Z.eqb_neq in H1. apply bool_decide_eq_true in H2.
    auto.
  - apply bool_decide_eq_true in H. auto.
  - destruct H as [H1 H2]. split; [exact Hin|].
    apply andb_true_iff. split.
    + now apply negb_true_iff, Z.eqb_neq.
    + now apply bool_decide_eq_true.
  - split; [exact Hin|]. now apply bool_decide_eq_true.
Qed.

(** [remove_trade_instruction] with an id that no pending instruction has:
    [False], after a lock round and a warning; nothing else changes and
    the broker is not called. *)
Theorem remove_trade_instruction_unknown {W} (st : State W) (id : Z)
        (Habsent : ~ In id (map ti_id (trade_instructions (executor st)))) :
  TradeExecutor.remove_trade_instruction id st
  = (Return false, moved st (world st) [EAcquire; ERelease; ELog WARNING]).
Proof.
  unfold TradeExecutor.remove_trade_instruction, moved.
  run. rewrite (find_instruction_None _ _ Habsent). cbn.
  now rewrite <- !app_assoc.
Qed.

Lemma remove_trade_instruction_unknown_witness :
  fst (TradeExecutor.remove_trade_instruction 9 backlog_state) = Return false.
Proof.
  rewrite (remove_trade_instruction_unknown backlog_state 9).
  - reflexivity.
  - cbn. intros [H|[H|[H|[]]]]; discriminate.
Defined.

(** [remove_trade_instruction] with the id of a pending instruction: the
    first instruction with the id leaves the backlog, the others stay in
    their order; the trades and the world are as before (no broker call).
    Its symbol, a [str], leaves the watch-list and the quote cache
    unless an instruction with another id or an active trade uses
    the symbol; no other symbol is touched. *)
Theorem remove_trade_instruction_effect {W} (st : State W) (id : Z)
        (i : TradeInstruction)
        (Hfound : List.find (fun i => Z.eqb (ti_id i) id)
                            (trade_instructions (executor st)) = Some i)
        (Hstr : is_str (ti_symbol i) = true) :
  exists st' rest,
    TradeExecutor.remove_trade_instruction id st = (Return true, st')
    /\ TradeExecutor.remove_first (fun i => Z.eqb (ti_id i) id)
         (trade_instructions (executor st)) = Some rest
    /\ trade_instructions (executor st') = rest
    /\ active_trades (executor st') = active_trades (executor st)
    /\ world st' = world st
    /\ lock_depth st' = lock_depth st
    /\ (used_elsewhere (executor st) id (ti_symbol i) ->
        monitor st' = monitor st)
    /\ (~ used_elsewhere (executor st) id (ti_symbol i) ->
        watched st' = watched st ∖ {[ti_symbol i]}
        /\ price_data (monitor st')
           = if bool_decide (ti_symbol i ∈ watched st)
             then delete (ti_symbol i) (price_data (monitor st))
             else price_data (monitor st)).
Proof.
  destruct (remove_first_of_find _ _ _ Hfound) as (rest & Hrest).
  unfold TradeExecutor.remove_trade_instruction.
  unfold with_lock, bind at 1. unfold bind at 1, get_executor at 1.
  cbn [executor acquire snd]. rewrite Hfound, Hrest. cbn [default].
  pose proof (existsb_used_elsewhere (executor st) id (ti_symbol i)) as Hused.
  destruct (existsb _ (trade_instructions (executor st)) || existsb _ _)%bool.
  - assert (Hu : used_elsewhere (executor st) id (ti_symbol i))
      by now apply Hused.
    cbn [negb]. run. eexists. exists rest. cbn. rewrite Hrest. cbn.
    do 6 (split; [reflexivity|]). split; [reflexivity|].
    intros H. now destruct H.
  - assert (Hu : ~ used_elsewhere (executor st) id (ti_symbol i)).
    { intros H. apply Hused in H. discriminate. }
    cbn [negb]. unfold PriceMonitor.remove_symbol.
    rewrite (is_str_hashable _ Hstr). cbn [negb]. run.
    unfold watched.
    destruct (bool_decide (ti_symbol i ∈ symbols_to_monitor (monitor st)))
      eqn:Hin; cbn; eexists; exists rest; cbn; rewrite Hrest; cbn;
      (do 6 (split; [reflexivity|]));
      (split; [intros H; now destruct (Hu H)|]); intros _;
      (split; [|reflexivity]); [reflexivity|].
    apply bool_decide_eq_false in Hin. clear - Hin. set_solver.
Qed.

Lemma remove_trade_instruction_effect_witness :
  let run := TradeExecutor.remove_trade_instruction 3 backlog_state in
  fst run = Return true
  /\ watched (snd run) = watched backlog_state ∖ {[PyStr "GBPUSD"]}.
Proof.
  destruct (remove_trade_instruction_effect backlog_state 3
              (pending 3 "GBPUSD") eq_refl eq_refl)
    as (st' & rest & Hrun & _ & _ & _ & _ & _ & _ & Hgone).
  cbv zeta. rewrite Hrun. split; [reflexivity|].
  apply Hgone. unfold used_elsewhere. cbn.
  intros [(o & [<-|[<-|[<-|[]]]] & Hid & Hsym) | (t & [] & _)];
    cbn in *; congruence.
Defined.

(** ** Reconciling the watch-list *)

Lemma str_symbols_hashable {W} (st : State W) :
  str_symbols st -> hashable_symbols st.
Proof.
  intros H. split; intros s Hs; apply is_str_hashable, H;
    [now apply elem_of_union_l|now apply elem_of_union_r].
Qed.

(** A test of [hashable_symbols] on a given state. *)
Lemma hashable_symbols_check {W} (st : State W) :
  forallb hashable (elements (watched st ∪ referenced (executor st))) = true ->
  hashable_symbols st.
Proof.
  intros H. rewrite forallb_forall in H.
  split; intros s Hs; apply H, list_elem_of_In, elem_of_elements;
    [now apply elem_of_union_l|now apply elem_of_union_r].
Qed.

(** A test of [str_symbols] on a given state. *)
Lemma str_symbols_check {W} (st : State W) :
  forallb is_str (elements (watched st ∪ referenced (executor st))) = true ->
  str_symbols st.
Proof.
  intros H s Hs. rewrite forallb_forall in H. apply H.
  now apply list_elem_of_In, elem_of_elements.
Qed.

Section Reconciling.
Context {W : Type} (env : Env W).

Lemma add_symbols_reliable (l : list pyval) (st : State W) :
  Forall (fun s => is_str s = true) l ->
  reliable_quotes env ->
  exists st',
    for_each l (fun s => PriceMonitor.add_symbol env s ;;; ret tt) st
    = (Return tt, st')
    /\ watched st' = watched st ∪ list_to_set l.
Proof.
  intros Hstr [Hc Hq]. revert st.
  induction l as [|s l IH]; intros st.
  - exists st. split; [reflexivity|]. cbn. clear. set_solver.
  - apply List.Forall_cons_iff in Hstr as [Hs Hstr].
    destruct s as [| | | |s|]; try discriminate.
    destruct (add_symbol_reliable env s st Hc Hq) as (st1 & Hadd).
    destruct (add_symbol_watch env (PyStr s) st)
      as (r & st1' & Hadd' & _ & _ & _ & Hw).
    rewrite Hadd in Hadd'. injection Hadd' as <- <-.
    destruct Hw as [Hw _].
    destruct (IH Hstr st1) as (st2 & Hrest & Hw2).
    exists st2. cbn [for_each].
    unfold bind at 1. unfold bind at 1. rewrite Hadd. unfold ret at 1.
    split; [exact Hrest|].
    rewrite Hw2, Hw, list_to_set_cons. clear. set_solver.
Qed.

Lemma update_monitored_symbols_full (st : State W) :
  str_symbols st ->
  exists st',
    TradeExecutor._update_monitored_symbols env st = (Return tt, st')
    /\ executor st' = executor st
    /\ lock_depth st' = lock_depth st
    /\ watched st' ⊆ referenced (executor st)
    /\ watched st ∩ referenced (executor st) ⊆ watched st'
    /\ (reliable_quotes env -> watched st' = referenced (executor st)).
Proof.
  intros Hstr.
  destruct (str_symbols_hashable st Hstr) as [Hhw Hhr].
  destruct (update_monitored_symbols_watch env st)
    as (o & st' & Hrun & He & Hl & _ & _ & _ & Hsub & _ & Hret).
  rewrite (Hret Hhw Hhr) in *. destruct (Hsub eq_refl) as [Hsub1 Hkeep].
  exists st'. do 5 (split; [assumption|]).
  intros Hreliable.
  revert Hrun. unfold TradeExecutor._update_monitored_symbols.
  unfold bind at 1. rewrite collect_references.
  apply hashable_references_test in Hhr. rewrite Hhr.
  set (st0 := moved st (world st) [EAcquire; ERelease]).
  unfold bind at 1, get_monitor at 1.
  change (monitor st0) with (monitor st).
  destruct (add_symbols_reliable
              (elements (referenced (executor st) ∖ symbols_to_monitor (monitor st)))
              st0) as (st1 & Hadd & Hw1); [|exact Hreliable|].
  { apply List.Forall_forall. intros s Hs.
    apply list_elem_of_In, elem_of_elements, elem_of_difference in Hs as [Hs _].
    apply Hstr. now apply elem_of_union_r. }
  rewrite (bind_return _ _ _ _ _ Hadd).
  destruct (remove_symbols_watch
              (elements (symbols_to_monitor (monitor st) ∖ referenced (executor st)))
              st1) as (o2 & st2 & Hrm & _ & _ & _ & _ & _ & Hw2 & _).
  rewrite Hrm. intros [= -> <-].
  rewrite (Hw2 eq_refl), Hw1. change (watched st0) with (watched st).
  rewrite !list_to_set_elements_L. unfold watched.
  generalize (symbols_to_monitor (monitor st)) (referenced (executor st)).
  clear. intros A B. apply set_eq. intros x.
  rewrite elem_of_difference, elem_of_union, !elem_of_difference.
  destruct (decide (x ∈ A)), (decide (x ∈ B)); tauto.
Qed.

(** With [str] symbols in the watch-list, the backlog and the registry,
    [_update_monitored_symbols] returns, leaves the executor and the lock
    as they were, and leaves a watch-list inside the referenced symbols
    that keeps every referenced symbol it had.  When the broker is
    connected and quotes every symbol, the watch-list becomes the set of
    referenced symbols exactly. *)
Theorem update_monitored_symbols_exact (st : State W) :
  str_symbols st ->
  exists st',
    TradeExecutor._update_monitored_symbols env st = (Return tt, st')
    /\ executor st' = executor st
    /\ lock_depth st' = lock_depth st
    /\ watched st' ⊆ referenced (executor st)
    /\ watched st ∩ referenced (executor st) ⊆ watched st'
    /\ (reliable_quotes env -> watched st' = referenced (executor st)).
Proof. exact (update_monitored_symbols_full st). Qed.

(** With [str] symbols in the watch-list, the backlog and the registry,
    [cancel_all_instructions] returns the length of the backlog and leaves
    the backlog empty; the trades and the lock are as before, and the
    watch-list is inside the symbols of the active trades, with every such
    symbol that was watched still in it.  At a broker that is connected
    and quotes every symbol the watch-list becomes exactly the symbols of
    the active trades. *)
Theorem cancel_all_instructions_effect (st : State W) :
  str_symbols st ->
  exists st',
    TradeExecutor.cancel_all_instructions env st
    = (Return (Z.of_nat (length (trade_instructions (executor st)))), st')
    /\ trade_instructions (executor st') = []
    /\ active_trades (executor st') = active_trades (executor st)
    /\ lock_depth st' = lock_depth st
    /\ watched st' ⊆ trade_symbols (executor st)
    /\ watched st ∩ trade_symbols (executor st) ⊆ watched st'
    /\ (reliable_quotes env -> watched st' = trade_symbols (executor st)).
Proof.
  intros Hstr.
  unfold TradeExecutor.cancel_all_instructions, with_lock.
  unfold bind at 1, get_executor at 1. cbn [acquire snd executor].
  unfold bind at 1, modify_executor at 1. cbv beta iota.
  assert (Href : referenced (TradeExecutor.set_instructions [] (executor st))
                 = trade_symbols (executor st)).
  { unfold referenced, trade_symbols. cbn. clear. set_solver. }
  match goal with
  | |- context [bind (TradeExecutor._update_monitored_symbols env) _ ?s] =>
      destruct (update_monitored_symbols_full s)
        as (st1 & Hup & He & Hl & Hsub & Hkeep & Hexact);
      [|rewrite (bind_return _ _ _ _ _ Hup)]
  end.
  { intros s Hs. apply Hstr. cbn [executor] in Hs. rewrite Href in Hs.
    unfold watched in *. cbn [monitor] in Hs.
    unfold referenced, trade_symbols in *. clear - Hs. set_solver. }
  cbn in He, Hl, Hsub, Hkeep, Hexact.
  rewrite Href in *.
  unfold bind, log, emit, ret, release. cbn.
  eexists. split; [reflexivity|]. cbn. rewrite He, Hl. cbn.
  unfold watched in *. cbn in *. auto 10.
Qed.
End Reconciling.

Lemma cancel_all_instructions_witness :
  let run := TradeExecutor.cancel_all_instructions (mock_env []) backlog_state in
  fst run = Return 3
  /\ trade_instructions (executor (snd run)) = []
  /\ watched (snd run) = ∅.
Proof.
  assert (Hstr : str_symbols backlog_state)
    by (apply str_symbols_check; vm_compute; reflexivity).
  destruct (cancel_all_instructions_effect (mock_env []) backlog_state Hstr)
    as (st' & Hrun & Hempty & _ & _ & Hsub & _).
  cbv zeta. rewrite Hrun. split; [reflexivity|]. split; [exact Hempty|].
  cbn [snd]. unfold trade_symbols in Hsub. cbn in Hsub.
  clear - Hsub. set_solver.
Defined.

Lemma update_monitored_symbols_exact_witness :
  watched (snd (TradeExecutor._update_monitored_symbols steady_env
                  two_trade_state))
  = referenced (executor two_trade_state).
Proof.
  assert (Hstr : str_symbols two_trade_state)
    by (apply str_symbols_check; vm_compute; reflexivity).
  destruct (update_monitored_symbols_exact steady_env two_trade_state Hstr)
    as (st' & Hrun & _ & _ & _ & _ & Hexact).
  rewrite Hrun. apply Hexact.
  split; [reflexivity|]. intros s w. cbn. eauto.
Defined.
(** ** Closing every trade *)

Lemma remove_first_length {A} (p : A -> bool) (l rest : list A) :
  TradeExecutor.remove_first p l = Some rest -> length l = S (length rest).
Proof.
  revert rest. induction l as [|x l IH]; intros rest; cbn; [discriminate|].
  destruct (p x).
  - now intros [= <-].
  - destruct (TradeExecutor.remove_first p l) as [r|]; [|discriminate].
    intros [= <-]. cbn. f_equal. now apply IH.
Qed.

Lemma remove_first_of_find_trade (tk : Z) (l : list ActiveTrade) (t : ActiveTrade) :
  List.find (fun t => Z.eqb (ticket t) tk) l = Some t ->
  exists rest, TradeExecutor.remove_first (fun t => Z.eqb (ticket t) tk) l
               = Some rest.
Proof. apply remove_first_of_find. Qed.

Lemma hashable_references_set_trades (e : Executor) (rest : list ActiveTrade) :
  (forall t, In t rest -> In t (active_trades e)) ->
  hashable_references e ->
  hashable_references (TradeExecutor.set_trades rest e).
Proof.
  intros Hsub H s Hs. apply H. revert s Hs. now apply referenced_set_trades.
Qed.

Section ClosingAll.
Context {W : Type} (env : Env W).

(** With the trade in the registry and hashable symbols, an attempt that
    the broker answers with [True] returns. *)
Lemma close_attempt_closed tk a (st : State W) t :
  List.find (fun t => Z.eqb (ticket t) tk) (active_trades (executor st))
  = Some t ->
  fst (close_position env tk (world st)) = Return true ->
  hashable_symbols st ->
  exists st',
    TradeExecutor.close_attempt env tk a st = (Return (Some true), st')
    /\ lock_depth st' = lock_depth st
    /\ hashable_symbols st'
    /\ trade_removed tk st st'.
Proof.
  intros Hfound Hb [Hhw Hhr].
  destruct (TradeExecutor.close_attempt env tk a st) as [o st'] eqn:Hrun.
  pose proof Hrun as Heff.
  apply close_attempt_effect in Heff as (Hl & _ & Hhw' & Hcases).
  specialize (Hhw' Hhw).
  destruct (remove_first_of_find_trade _ _ _ Hfound) as (rest & Hrest).
  assert (Hrest_ok : hashable_references
                       (TradeExecutor.set_trades rest (executor st))).
  { apply hashable_references_set_trades; [|exact Hhr].
    exact (remove_first_sublist _ _ _ Hrest). }
  revert Hrun. unfold TradeExecutor.close_attempt, broker_close.
  unfold bind at 1, call_raising at 1.
  destruct (close_position env tk (world st)) as [r w1]; cbn [fst] in Hb |- *.
  subst r.
  unfold bind at 1, with_lock.
  unfold bind at 1, get_executor at 1.
  cbn [acquire snd executor]. rewrite Hrest.
  unfold bind at 1, modify_executor at 1. cbv beta iota.
  match goal with
  | |- context [TradeExecutor._update_monitored_symbols env ?s] =>
      destruct (update_monitored_symbols_watch env s)
        as (o2 & s2 & Hup & _ & _ & _ & _ & _ & _ & _ & Hret);
      rewrite Hup, (Hret Hhw Hrest_ok)
  end.
  unfold bind, log, emit, ret, release. cbn. intros [= <- <-].
  destruct Hcases as [[[H|[e H]] _]|[[_ Hrm]|[H _]]]; try discriminate.
  eexists. split; [reflexivity|]. split; [exact Hl|].
  split; [|exact Hrm].
  split; [exact Hhw'|].
  destruct Hrm as (rest' & Hrest' & -> & _).
  rewrite Hrest in Hrest'. now injection Hrest' as <-.
Qed.

(** With the trade in the registry, a broker that raises nothing, a delay
    that [time.sleep] accepts and hashable symbols, an attempt does not
    raise. *)
Lemma close_attempt_found tk a (st : State W) t :
  List.find (fun t => Z.eqb (ticket t) tk) (active_trades (executor st))
  = Some t ->
  closes_return env ->
  sleep_returns env (retry_delay (executor st)) ->
  hashable_symbols st ->
  exists r st',
    TradeExecutor.close_attempt env tk a st = (Return r, st')
    /\ lock_depth st' = lock_depth st
    /\ hashable_symbols st'
    /\ (r = None /\ untouched st st'
        /\ fst (close_position env tk (world st)) = Return false
        \/ r = Some true /\ trade_removed tk st st'
           /\ fst (close_position env tk (world st)) = Return true).
Proof.
  intros Hfound Hcr Hsleep Hh.
  destruct (Hcr tk (world st)) as [[] Hb].
  - destruct (close_attempt_closed tk a st t Hfound Hb Hh)
      as (st' & Hrun & Hl & Hh' & Hrm).
    exists (Some true), st'. split; [exact Hrun|]. split; [exact Hl|].
    split; [exact Hh'|]. right. auto.
  - destruct (TradeExecutor.close_attempt env tk a st) as [o st'] eqn:Hrun.
    pose proof Hrun as Heff.
    apply close_attempt_effect in Heff as (Hl & _ & Hhw' & Hcases).
    revert Hrun. unfold TradeExecutor.close_attempt, broker_close.
    unfold bind at 1, call_raising at 1.
    destruct (close_position env tk (world st)) as [r w1]; cbn [fst] in Hb |- *.
    subst r.
    unfold bind at 1, get_executor at 1.
    unfold bind at 1, log at 1, emit at 1.
    unfold bind at 1, sleep, call_raising. cbn.
    specialize (Hsleep w1).
    destruct (time_sleep env _ w1) as [r w2]. cbn in Hsleep. subst r.
    cbn. intros [= <- <-].
    destruct Hcases as [[_ Hun]|[[H _]|[H _]]]; try discriminate.
    exists None. eexists. split; [reflexivity|]. split; [exact Hl|].
    split.
    + split; [apply Hhw', Hh|]. destruct Hun as [-> _]. apply Hh.
    + left. auto.
Qed.

Lemma find_untouched tk (st st' : State W) :
  untouched st st' ->
  List.find (fun t => Z.eqb (ticket t) tk) (active_trades (executor st'))
  = List.find (fun t => Z.eqb (ticket t) tk) (active_trades (executor st)).
Proof. intros [He _]. now rewrite He. Qed.

Lemma close_attempts_found tk (l : list Z) (st : State W) t :
  List.find (fun t => Z.eqb (ticket t) tk) (active_trades (executor st))
  = Some t ->
  closes_return env ->
  sleep_returns env (retry_delay (executor st)) ->
  hashable_symbols st ->
  exists b st',
    for_return l (TradeExecutor.close_attempt env tk)
               (log ERROR ;;; ret false) st = (Return b, st')
    /\ lock_depth st' = lock_depth st
    /\ hashable_symbols st'
    /\ (b = false /\ untouched st st'
        \/ b = true /\ trade_removed tk st st' /\ l <> []).
Proof.
  intros Hfound Hcr. revert st Hfound.
  induction l as [|a l IH]; intros st Hfound Hsleep Hh.
  - cbn. unfold bind, log, emit, ret. cbn.
    exists false. eexists. split; [reflexivity|]. split; [reflexivity|].
    split; [exact Hh|].
    left. split; [reflexivity|]. now split.
  - cbn [for_return]. unfold bind at 1.
    destruct (close_attempt_found tk a st t Hfound Hcr Hsleep Hh)
      as (r & st1 & Hat & Hl & Hh1 & [(-> & Hun & _) | (-> & Hrm & _)]);
      rewrite Hat.
    + rewrite <- (find_untouched tk st st1 Hun) in Hfound.
      assert (Hsleep1 : sleep_returns env (retry_delay (executor st1)))
        by (destruct Hun as [-> _]; exact Hsleep).
      destruct (IH st1 Hfound Hsleep1 Hh1)
        as (b & st' & Hrest & Hl2 & Hh2 & Hcases).
      exists b, st'. split; [exact Hrest|]. split; [congruence|].
      split; [exact Hh2|].
      destruct Hcases as [[-> Hun2] | (-> & Hrm & _)]; [left|right].
      * split; [reflexivity|]. eauto using untouched_trans.
      * split; [reflexivity|]. split; [eauto using trade_removed_after|].
        discriminate.
    + exists true, st1. unfold ret. split; [reflexivity|].
      split; [exact Hl|]. split; [exact Hh1|]. right. split; [reflexivity|].
      split; [exact Hrm|discriminate].
Qed.

(** At a broker whose [close_position] raises nothing, with a delay that
    [time.sleep] accepts and hashable symbols, [_close_trade] does not
    raise: it returns [False] and has touched neither the executor nor the
    watch-list, or it returns [True] and has removed the first trade with
    the ticket. *)
Lemma close_trade_returns tk (st : State W) :
  closes_return env ->
  sleep_returns env (retry_delay (executor st)) ->
  hashable_symbols st ->
  exists b st',
    TradeExecutor._close_trade env tk st = (Return b, st')
    /\ lock_depth st' = lock_depth st
    /\ hashable_symbols st'
    /\ (b = false /\ untouched st st'
        \/ b = true /\ trade_removed tk st st').
Proof.
  intros Hcr Hsleep Hh.
  unfold TradeExecutor._close_trade.
  rewrite (bind_return _ _ _ _ _ (with_lock_read _ st)).
  destruct (List.find _ _) as [t|] eqn:Hfound.
  - unfold bind at 1, get_executor at 1.
    change (executor (moved st (world st) [EAcquire; ERelease]))
      with (executor st).
    destruct (close_attempts_found tk (range1 (max_retries (executor st)))
                (moved st (world st) [EAcquire; ERelease]) t Hfound Hcr
                Hsleep Hh)
      as (b & st' & Hrun & Hl & Hh' & Hcases).
    exists b, st'. split; [exact Hrun|]. split; [exact Hl|].
    split; [exact Hh'|].
    destruct Hcases as [[-> Hun] | (-> & Hrm & _)]; auto.
  - unfold bind, log, emit, ret. cbn.
    exists false. eexists. split; [reflexivity|]. split; [reflexivity|].
    split; [exact Hh|].
    left. split; [reflexivity|]. now split.
Qed.

Lemma close_each_count (l : list ActiveTrade) (c : Z) (st : State W) :
  closes_return env ->
  sleep_returns env (retry_delay (executor st)) ->
  hashable_symbols st ->
  exists n st',
    TradeExecutor.close_each env l c st = (Return (c + Z.of_nat n), st')
    /\ (n <= length l)%nat
    /\ (length (active_trades (executor st')) + n
        = length (active_trades (executor st)))%nat
    /\ trade_instructions (executor st') = trade_instructions (executor st)
    /\ incl (active_trades (executor st')) (active_trades (executor st))
    /\ lock_depth st' = lock_depth st.
Proof.
  intros Hcr. revert c st. induction l as [|t l IH]; intros c st Hsleep Hh.
  - exists O, st. cbn. rewrite Z.add_0_r.
    repeat split; auto using incl_refl.
  - cbn [TradeExecutor.close_each].
    destruct (close_trade_returns (ticket t) st Hcr Hsleep Hh)
      as (b & st1 & Hone & Hl1 & Hh1 & Hcases).
    rewrite (bind_return _ _ _ _ _ Hone).
    destruct Hcases as [[-> [He _]] | [-> (rest & Hrest & He & _)]].
    + destruct (IH c st1) as (n & st' & Hrun & Hn & Hlen & Hi & Hincl & Hl);
        [now rewrite He|exact Hh1|].
      exists n, st'. rewrite Hrun, He in *.
      repeat split; auto; try congruence. cbn. lia.
    + destruct (IH (c + 1) st1)
        as (n & st' & Hrun & Hn & Hlen & Hi & Hincl & Hl);
        [now rewrite He|exact Hh1|].
      exists (S n), st'. rewrite Hrun.
      pose proof (remove_first_length _ _ _ Hrest) as Hlr.
      pose proof (remove_first_incl _ _ _ Hrest) as Hir.
      rewrite He in *. cbn in *.
      split; [f_equal; f_equal; lia|].
      repeat split; auto; try congruence; try lia.
      intros x Hx. apply Hir, Hincl, Hx.
Qed.
End ClosingAll.

Section ClosingAllOutcomes.
Context {W : Type} (env : Env W).

Lemma always_closes_return : always_closes env -> closes_return env.
Proof. intros H t w. exists true. apply H. Qed.

Lemma close_trade_succeeds (l : list ActiveTrade) (t : ActiveTrade)
      (st : State W) :
  always_closes env ->
  1 <= max_retries (executor st) ->
  hashable_symbols st ->
  active_trades (executor st) = t :: l ->
  exists st',
    TradeExecutor._close_trade env (ticket t) st = (Return true, st')
    /\ executor st' = TradeExecutor.set_trades l (executor st)
    /\ lock_depth st' = lock_depth st
    /\ hashable_symbols st'
    /\ watched st' ⊆ referenced (executor st').
Proof.
  intros Hcloses Hretries Hh Htrades.
  assert (Hfound : List.find (fun x => Z.eqb (ticket x) (ticket t))
                             (active_trades (executor st)) = Some t).
  { rewrite Htrades. cbn. now rewrite Z.eqb_refl. }
  unfold TradeExecutor._close_trade.
  rewrite (bind_return _ _ _ _ _ (with_lock_read _ st)).
  rewrite Hfound.
  unfold bind at 1, get_executor at 1.
  change (executor (moved st (world st) [EAcquire; ERelease]))
    with (executor st).
  destruct (range1_pos (max_retries (executor st))) as (rest & ->); [lia|].
  cbn [for_return].
  destruct (close_attempt_closed env (ticket t) 1
              (moved st (world st) [EAcquire; ERelease]) t Hfound
              (Hcloses _ _) Hh)
    as (st1 & Hat & Hl & Hh1 & Hrm).
  rewrite (bind_return _ _ _ _ _ Hat). unfold ret.
  exists st1. split; [reflexivity|].
  destruct Hrm as (rest' & Hrest & He & Hsub & _).
  cbn [moved executor] in Hrest, He.
  rewrite Htrades in Hrest. cbn in Hrest. rewrite Z.eqb_refl in Hrest.
  injection Hrest as <-.
  split; [exact He|]. split; [exact Hl|]. split; [exact Hh1|exact Hsub].
Qed.

Lemma close_each_all (l : list ActiveTrade) (c : Z) (st : State W) :
  always_closes env ->
  1 <= max_retries (executor st) ->
  hashable_symbols st ->
  active_trades (executor st) = l ->
  exists st',
    TradeExecutor.close_each env l c st
    = (Return (c + Z.of_nat (length l)), st')
    /\ executor st' = TradeExecutor.set_trades [] (executor st)
    /\ lock_depth st' = lock_depth st
    /\ (l <> [] -> watched st' ⊆ referenced (executor st')).
Proof.
  intros Hcloses. revert c st.
  induction l as [|t l IH]; intros c st Hr Hh Htrades.
  - exists st. cbn. rewrite Z.add_0_r. split; [reflexivity|].
    split; [|split; [reflexivity|congruence]].
    destruct st as [w m [a b i tr n] d e]. cbn in *. now subst.
  - cbn [TradeExecutor.close_each].
    destruct (close_trade_succeeds l t st Hcloses Hr Hh Htrades)
      as (st1 & Hone & He & Hl & Hh1 & Hsub).
    rewrite (bind_return _ _ _ _ _ Hone).
    destruct (IH (c + 1) st1) as (st' & Hrun & He' & Hl' & Hsub').
    + now rewrite He.
    + exact Hh1.
    + now rewrite He.
    + exists st'. rewrite Hrun. split; [f_equal; f_equal; cbn [length]; lia|].
      split; [now rewrite He', He|]. split; [congruence|].
      intros _. destruct l as [|t' l'].
      * cbn in Hrun. injection Hrun as _ <-. exact Hsub.
      * apply Hsub'. discriminate.
Qed.

Lemma close_each_none (l : list ActiveTrade) (c : Z) (st : State W) :
  never_closes env ->
  sleep_returns env (retry_delay (executor st)) ->
  exists st',
    TradeExecutor.close_each env l c st = (Return c, st')
    /\ executor st' = executor st /\ monitor st' = monitor st
    /\ lock_depth st' = lock_depth st.
Proof.
  intros Hnever. revert c st. induction l as [|t l IH]; intros c st Hsleep.
  - exists st. now cbn.
  - cbn [TradeExecutor.close_each].
    assert (Hone : exists st1,
               TradeExecutor._close_trade env (ticket t) st = (Return false, st1)
               /\ executor st1 = executor st /\ monitor st1 = monitor st
               /\ lock_depth st1 = lock_depth st).
    { unfold TradeExecutor._close_trade.
      rewrite (bind_return _ _ _ _ _ (with_lock_read _ st)).
      destruct (List.find _ _).
      - unfold bind at 1, get_executor at 1.
        rewrite close_attempts_refused
          by (try (intros w; apply Hnever); exact Hsleep).
        unfold bind, log, emit, ret. cbn. eauto.
      - unfold bind, log, emit, ret. cbn. eauto. }
    destruct Hone as (st1 & Hone & He & Hm & Hl).
    rewrite (bind_return _ _ _ _ _ Hone).
    destruct (IH c st1) as (st' & Hrun & He' & Hm' & Hl');
      [now rewrite He|].
    exists st'. rewrite Hrun. repeat split; congruence.
Qed.
End ClosingAllOutcomes.

(** At a broker whose [close_position] raises nothing, with a retry delay
    that [time.sleep] accepts and [str] symbols in the watch-list, the
    backlog and the registry, [close_all_trades] does not raise.  It
    returns the number of trades that it took out of the registry: the
    registry is shorter by that number and is a part of what it was; the
    backlog and the lock are as before. *)
Theorem close_all_trades_count {W} (env : Env W) (st : State W)
        (Hbroker : closes_return env)
        (Hsleep : sleep_returns env (retry_delay (executor st)))
        (Hstr : str_symbols st) :
  exists n st',
    TradeExecutor.close_all_trades env st = (Return (Z.of_nat n), st')
    /\ (length (active_trades (executor st')) + n
        = length (active_trades (executor st)))%nat
    /\ incl (active_trades (executor st')) (active_trades (executor st))
    /\ trade_instructions (executor st') = trade_instructions (executor st)
    /\ lock_depth st' = lock_depth st.
Proof.
  unfold TradeExecutor.close_all_trades, with_lock.
  unfold bind at 1. unfold bind at 1, get_executor at 1.
  cbn [acquire snd executor].
  match goal with
  | |- context [TradeExecutor.close_each env ?l 0 ?s] =>
      destruct (close_each_count env l 0 s Hbroker Hsleep
                  (str_symbols_hashable st Hstr))
        as (n & st1 & Hrun & _ & Hlen & Hi & Hincl & Hl);
      rewrite Hrun
  end.
  cbn in Hlen, Hi, Hincl, Hl.
  exists n. eexists. unfold log, emit, ret, release. cbn.
  split; [reflexivity|]. cbn. rewrite Hl. auto.
Qed.

Lemma close_all_trades_count_witness :
  exists n,
    fst (TradeExecutor.close_all_trades (mock_env []) two_trade_state)
    = Return (Z.of_nat n)
    /\ (n <= 2)%nat.
Proof.
  assert (Hh : str_symbols two_trade_state)
    by (apply str_symbols_check; vm_compute; reflexivity).
  destruct (close_all_trades_count (mock_env []) two_trade_state
              (mock_closes_return []) (mock_sleep_returns [] 1 eq_refl) Hh)
    as (n & st' & Hrun & Hlen & _).
  exists n. rewrite Hrun. split; [reflexivity|]. cbn in Hlen. lia.
Defined.

(** At a broker that closes every position, with at least one attempt
    allowed and [str] symbols, [close_all_trades] returns the number of
    active trades and leaves the registry empty; if there was a trade, the
    watch-list ends inside the symbols of the pending instructions.  At a
    broker that closes nothing (every close returns [False]), with a retry
    delay that [time.sleep] accepts, it returns 0 and leaves the executor
    and the monitor as they were. *)
Theorem close_all_trades_outcomes {W} (env : Env W) (st : State W) :
  (always_closes env -> 1 <= max_retries (executor st) ->
   str_symbols st ->
   exists st',
     TradeExecutor.close_all_trades env st
     = (Return (Z.of_nat (length (active_trades (executor st)))), st')
     /\ active_trades (executor st') = []
     /\ trade_instructions (executor st') = trade_instructions (executor st)
     /\ (active_trades (executor st) <> [] ->
         watched st'
         ⊆ list_to_set (map ti_symbol (trade_instructions (executor st)))))
  /\ (never_closes env -> sleep_returns env (retry_delay (executor st)) ->
      exists st',
        TradeExecutor.close_all_trades env st = (Return 0, st')
        /\ executor st' = executor st /\ monitor st' = monitor st).
Proof.
  split.
  - intros Hcloses Hr Hstr.
    pose proof (str_symbols_hashable st Hstr) as Hh.
    unfold TradeExecutor.close_all_trades, with_lock.
    unfold bind at 1. unfold bind at 1, get_executor at 1.
    cbn [acquire snd executor].
    match goal with
    | |- context [TradeExecutor.close_each env ?l 0 ?s] =>
        destruct (close_each_all env l 0 s Hcloses Hr Hh eq_refl)
          as (st1 & Hrun & He & Hl & Hsub);
        rewrite Hrun
    end.
    cbn in He, Hl, Hsub.
    eexists. unfold log, emit, ret, release. cbn.
    split; [reflexivity|]. cbn. rewrite He. cbn.
    split; [reflexivity|]. split; [reflexivity|].
    intros Hne. specialize (Hsub Hne). rewrite He in Hsub.
    unfold watched, referenced in *. cbn in *. clear - Hsub. set_solver.
  - intros Hnever Hsleep.
    unfold TradeExecutor.close_all_trades, with_lock.
    unfold bind at 1. unfold bind at 1, get_executor at 1.
    cbn [acquire snd executor].
    match goal with
    | |- context [TradeExecutor.close_each env ?l 0 ?s] =>
        destruct (close_each_none env l 0 s Hnever Hsleep)
          as (st1 & Hrun & He & Hm & Hl);
        rewrite Hrun
    end.
    cbn in He, Hm, Hl.
    eexists. unfold log, emit, ret, release. cbn.
    split; [reflexivity|]. cbn. auto.
Qed.

Lemma close_all_trades_outcomes_witness :
  let run := TradeExecutor.close_all_trades closing_env two_trade_state in
  fst run = Return 2
  /\ active_trades (executor (snd run)) = []
  /\ watched (snd run) ⊆ {[PyStr "EURUSD"]}.
Proof.
  assert (Hh : str_symbols two_trade_state)
    by (apply str_symbols_check; vm_compute; reflexivity).
  destruct (close_all_trades_outcomes closing_env two_trade_state)
    as [Hall _].
  destruct Hall as (st' & Hrun & Hempty & _ & Hsub).
  - intros t w. reflexivity.
  - cbn. lia.
  - exact Hh.
  - cbv zeta. rewrite Hrun. split; [reflexivity|]. split; [exact Hempty|].
    cbn [snd]. intros s Hs. apply Hsub in Hs; [|discriminate].
    cbn in Hs. clear - Hs. set_solver.
Defined.
(** ** The exit and stop-loss handlers *)

(** [_on_exit_condition] and [_on_sl_condition] pay no regard to the
    symbol and the quote they are called with: they log and close the
    trade with the ticket of the position.  At a broker whose
    [close_position] raises nothing, with a retry delay that [time.sleep]
    accepts and [str] symbols in the watch-list, the backlog and the
    registry, they do not raise, and afterwards the executor and the
    watch-list are untouched or the first trade with the ticket is gone
    from the registry; the lock is as before.  For a position whose ticket
    no active trade carries (one that the executor did not open) they ask
    the broker nothing: the run is the log record, a lock round and a
    warning. *)
Theorem exit_handlers_close_own_trades {W} (env : Env W) (sym : pyval)
        (q : Quote) (position : Position) (st : State W) :
  TradeExecutor._on_sl_condition env sym q position st
  = TradeExecutor._on_exit_condition env sym q position st
  /\ (closes_return env ->
      sleep_returns env (retry_delay (executor st)) ->
      str_symbols st ->
      exists st',
        TradeExecutor._on_exit_condition env sym q position st
        = (Return tt, st')
        /\ lock_depth st' = lock_depth st
        /\ (untouched st st' \/ trade_removed (pos_ticket position) st st'))
  /\ (~ In (pos_ticket position) (map ticket (active_trades (executor st))) ->
      TradeExecutor._on_exit_condition env sym q position st
      = (Return tt,
         moved st (world st) [ELog INFO; EAcquire; ERelease; ELog WARNING])).
Proof.
  split; [reflexivity|]. split.
  - intros Hbroker Hsleep Hstr.
    pose proof (str_symbols_hashable st Hstr) as Hh.
    unfold TradeExecutor._on_exit_condition.
    unfold bind at 1, log at 1, emit at 1.
    match goal with
    | |- context [bind (TradeExecutor._close_trade env ?tk) _ ?s] =>
        destruct (close_trade_returns env tk s Hbroker Hsleep Hh)
          as (b & st' & Hrun & Hl & _ & Hcases);
        rewrite (bind_return _ _ _ _ _ Hrun)
    end.
    exists st'. unfold ret. split; [reflexivity|]. split; [exact Hl|].
    destruct Hcases as [[_ Hun] | [_ Hrm]]; [left|right]; assumption.
  - intros Habsent.
    unfold TradeExecutor._on_exit_condition, TradeExecutor._close_trade, moved.
    run. rewrite (find_ticket_None _ _ Habsent). cbn.
    now rewrite <- !app_assoc.
Qed.

Lemma exit_handlers_close_own_trades_witness :
  fst (TradeExecutor._on_exit_condition (mock_env []) (PyStr "EURUSD")
         eurusd_quote
         (mkPosition 77 "EURUSD" (Some (PyStr "buy")) None None)
         (one_trade_state filled_world)) = Return tt
  /\ world (snd (TradeExecutor._on_exit_condition (mock_env [])
                   (PyStr "EURUSD") eurusd_quote
                   (mkPosition 77 "EURUSD" (Some (PyStr "buy")) None None)
                   (one_trade_state filled_world))) = filled_world
  /\ fst (TradeExecutor._on_exit_condition (mock_env []) (PyStr "EURUSD")
            eurusd_quote
            (mkPosition 1001 "EURUSD" (Some (PyStr "buy")) None None)
            (one_trade_state filled_world)) = Return tt.
Proof.
  destruct (exit_handlers_close_own_trades (mock_env []) (PyStr "EURUSD")
              eurusd_quote
              (mkPosition 77 "EURUSD" (Some (PyStr "buy")) None None)
              (one_trade_state filled_world)) as (_ & _ & Hunknown).
  rewrite Hunknown; [split; [reflexivity|split; [reflexivity|]]|].
  - destruct (exit_handlers_close_own_trades (mock_env []) (PyStr "EURUSD")
                eurusd_quote
                (mkPosition 1001 "EURUSD" (Some (PyStr "buy")) None None)
                (one_trade_state filled_world)) as (_ & Hreturns & _).
    destruct Hreturns as (st' & Hrun & _).
    + apply mock_closes_return.
    + now apply mock_sleep_returns.
    + apply str_symbols_check. vm_compute. reflexivity.
    + now rewrite Hrun.
  - cbn. intros [H|[]]. discriminate.
Defined.

(** * Executing instructions *)

Lemma remove_first_None {A} (p : A -> bool) (l : list A) :
  TradeExecutor.remove_first p l = None -> forall x, In x l -> p x = false.
Proof.
  induction l as [|y l IH]; cbn; [tauto|].
  destruct (p y) eqn:E; [discriminate|].
  destruct (TradeExecutor.remove_first p l); [discriminate|].
  intros _ x [<-|Hin]; auto.
Qed.

Lemma remove_first_split {A} (p : A -> bool) (l rest : list A) :
  TradeExecutor.remove_first p l = Some rest ->
  exists pre x post,
    l = pre ++ x :: post /\ rest = pre ++ post /\ p x = true
    /\ forall y, In y pre -> p y = false.
Proof.
  revert rest. induction l as [|y l IH]; intros rest; cbn; [discriminate|].
  destruct (p y) eqn:E.
  - intros [= <-]. exists [], y, l. cbn. tauto.
  - destruct (TradeExecutor.remove_first p l) as [r|]; [|discriminate].
    intros [= <-]. destruct (IH r eq_refl) as (pre & x & post & -> & -> & Hx & Hpre).
    exists (y :: pre), x, post. cbn. repeat split; auto.
    intros z [<-|Hz]; auto.
Qed.

Lemma id_not_listed (i : TradeInstruction) (l : list TradeInstruction) :
  TradeExecutor.remove_first (fun j => Z.eqb (ti_id j) (ti_id i)) l = None ->
  ~ In (ti_id i) (map ti_id l).
Proof.
  intros H Hin. apply in_map_iff in Hin as (j & Hid & Hin).
  apply (remove_first_None _ _ H) in Hin. cbn in Hin. lia.
Qed.

Section Executing.
Context {W : Type} (env : Env W).

(** One attempt sends one order, the order of the instruction, and either
    fails and changes nothing, or records the trade, or leaves with the
    exception of the order or of the sleep. *)
Lemma execute_attempt_cases (i : TradeInstruction) (q : Quote) (a : Z)
      (st : State W) :
  exists r st' evs,
    TradeExecutor.execute_attempt env i q (order_type_of i) a st = (r, st')
    /\ monitor st' = monitor st
    /\ lock_depth st' = lock_depth st
    /\ trace st' = trace st ++ evs
    /\ count is_order_attempt evs = 1%nat
    /\ orders_of i evs /\ no_close evs
    /\ ((r = Return None /\ executor st' = executor st)
        \/ (r = Return (Some true)
            /\ execution env i q (executor st) (executor st') (Return true))
        \/ (exists x, r = Raise x
            /\ execution env i q (executor st) (executor st') (Raise x))).
Proof.
  unfold TradeExecutor.execute_attempt, broker_place, sleep, clock.
  unfold bind at 1, call_raising at 1.
  destruct (place_market_order env _ _ _ _ _ _ (world st)) as [[[t|]|x] w1]
    eqn:Hplace.
  - destruct (Z.eqb t 0) eqn:Et.
    + run. destruct (time_sleep env _ w1) as [[[]|x] w2] eqn:Hsleep; cbn;
        do 3 eexists; (split; [reflexivity|]); cbn;
        rewrite <- !app_assoc; cbn;
        (do 3 (split; [reflexivity|])); (split; [reflexivity|]);
        (split; [|split]);
        try (intros s o [H|[H|[H|[]]]]; try discriminate;
             now injection H as <- <-);
        try (intros tk [H|[H|[H|[]]]]; discriminate).
      * now left.
      * right; right. exists x. split; [reflexivity|].
        apply interrupted; [reflexivity|]. right. exists w1.
        now rewrite Hsleep.
    + assert (Ht : t <> 0) by lia.
      run. destruct (time_time env w1) as [now w2]. cbn.
      destruct (TradeExecutor.remove_first _ _) as [rest|] eqn:Hrm; cbn.
      * do 3 eexists. split; [reflexivity|]. cbn.
        rewrite <- !app_assoc. cbn.
        do 3 (split; [reflexivity|]). split; [reflexivity|].
        split; [|split].
        -- intros s o [H|[H|[H|[H|[H|[]]]]]]; try discriminate.
           now injection H as <- <-.
        -- intros tk [H|[H|[H|[H|[H|[]]]]]]; discriminate.
        -- right; left. split; [reflexivity|].
           eapply filled; [exact Ht|exact Hrm|reflexivity].
      * do 3 eexists. split; [reflexivity|]. cbn.
        rewrite <- !app_assoc. cbn.
        do 3 (split; [reflexivity|]). split; [reflexivity|].
        split; [|split].
        -- intros s o [H|[H|[H|[H|[]]]]]; try discriminate.
           now injection H as <- <-.
        -- intros tk [H|[H|[H|[H|[]]]]]; discriminate.
        -- right; right. exists ValueError. split; [reflexivity|].
           eapply filled_unlisted; [exact Ht| |reflexivity].
           now apply id_not_listed.
  - run. destruct (time_sleep env _ w1) as [[[]|x] w2] eqn:Hsleep; cbn;
      do 3 eexists; (split; [reflexivity|]); cbn;
      rewrite <- !app_assoc; cbn;
      (do 3 (split; [reflexivity|])); (split; [reflexivity|]);
      (split; [|split]);
      try (intros s o [H|[H|[H|[]]]]; try discriminate;
           now injection H as <- <-);
      try (intros tk [H|[H|[H|[]]]]; discriminate).
    + now left.
    + right; right. exists x. split; [reflexivity|].
      apply interrupted; [reflexivity|]. right. exists w1.
      now rewrite Hsleep.
  - do 3 eexists. split; [reflexivity|]. cbn.
    do 3 (split; [reflexivity|]). split; [reflexivity|].
    split; [|split].
    + intros s o [H|[]]. now injection H as <- <-.
    + intros tk [H|[]]. discriminate.
    + right; right. exists x. split; [reflexivity|].
      apply interrupted; [reflexivity|]. left. exists (world st).
      now rewrite Hplace.
Qed.

Lemma orders_of_app i l1 l2 :
  orders_of i l1 -> orders_of i l2 -> orders_of i (l1 ++ l2).
Proof.
  intros H1 H2 s o Hin. apply in_app_or in Hin as [Hin|Hin]; eauto.
Qed.

Lemma no_close_app l1 l2 : no_close l1 -> no_close l2 -> no_close (l1 ++ l2).
Proof.
  intros H1 H2 t Hin. apply in_app_or in Hin as [Hin|Hin]; [eapply H1|eapply H2]; eauto.
Qed.

Lemma execute_attempts_cases (i : TradeInstruction) (q : Quote) (l : list Z)
      (st : State W) :
  exists r st' evs,
    for_return l (TradeExecutor.execute_attempt env i q (order_type_of i))
               (log ERROR ;;; ret false) st = (r, st')
    /\ monitor st' = monitor st
    /\ lock_depth st' = lock_depth st
    /\ trace st' = trace st ++ evs
    /\ (count is_order_attempt evs <= length l)%nat
    /\ (r = Return false -> count is_order_attempt evs = length l)
    /\ orders_of i evs /\ no_close evs
    /\ execution env i q (executor st) (executor st') r.
Proof.
  revert st. induction l as [|a l IH]; intros st.
  - cbn [for_return]. run. do 3 eexists. split; [reflexivity|]. cbn.
    do 3 (split; [reflexivity|]). split; [cbn; lia|]. split; [reflexivity|].
    split; [|split].
    + intros s o [H|[]]. discriminate.
    + intros t [H|[]]. discriminate.
    + now apply not_filled.
  - cbn [for_return].
    destruct (execute_attempt_cases i q a st)
      as (r1 & st1 & evs1 & Hrun & Hm & Hl & Ht & Hc & Ho & Hn & Hcase).
    unfold bind at 1. rewrite Hrun.
    destruct Hcase as [(-> & He)|[(-> & Hex)|(x & -> & Hex)]].
    + destruct (IH st1) as (r & st' & evs & Hrun' & Hm' & Hl' & Ht' & Hc' & Hf' & Ho' & Hn' & Hex').
      exists r, st', (evs1 ++ evs). rewrite Hrun'. split; [reflexivity|].
      split; [congruence|]. split; [congruence|].
      split; [now rewrite Ht', Ht, app_assoc|].
      rewrite count_app, Hc. cbn [length].
      split; [lia|]. split; [intros Hr; rewrite (Hf' Hr); lia|].
      split; [now apply orders_of_app|]. split; [now apply no_close_app|].
      now rewrite <- He.
    + exists (Return true), st1, evs1. unfold ret.
      split; [reflexivity|]. do 3 (split; [assumption|]).
      cbn [length]. split; [lia|]. split; [discriminate|]. auto.
    + exists (Raise x), st1, evs1.
      split; [reflexivity|]. do 3 (split; [assumption|]).
      cbn [length]. split; [lia|]. split; [discriminate|]. auto.
Qed.

Lemma execute_trade_cases (i : TradeInstruction) (q : Quote) (st : State W) :
  exists r st' evs,
    TradeExecutor._execute_trade env i q st = (r, st')
    /\ monitor st' = monitor st
    /\ lock_depth st' = lock_depth st
    /\ trace st' = trace st ++ evs
    /\ (count is_order_attempt evs <= Z.to_nat (max_retries (executor st)))%nat
    /\ (r = Return false ->
        count is_order_attempt evs = Z.to_nat (max_retries (executor st)))
    /\ orders_of i evs /\ no_close evs
    /\ execution env i q (executor st) (executor st') r.
Proof.
  unfold TradeExecutor._execute_trade.
  unfold bind at 1, log at 1, emit at 1.
  unfold bind at 1, get_executor at 1. cbn [executor].
  fold (order_type_of i).
  match goal with
  | |- context [for_return ?l _ _ ?s] =>
      destruct (execute_attempts_cases i q l s)
        as (r & st' & evs & Hrun & Hm & Hl & Ht & Hc & Hf & Ho & Hn & Hex)
  end.
  cbn in Hm, Hl, Ht, Hex. rewrite length_range1 in Hc, Hf.
  exists r, st', (ELog INFO :: evs). split; [exact Hrun|].
  do 2 (split; [assumption|]).
  split; [now rewrite Ht, <- app_assoc|].
  change (count is_order_attempt (ELog INFO :: evs))
    with (count is_order_attempt evs).
  do 2 (split; [assumption|]).
  split; [|split; [|assumption]].
  - intros s o [H|H]; [discriminate|now apply Ho].
  - intros t [H|H]; [discriminate|now apply (Hn t)].
Qed.
(** At a broker whose orders return, with a delay that [time.sleep]
    accepts, only the [ValueError] of an instruction that is not in the
    backlog leaves [_execute_trade]. *)
Lemma execution_raise (i : TradeInstruction) (q : Quote) (e e' : Executor)
      (x : exn) :
  orders_return env ->
  sleep_returns env (retry_delay e) ->
  execution env i q e e' (Raise x) ->
  x = ValueError /\ ~ In (ti_id i) (map ti_id (trade_instructions e)).
Proof.
  intros Hbroker Hsleep Hex. inversion Hex as [| |tk tm Htk Hno He|y He Hy].
  - now split.
  - exfalso. destruct Hy as [[w Hw]|[w Hw]].
    + destruct (Hbroker (ti_symbol i) (order_type_of i) (ti_lot_size i)
                  (ti_stop_loss i) (ti_exit_price i) (ti_comment i) w)
        as [t Ht].
      congruence.
    + rewrite Hsleep in Hw. discriminate.
Qed.
End Executing.

(** [_execute_trade] ends in one of four ways.  It returns [False] after
    [max_retries] orders and has changed nothing in the executor.  It
    returns [True], the instruction is gone from the backlog and one trade
    is the new last entry of the registry: it has the ticket of the broker,
    the fields of the instruction, and as entry price the ask (for "buy") or
    the bid (otherwise) of the quote that the caller passed.  Or the
    instruction was not in the backlog: the order is filled, the trade is
    recorded, and [ValueError] leaves the method.  Or the broker raises at
    an order of the instruction, or [time.sleep] raises for the retry
    delay: the exception leaves the method and the executor is as it was.
    In every case it sends at most [max_retries] orders, all of them the
    instruction's, closes nothing and leaves the monitor and the lock as
    they were.  At a broker whose orders return, with a retry delay that
    [time.sleep] accepts, the fourth ending does not occur. *)
Theorem execute_trade_outcomes {W} (env : Env W) (i : TradeInstruction)
        (q : Quote) (st : State W) :
  exists r st' evs,
    TradeExecutor._execute_trade env i q st = (r, st')
    /\ monitor st' = monitor st
    /\ lock_depth st' = lock_depth st
    /\ trace st' = trace st ++ evs
    /\ (count is_order_attempt evs <= Z.to_nat (max_retries (executor st)))%nat
    /\ (r = Return false ->
        count is_order_attempt evs = Z.to_nat (max_retries (executor st)))
    /\ orders_of i evs /\ no_close evs
    /\ execution env i q (executor st) (executor st') r
    /\ (orders_return env ->
        sleep_returns env (retry_delay (executor st)) ->
        forall x, r = Raise x ->
                  x = ValueError
                  /\ ~ In (ti_id i)
                         (map ti_id (trade_instructions (executor st)))).
Proof.
  destruct (execute_trade_cases env i q st)
    as (r & st' & evs & Hrun & Hm & Hl & Ht & Hc & Hf & Ho & Hn & Hex).
  exists r, st', evs. do 8 (split; [assumption|]).
  split; [exact Hex|].
  intros Hbroker Hsleep x ->.
  exact (execution_raise env i q _ _ x Hbroker Hsleep Hex).
Qed.

Lemma execute_trade_outcomes_witness :
  fst (TradeExecutor._execute_trade (mock_env []) (pending 9 "EURUSD")
         eurusd_quote backlog_state) = Raise ValueError
  /\ ~ In 9 (map ti_id (trade_instructions (executor backlog_state))).
Proof.
  destruct (execute_trade_outcomes (mock_env []) (pending 9 "EURUSD")
              eurusd_quote backlog_state)
    as (r & st' & evs & Hrun & _ & _ & _ & _ & _ & _ & _ & Hex & Hraise).
  assert (Hr : r = Raise ValueError).
  { pose proof (f_equal fst Hrun) as Hf. cbn [fst] in Hf.
    rewrite <- Hf. reflexivity. }
  destruct (Hraise (mock_orders_return [])
                   (mock_sleep_returns [] 1 eq_refl) ValueError Hr)
    as [_ Hno].
  split; [|exact Hno]. reflexivity.
Defined.

Lemma NoDup_map_filter {A B} (f : A -> B) (p : A -> bool) (l : list A) :
  List.NoDup (map f l) -> List.NoDup (map f (List.filter p l)).
Proof.
  induction l as [|x l IH]; cbn; [auto|].
  intros H. apply List.NoDup_cons_iff in H as [Hx Hl].
  destruct (p x); cbn; [|auto].
  apply List.NoDup_cons; [|auto].
  intros Hin. apply Hx. apply in_map_iff in Hin as (y & Hy & Hin).
  apply filter_In in Hin as [Hin _]. apply in_map_iff. eauto.
Qed.

Lemma NoDup_map_inj {A B} (f : A -> B) (l : list A) (x y : A) :
  List.NoDup (map f l) -> In x l -> In y l -> f x = f y -> x = y.
Proof.
  induction l as [|z l IH]; cbn; [tauto|].
  intros H. apply List.NoDup_cons_iff in H as [Hz Hl].
  intros [<-|Hx] [<-|Hy] Hf; auto.
  - exfalso. apply Hz. rewrite Hf. now apply in_map.
  - exfalso. apply Hz. rewrite <- Hf. now apply in_map.
Qed.

(** Removing by id from a backlog of distinct ids takes out every
    instruction with the id and nothing else. *)
Lemma remove_by_id (i : TradeInstruction) (l rest : list TradeInstruction) :
  List.NoDup (map ti_id l) ->
  TradeExecutor.remove_first (fun j => Z.eqb (ti_id j) (ti_id i)) l = Some rest ->
  List.NoDup (map ti_id rest)
  /\ ~ In (ti_id i) (map ti_id rest)
  /\ forall j, In j l -> ti_id j <> ti_id i -> In j rest.
Proof.
  intros Hnd Hrm.
  destruct (remove_first_split _ _ _ Hrm) as (pre & x & post & -> & -> & Hx & _).
  apply Z.eqb_eq in Hx.
  rewrite map_app in Hnd. cbn in Hnd.
  pose proof (List.NoDup_remove_1 _ _ _ Hnd) as H1.
  pose proof (List.NoDup_remove_2 _ _ _ Hnd) as H2.
  rewrite <- map_app in H1, H2. rewrite Hx in H2.
  split; [exact H1|]. split; [exact H2|].
  intros j Hin Hne. apply in_app_or in Hin as [Hin|[<-|Hin]].
  - apply in_or_app. now left.
  - congruence.
  - apply in_or_app. now right.
Qed.

Section Entering.
Context {W : Type} (env : Env W).
Variable q : Quote.

Lemma execution_retry_delay (i : TradeInstruction) (e e' : Executor) r :
  execution env i q e e' r -> retry_delay e' = retry_delay e.
Proof. intros []; subst; reflexivity. Qed.

Lemma entry_loop (l : list TradeInstruction) (st : State W) :
  orders_return env ->
  sleep_returns env (retry_delay (executor st)) ->
  List.NoDup (map ti_id l) ->
  incl l (trade_instructions (executor st)) ->
  List.NoDup (map ti_id (trade_instructions (executor st))) ->
  exists st' new evs,
    for_each l (fun i => TradeExecutor._execute_trade env i q ;;; ret tt) st
    = (Return tt, st')
    /\ monitor st' = monitor st
    /\ lock_depth st' = lock_depth st
    /\ trace st' = trace st ++ evs
    /\ (forall s o, In (EPlaceOrder s o) evs -> exists i, In i l /\ s = ti_symbol i)
    /\ no_close evs
    /\ active_trades (executor st') = active_trades (executor st) ++ new
    /\ incl (trade_instructions (executor st'))
            (trade_instructions (executor st))
    /\ (forall j, In j (trade_instructions (executor st)) -> ~ In j l ->
                  In j (trade_instructions (executor st')))
    /\ Forall (fill_of q l (trade_instructions (executor st'))) new
    /\ (length (trade_instructions (executor st')) + length new
        = length (trade_instructions (executor st)))%nat.
Proof.
  intros Hbroker. revert st.
  induction l as [|i l IH]; intros st Hsleep Hl Hincl Hids.
  - exists st, [], []. cbn. rewrite !app_nil_r.
    repeat split; auto using incl_refl; try tauto. intros t [].
  - cbn [for_each].
    apply List.NoDup_cons_iff in Hl as [Hi Hl]. fold (map ti_id l) in Hi, Hl.
    destruct (execute_trade_cases env i q st)
      as (r & st1 & evs1 & Hrun & Hm & Hd & Ht & _ & _ & Ho & Hn & Hex).
    assert (Hin : In i (trade_instructions (executor st)))
      by (apply Hincl; now left).
    assert (Hl' : incl l (trade_instructions (executor st)))
      by (intros j Hj; apply Hincl; now right).
    unfold bind at 1. unfold bind at 1. rewrite Hrun.
    pose proof (execution_retry_delay _ _ _ _ Hex) as Hdelay.
    assert (Hsleep1 : sleep_returns env (retry_delay (executor st1)))
      by now rewrite Hdelay.
    assert (Hnot_raise : forall x, r = Raise x -> False).
    { intros x ->.
      destruct (execution_raise env i q _ _ x Hbroker Hsleep Hex) as [_ Hno].
      apply Hno. now apply in_map. }
    destruct Hex as [He | tk tm rest Htk Hrm He | tk tm Htk Hno He | x He Hx];
      [| | |exfalso; now apply (Hnot_raise x)].
    + unfold ret at 1.
      destruct (IH st1) as (st' & new & evs & Hrun' & Hm' & Hd' & Ht' & Ho' & Hn'
                            & Ha' & Hi' & Hk' & Hf' & Hlen');
        [assumption|assumption|now rewrite He|now rewrite He|].
      rewrite He in *.
      exists st', new, (evs1 ++ evs). split; [exact Hrun'|].
      split; [congruence|]. split; [congruence|].
      split; [now rewrite Ht', Ht, app_assoc|].
      split; [|split; [now apply no_close_app|]].
      { intros s o Hev. apply in_app_or in Hev as [Hev|Hev].
        - exists i. split; [now left|]. now apply (Ho s o).
        - destruct (Ho' s o Hev) as (j & Hj & ->). exists j. split; [now right|reflexivity]. }
      split; [exact Ha'|]. split; [exact Hi'|].
      split; [intros j Hj Hnot; apply Hk'; [exact Hj|]; intros Hc; apply Hnot; now right|].
      split; [|exact Hlen'].
      eapply List.Forall_impl; [|exact Hf'].
      intros t (j & tk & tm & Hj & Hnj & Htk & ->).
      exists j, tk, tm. split; [now right|auto].
    + unfold ret at 1.
      destruct (remove_by_id i _ _ Hids Hrm) as (Hnd & Hgone & Hkeep).
      assert (He1 : trade_instructions (executor st1) = rest)
        by now rewrite He.
      assert (Ha1 : active_trades (executor st1)
                    = active_trades (executor st) ++ [trade_of i q tk tm])
        by now rewrite He.
      destruct (IH st1) as (st' & new & evs & Hrun' & Hm' & Hd' & Ht' & Ho' & Hn'
                            & Ha' & Hi' & Hk' & Hf' & Hlen').
      { assumption. }
      { assumption. }
      { rewrite He1. intros j Hj. apply Hkeep; [now apply Hl'|].
        intros Hid. apply Hi. rewrite <- Hid. now apply in_map. }
      { now rewrite He1. }
      rewrite He1 in *.
      exists st', (trade_of i q tk tm :: new), (evs1 ++ evs).
      split; [exact Hrun'|].
      split; [congruence|]. split; [congruence|].
      split; [now rewrite Ht', Ht, app_assoc|].
      split; [|split; [now apply no_close_app|]].
      { intros s o Hev. apply in_app_or in Hev as [Hev|Hev].
        - exists i. split; [now left|]. now apply (Ho s o).
        - destruct (Ho' s o Hev) as (j & Hj & ->). exists j. split; [now right|reflexivity]. }
      split; [now rewrite Ha', Ha1, <- app_assoc|].
      assert (Hsub : incl rest (trade_instructions (executor st)))
        by (eapply remove_first_incl; exact Hrm).
      split; [intros j Hj; apply Hsub, Hi', Hj|].
      split.
      { intros j Hj Hnot. apply Hk'.
        - apply Hkeep; [exact Hj|]. intros Hid.
          apply Hnot. left. symmetry.
          exact (NoDup_map_inj ti_id _ _ _ Hids Hj Hin Hid).
        - intros Hc. apply Hnot. now right. }
      split.
      { constructor.
        - exists i, tk, tm. split; [now left|]. split; [|auto].
          intros Hc. apply Hgone. apply in_map. now apply Hi'.
        - eapply List.Forall_impl; [|exact Hf'].
          intros t (j & tk' & tm' & Hj & Hnj & Htk' & ->).
          exists j, tk', tm'. split; [now right|auto]. }
      cbn [length]. rewrite (remove_first_length _ _ _ Hrm). lia.
    + exfalso. apply Hno. now apply in_map.
Qed.
End Entering.

(** With distinct ids in the backlog, at a broker whose orders return and
    with a retry delay that [time.sleep] accepts, [_on_entry_condition]
    does not raise, called for a [str] symbol.  Every order that it sends
    is for its symbol, and it closes nothing.  Each new trade is the fill, at the quote of the call, of an
    instruction that was due (its symbol is the handler's and its entry
    test holds) and is no longer in the backlog; the new trades are
    appended to the registry, and the backlog loses as many instructions
    as the registry gains trades.  An instruction that was not due stays.
    The monitor and the lock are as before. *)
Theorem on_entry_condition_effect {W} (env : Env W) (sym : string) (q : Quote)
        (st : State W)
        (Hids : List.NoDup (map ti_id (trade_instructions (executor st))))
        (Hbroker : orders_return env)
        (Hsleep : sleep_returns env (retry_delay (executor st))) :
  exists st' new evs,
    TradeExecutor._on_entry_condition env (PyStr sym) q st = (Return tt, st')
    /\ monitor st' = monitor st
    /\ lock_depth st' = lock_depth st
    /\ trace st' = trace st ++ evs
    /\ orders_for (PyStr sym) evs /\ no_close evs
    /\ active_trades (executor st') = active_trades (executor st) ++ new
    /\ incl (trade_instructions (executor st'))
            (trade_instructions (executor st))
    /\ (forall j, In j (trade_instructions (executor st)) ->
                  due (PyStr sym) q j = false ->
                  In j (trade_instructions (executor st')))
    /\ Forall (fill_of q (List.filter (due (PyStr sym) q)
                                      (trade_instructions (executor st)))
                       (trade_instructions (executor st'))) new
    /\ (length (trade_instructions (executor st')) + length new
        = length (trade_instructions (executor st)))%nat.
Proof.
  unfold TradeExecutor._on_entry_condition.
  rewrite (bind_return _ _ _ _ _ (with_lock_read _ st)).
  set (st0 := moved st (world st) [EAcquire; ERelease]).
  change (fun i : TradeInstruction =>
            (bool_decide (ti_symbol i = PyStr sym)
             && TradeExecutor.entry_condition q i)%bool)
    with (due (PyStr sym) q).
  destruct (entry_loop env q (List.filter (due (PyStr sym) q)
                                (trade_instructions (executor st))) st0)
    as (st' & new & evs & Hrun & Hm & Hd & Ht & Ho & Hn & Ha & Hi & Hk & Hf & Hlen).
  { exact Hbroker. }
  { exact Hsleep. }
  { now apply NoDup_map_filter. }
  { intros j Hj. apply filter_In in Hj as [Hj _]. exact Hj. }
  { exact Hids. }
  change (executor st0) with (executor st) in *.
  exists st', new, ([EAcquire; ERelease] ++ evs).
  split; [exact Hrun|]. split; [exact Hm|]. split; [exact Hd|].
  split; [rewrite Ht; unfold st0, moved; cbn; now rewrite <- app_assoc|].
  split; [|split].
  - intros s o [H|[H|H]]; try discriminate.
    destruct (Ho s o H) as (j & Hj & ->).
    apply filter_In in Hj as [_ Hj]. unfold due in Hj.
    apply andb_true_iff in Hj as [Hj _]. now apply bool_decide_eq_true in Hj.
  - intros t [H|[H|H]]; try discriminate. now apply (Hn t).
  - split; [exact Ha|]. split; [exact Hi|].
    split; [|split; [exact Hf|exact Hlen]].
    intros j Hj Hdue. apply Hk; [exact Hj|].
    intros Hc. apply filter_In in Hc as [_ Hc]. congruence.
Qed.

Lemma on_entry_condition_effect_witness :
  let run := TradeExecutor._on_entry_condition (mock_env []) (PyStr "EURUSD")
               eurusd_quote backlog_state in
  fst run = Return tt
  /\ In (pending 3 "GBPUSD") (trade_instructions (executor (snd run))).
Proof.
  assert (Hids : List.NoDup
                   (map ti_id (trade_instructions (executor backlog_state)))).
  { cbn. repeat constructor; cbn; intuition discriminate. }
  destruct (on_entry_condition_effect (mock_env []) "EURUSD"
              eurusd_quote backlog_state Hids
              (mock_orders_return []) (mock_sleep_returns [] 1 eq_refl))
    as (st' & new & evs & Hrun & _ & _ & _ & _ & _ & _ & _ & Hkeep & _).
  cbv zeta. rewrite Hrun. split; [reflexivity|].
  apply Hkeep; [cbn; tauto|reflexivity].
Defined.

(** The third outcome of [_execute_trade] on the scripted broker: an
    instruction that is not in the backlog is filled and recorded, and
    [ValueError] leaves the method. *)
Example execute_trade_unlisted :
  let run := TradeExecutor._execute_trade (mock_env []) (pending 9 "EURUSD")
               eurusd_quote backlog_state in
  fst run = Raise ValueError
  /\ map ticket (active_trades (executor (snd run))) = [1001]
  /\ length (trade_instructions (executor (snd run))) = 3%nat
  /\ lock_depth (snd run) = 0%nat.
Proof. repeat split. Qed.

(** * Accepting an instruction *)

Lemma coerce_returns {W} (env : Env W) (v : pyval) (f : float) (st : State W) :
  py_float (str_to_float env) v = Return f ->
  TradeExecutor.coerce env v st = (Return (Some f), st).
Proof. intros H. unfold TradeExecutor.coerce. now rewrite H. Qed.



(** ** Adding and removing a symbol *)

(** Adding a [str] symbol that was neither watched nor cached and removing
    it again gives back the monitor as it was: both calls return [True], and
    between them the symbol is watched with the quote that the broker gave. *)
Theorem add_then_remove_symbol {W} (env : Env W) (s : string)
        (st st1 : State W)
        (Hnew : PyStr s ∉ watched st)
        (Hnone : price_data (monitor st) !! PyStr s = None)
        (Hadd : PriceMonitor.add_symbol env (PyStr s) st = (Return true, st1)) :
  PyStr s ∈ watched st1
  /\ is_Some (price_data (monitor st1) !! PyStr s)
  /\ exists st2,
      PriceMonitor.remove_symbol (PyStr s) st1 = (Return true, st2)
      /\ monitor st2 = monitor st
      /\ world st2 = world st1.
Proof.
  unfold PriceMonitor.add_symbol, broker_is_connected, broker_price in Hadd.
  unfold bind at 1, call at 1 in Hadd.
  destruct (is_connected env (world st)) as [[] w1]; cbn in Hadd;
    [|discriminate].
  unfold bind at 1, call at 1 in Hadd. cbn [world] in Hadd.
  destruct (broker_get_price env (PyStr s) w1) as [[p|] w2]; cbn in Hadd;
    [|discriminate].
  injection Hadd as <-. unfold watched in *.
  split; [cbn; clear; set_solver|].
  split; [cbn; rewrite lookup_insert_eq; eauto|].
  unfold PriceMonitor.remove_symbol. cbn [hashable negb].
  unfold bind at 1, get_monitor at 1.
  cbn [monitor symbols_to_monitor PriceMonitor.watch bind ret log emit
       modify_monitor].
  rewrite bool_decide_eq_true_2 by (clear; set_solver).
  eexists. unfold bind, modify_monitor, log, emit, ret. cbn.
  split; [reflexivity|]. cbn. split; [|reflexivity].
  unfold PriceMonitor.unwatch, PriceMonitor.watch. cbn.
  destruct (monitor st) as [ui syms pd ec xc sc]. cbn in *.
  f_equal.
  - clear - Hnew. set_solver.
  - now rewrite delete_insert_id.
Qed.

Lemma add_then_remove_symbol_witness :
  exists st2,
    PriceMonitor.remove_symbol (PyStr "EURUSD")
      (snd (PriceMonitor.add_symbol (mock_env []) (PyStr "EURUSD") fresh_state))
    = (Return true, st2)
    /\ monitor st2 = monitor fresh_state.
Proof.
  assert (Hnew : PyStr "EURUSD" ∉ watched fresh_state)
    by (change (watched fresh_state) with (∅ : gset pyval);
        apply not_elem_of_empty).
  destruct (add_then_remove_symbol (mock_env []) "EURUSD" fresh_state _
              Hnew eq_refl (surjective_pairing _))
    as (_ & _ & st2 & Hrm & Hm & _).
  exists st2. split; [exact Hrm|exact Hm].
Defined.

(** [remove_symbol] asks the broker nothing.  For a [str] symbol it
    returns [True] exactly when the symbol was watched; afterwards the symbol is not watched, the
    other symbols are watched as before and their cached quotes are
    untouched.  For a symbol that was not watched the monitor is left as it
    was, a cached quote of the symbol included. *)
Theorem remove_symbol_effect {W} (s : string) (st : State W) :
  exists b st',
    PriceMonitor.remove_symbol (PyStr s) st = (Return b, st')
    /\ world st' = world st /\ executor st' = executor st
    /\ (b = true <-> PyStr s ∈ watched st)
    /\ watched st' = watched st ∖ {[PyStr s]}
    /\ (forall s', s' <> PyStr s ->
          price_data (monitor st') !! s' = price_data (monitor st) !! s')
    /\ (b = true -> price_data (monitor st') !! PyStr s = None)
    /\ (b = false -> monitor st' = monitor st).
Proof.
  unfold PriceMonitor.remove_symbol, watched. cbn [hashable negb].
  unfold bind at 1, get_monitor at 1.
  destruct (bool_decide (PyStr s ∈ symbols_to_monitor (monitor st))) eqn:Hin.
  - apply bool_decide_eq_true in Hin.
    exists true. eexists. unfold bind, modify_monitor, log, emit, ret. cbn.
    split; [reflexivity|]. cbn. do 2 (split; [reflexivity|]).
    split; [tauto|]. split; [reflexivity|].
    split; [intros s' Hne; now rewrite lookup_delete_ne|].
    split; [intros _; apply lookup_delete_eq|discriminate].
  - apply bool_decide_eq_false in Hin.
    exists false. eexists. unfold bind, log, emit, ret. cbn.
    split; [reflexivity|]. cbn. do 2 (split; [reflexivity|]).
    split; [split; [discriminate|tauto]|].
    split; [clear - Hin; set_solver|].
    split; [reflexivity|]. split; [discriminate|reflexivity].
Qed.

(** ** The cache after [get_price] *)

Section Cache.
Context {W : Type} (env : Env W).

Lemma fetch_price_cache (s : pyval) (st : State W) :
  exists r st',
    PriceMonitor.fetch_price env s st = (Return r, st')
    /\ executor st' = executor st /\ lock_depth st' = lock_depth st
    /\ watched st' = watched st
    /\ same_setup (monitor st) (monitor st')
    /\ (forall s', s' <> s ->
          price_data (monitor st') !! s' = price_data (monitor st) !! s')
    /\ match r with
       | Some q => price_data (monitor st') !! s = Some q
       | None => monitor st' = monitor st
       end.
Proof.
  unfold PriceMonitor.fetch_price, broker_price.
  unfold bind at 1, call at 1.
  destruct (broker_get_price env s (world st)) as [[p|] w1].
  - exists (Some p). eexists. unfold bind, modify_monitor, ret. cbn.
    split; [reflexivity|]. cbn. do 3 (split; [reflexivity|]).
    split; [now repeat split|].
    split; [intros s' Hne; now rewrite lookup_insert_ne|].
    apply lookup_insert_eq.
  - exists None. eexists. unfold ret. split; [reflexivity|]. cbn.
    do 3 (split; [reflexivity|]). split; [now repeat split|]. auto.
Qed.
End Cache.

(** For a [str] symbol [get_price] never raises and never changes the
    watch-list, the executor or the cached quotes of other symbols.  When it returns a
    quote, that quote is the cache entry of the symbol afterwards; when it
    returns [None] (broker disconnected, or no quote to be had) the monitor
    is as it was, so that an entry that was too old stays in the cache. *)
Theorem get_price_cache {W} (env : Env W) (s : string) (st : State W) :
  exists r st',
    PriceMonitor.get_price env (PyStr s) st = (Return r, st')
    /\ executor st' = executor st /\ lock_depth st' = lock_depth st
    /\ watched st' = watched st
    /\ same_setup (monitor st) (monitor st')
    /\ (forall s', s' <> PyStr s ->
          price_data (monitor st') !! s' = price_data (monitor st) !! s')
    /\ match r with
       | Some q => price_data (monitor st') !! PyStr s = Some q
       | None => monitor st' = monitor st
       end.
Proof.
  unfold PriceMonitor.get_price, broker_is_connected, clock.
  unfold bind at 1, call at 1.
  destruct (is_connected env (world st)) as [[] w1]; cbn [negb hashable].
  - unfold bind at 1, get_monitor at 1. cbn [monitor].
    destruct (price_data (monitor st) !! PyStr s) as [q|] eqn:Hq.
    + unfold bind at 1, call at 1. cbn [world].
      destruct (time_time env w1) as [now w2].
      destruct (PriceMonitor.fresh now q).
      * exists (Some q). eexists. unfold ret. split; [reflexivity|]. cbn.
        do 3 (split; [reflexivity|]). split; [now repeat split|]. auto.
      * match goal with
        | |- context [PriceMonitor.fetch_price env (PyStr s) ?s0] =>
            destruct (fetch_price_cache env (PyStr s) s0)
              as (r & st' & Hrun & He & Hl & Hw & Hs & Ho & Hr)
        end.
        exists r, st'. split; [exact Hrun|]. cbn in *. auto 10.
    + match goal with
      | |- context [PriceMonitor.fetch_price env (PyStr s) ?s0] =>
          destruct (fetch_price_cache env (PyStr s) s0)
            as (r & st' & Hrun & He & Hl & Hw & Hs & Ho & Hr)
      end.
      exists r, st'. split; [exact Hrun|]. cbn in *. auto 10.
  - exists None. eexists. unfold bind, log, emit, ret. cbn.
    split; [reflexivity|]. cbn.
    do 3 (split; [reflexivity|]). split; [now repeat split|]. auto.
Qed.

(** ** How the loop ends *)

Section LoopEnds.
Context {W : Type} (env : Env W).
Variable call_entry : callback -> pyval -> Quote -> M W unit.
Variable call_position : callback -> pyval -> Quote -> Position -> M W unit.

End LoopEnds.



(** * The broker connection *)

Lemma package_run {T A} (f : T -> A * T) (c : A -> BrokerConnection.call)
      (w : BrokerConnection.World T) :
  BrokerConnection.package f c w
  = (Return (fst (f (BrokerConnection.terminal w))),
     BrokerConnection.mkWorld
       (snd (f (BrokerConnection.terminal w)))
       (BrokerConnection.connection w)
       (BrokerConnection.calls w
          ++ [c (fst (f (BrokerConnection.terminal w)))])).
Proof.
  unfold BrokerConnection.package.
  now destruct (f (BrokerConnection.terminal w)).
Qed.

Ltac bcbn :=
  cbn [fst snd BrokerConnection.terminal BrokerConnection.connection
       BrokerConnection.calls negb andb BrokerConnection._connected
       BrokerConnection.platform] in *.

Ltac bsimpl := bcbn; repeat (rewrite package_run; bcbn).

(** Unfolds the methods down to the calls into the package. *)
Ltac brun :=
  unfold BrokerConnection.get_price, BrokerConnection.place_market_order,
    BrokerConnection.close_position, BrokerConnection.modify_position,
    BrokerConnection.connect, BrokerConnection.disconnect,
    BrokerConnection._connect_mt5, BrokerConnection._disconnect_mt5,
    BrokerConnection._get_price_mt5, BrokerConnection._place_market_order_mt5,
    BrokerConnection._close_position_mt5,
    BrokerConnection._modify_position_mt5, BrokerConnection.is_connected,
    BrokerConnection.visible_symbol, BrokerConnection.find_position,
    BrokerConnection.send, BrokerConnection.initialize,
    BrokerConnection.shutdown, BrokerConnection.last_error,
    BrokerConnection.terminal_info, BrokerConnection.account_info,
    BrokerConnection.symbol_info, BrokerConnection.symbol_select,
    BrokerConnection.symbol_info_tick, BrokerConnection.order_send,
    BrokerConnection.positions_get, BrokerConnection.bind,
    BrokerConnection.ret, BrokerConnection.raise, BrokerConnection.log,
    BrokerConnection.self, BrokerConnection.set_connected;
  bsimpl.

(** Splits on the next test that the method makes: the innermost
    scrutinee that the goal is stuck on. *)
Ltac bdig x :=
  lazymatch x with
  | context [match ?y with _ => _ end] => bdig y
  | negb ?b => bdig b
  | (?a && _)%bool => bdig a
  | _ => destruct x eqn:?
  end.

Ltac bsplit :=
  match goal with
  | |- context [match ?x with _ => _ end] => bdig x
  end;
  bsimpl.

Lemma session_open_app (l new : list BrokerConnection.call) :
  session_open (l ++ new) = fold_left session_step new (session_open l).
Proof. unfold session_open. apply fold_left_app. Qed.

Lemma requests_app (l new : list BrokerConnection.call) :
  requests (l ++ new) = requests l ++ requests new.
Proof. unfold requests. apply flat_map_app. Qed.

(** ** Not connected *)

(** With [_connected] false every operation fails at once: [get_price]
    and [place_market_order] return [None], [close_position] and
    [modify_position] return [False].  The object is left as it was, and
    nothing reached the terminal but the test of the connection: no
    symbol was asked for and no request was sent. *)
Theorem broker_unconnected_fails {T} (mt5 : BrokerConnection.MT5 T)
        (w : BrokerConnection.World T)
        (Hoff : BrokerConnection._connected (BrokerConnection.connection w)
                = false) :
  (forall s, fails_quietly (BrokerConnection.get_price mt5 s) None w)
  /\ (forall s o lot sl tp c,
        fails_quietly (BrokerConnection.place_market_order mt5 s o lot sl tp c)
                      None w)
  /\ (forall tk, fails_quietly (BrokerConnection.close_position mt5 tk) false w)
  /\ (forall tk sl tp,
        fails_quietly (BrokerConnection.modify_position mt5 tk sl tp) false w).
Proof.
  unfold fails_quietly.
  repeat split; intros; brun; rewrite ?Hoff;
    destruct (BrokerConnection.on_mt5 _ && BrokerConnection.MT5_AVAILABLE mt5)%bool;
    bsimpl; rewrite ?Hoff, ?andb_false_r; bsimpl;
    do 2 eexists; (split; [reflexivity|]);
    cbn [BrokerConnection.connection BrokerConnection.calls];
    (split; [reflexivity|]); rewrite <- ?app_assoc;
    (split; [reflexivity|]); repeat constructor.
Qed.

Lemma broker_unconnected_fails_witness :
  fst (BrokerConnection.place_market_order (mock_mt5 true) "EURUSD" BUY 1%float
         None None (PyStr "Hunter Bot") (demo_connection "MT5" false))
  = Return None.
Proof.
  destruct (broker_unconnected_fails (mock_mt5 true)
              (demo_connection "MT5" false) eq_refl)
    as (_ & Hplace & _).
  destruct (Hplace "EURUSD" BUY 1%float None None (PyStr "Hunter Bot"))
    as (w' & new & Hrun & _).
  now rewrite Hrun.
Defined.

(** ** Connecting and disconnecting *)

(** [connect] and [disconnect] never raise and send no request.
    [connect] returns the flag [_connected] as it is afterwards, and
    [disconnect] returns its negation.  On an object that is already
    connected [connect] returns [True] without a call into the package:
    it does not notice a terminal that has gone. *)
Theorem connect_disconnect_flag {T} (mt5 : BrokerConnection.MT5 T)
        (w : BrokerConnection.World T) :
  (exists b w' new,
      BrokerConnection.connect mt5 w = (Return b, w')
      /\ BrokerConnection._connected (BrokerConnection.connection w') = b
      /\ BrokerConnection.calls w' = BrokerConnection.calls w ++ new
      /\ requests new = []
      /\ (BrokerConnection._connected (BrokerConnection.connection w) = true ->
          new = [BrokerConnection.CLog WARNING]))
  /\ (exists b w' new,
        BrokerConnection.disconnect mt5 w = (Return b, w')
        /\ BrokerConnection._connected (BrokerConnection.connection w') = negb b
        /\ BrokerConnection.calls w' = BrokerConnection.calls w ++ new
        /\ requests new = []).
Proof.
  split; brun; repeat bsplit;
    do 3 eexists; (split; [reflexivity|]);
    cbn [BrokerConnection.connection BrokerConnection.calls
         BrokerConnection._connected negb];
    rewrite <- ?app_assoc;
    repeat split; try reflexivity; try assumption; try congruence.
Qed.

(** Every method keeps the flag and the terminal in step, whether it
    returns or raises: [_connected] is true exactly while a session is
    open, that is after an [initialize] that succeeded and before the next
    [shutdown], and it is true only on the platform MT5 with the package
    installed.  So a [connect] that fails leaves no session open. *)
Theorem sound_connection_kept {T} (mt5 : BrokerConnection.MT5 T)
        (w : BrokerConnection.World T) (Hsound : sound_connection mt5 w) :
  sound_connection mt5 (snd (BrokerConnection.connect mt5 w))
  /\ sound_connection mt5 (snd (BrokerConnection.disconnect mt5 w))
  /\ sound_connection mt5 (snd (BrokerConnection.is_connected mt5 w))
  /\ (forall s, sound_connection mt5 (snd (BrokerConnection.get_price mt5 s w)))
  /\ (forall s o lot sl tp c,
        sound_connection mt5
          (snd (BrokerConnection.place_market_order mt5 s o lot sl tp c w)))
  /\ (forall tk,
        sound_connection mt5 (snd (BrokerConnection.close_position mt5 tk w)))
  /\ (forall tk sl tp,
        sound_connection mt5
          (snd (BrokerConnection.modify_position mt5 tk sl tp w))).
Proof.
  destruct Hsound as [Hflag Hmt5].
  repeat match goal with |- _ /\ _ => split end; intros;
    unfold sound_connection; brun; repeat bsplit;
    rewrite <- ?app_assoc, ?session_open_app;
    cbn [fold_left session_step app];
    unfold BrokerConnection.on_mt5 in *; bcbn;
    (split;
     [ congruence
     | intros Hc;
       first [ discriminate
             | destruct (Hmt5 Hc); split; congruence
             | destruct (Hmt5 eq_refl); split; congruence
             | split; congruence ] ]).
Qed.

Lemma sound_connection_kept_witness :
  sound_connection (mock_mt5 true)
    (snd (BrokerConnection.connect (mock_mt5 true)
            (demo_connection "MT5" false)))
  /\ BrokerConnection._connected
       (BrokerConnection.connection
          (snd (BrokerConnection.connect (mock_mt5 true)
                  (demo_connection "MT5" false)))) = true.
Proof.
  assert (Hsound : sound_connection (mock_mt5 true)
                     (demo_connection "MT5" false))
    by (split; [reflexivity|discriminate]).
  destruct (sound_connection_kept (mock_mt5 true) _ Hsound) as [Hconnect _].
  split; [exact Hconnect|reflexivity].
Defined.

(** ** The requests *)

Ltac in_list := cbn [In]; repeat first [left; reflexivity | right].

(** Uses the outcomes of the integer tests made on the way. *)
Ltac use_tests :=
  repeat match goal with
         | H : Z.eqb _ _ = _ |- _ => rewrite H; clear H
         end.

(** [get_price] never raises and sends no request.  A quote that it
    returns is the tick that the terminal gave for the symbol, with the
    tick's time: a quote from this broker always has a "time". *)
Theorem broker_get_price_tick {T} (mt5 : BrokerConnection.MT5 T) (s : string)
        (w : BrokerConnection.World T) :
  exists r w' new,
    BrokerConnection.get_price mt5 s w = (Return r, w')
    /\ BrokerConnection.connection w' = BrokerConnection.connection w
    /\ BrokerConnection.calls w' = BrokerConnection.calls w ++ new
    /\ requests new = []
    /\ forall q, r = Some q ->
         exists t,
           In (BrokerConnection.CTick s (Some t)) new
           /\ q = mkQuote (BrokerConnection.tick_bid t)
                          (BrokerConnection.tick_ask t)
                          (Some (BrokerConnection.tick_time t)).
Proof.
  brun; repeat bsplit;
    do 3 eexists; (split; [reflexivity|]);
    bcbn; rewrite <- ?app_assoc;
    (split; [reflexivity|]); (split; [reflexivity|]);
    (split; [reflexivity|]);
    intros q Hq; try discriminate;
    injection Hq as <-; eexists; (split; [in_list|reflexivity]).
Qed.

(** [place_market_order] sends at most one request.  When it sends none
    it returns [None].  The request that it sends is a deal for the symbol,
    the side and the volume of the call, priced at the ask (for a buy) or
    the bid (for a sell) of the symbol's info, with the stop loss and the
    take profit as given, and absent when not given; the method then
    returns the order's ticket when the terminal reports it done, [None]
    for another return code, and raises [AttributeError] when the terminal
    returns no result.  The object itself is never changed. *)
Theorem place_market_order_request {T} (mt5 : BrokerConnection.MT5 T)
        (s : string) (o : OrderType) (lot : float) (sl tp : option float)
        (c : pyval) (w : BrokerConnection.World T) :
  exists r w' new,
    BrokerConnection.place_market_order mt5 s o lot sl tp c w = (r, w')
    /\ BrokerConnection.connection w' = BrokerConnection.connection w
    /\ BrokerConnection.calls w' = BrokerConnection.calls w ++ new
    /\ ((requests new = [] /\ r = Return None)
        \/ exists i rq result,
             requests new = [rq]
             /\ In (BrokerConnection.CSymbolInfo s (Some i)) new
             /\ In (BrokerConnection.COrderSend rq result) new
             /\ BrokerConnection.rq_action rq
                = BrokerConnection.TRADE_ACTION_DEAL
             /\ BrokerConnection.rq_symbol rq = s
             /\ BrokerConnection.rq_type rq = Some o
             /\ BrokerConnection.rq_volume rq = Some lot
             /\ BrokerConnection.rq_price rq
                = Some (match o with
                        | BUY => BrokerConnection.si_ask i
                        | SELL => BrokerConnection.si_bid i
                        end)
             /\ BrokerConnection.rq_sl rq = sl
             /\ BrokerConnection.rq_tp rq = tp
             /\ BrokerConnection.rq_position rq = None
             /\ r = order_outcome result).
Proof.
  brun; repeat bsplit;
    do 3 eexists; (split; [reflexivity|]);
    bcbn; rewrite <- ?app_assoc;
    (split; [reflexivity|]); (split; [reflexivity|]);
    first
      [ left; split; reflexivity
      | right; do 3 eexists;
        split; [reflexivity|];
        split; [in_list|];
        split; [in_list|];
        do 7 (split; [reflexivity|]);
        split; [reflexivity|];
        unfold order_outcome; use_tests; reflexivity ].
Qed.

(** [close_position] sends at most one request, and none when it returns
    [False] for want of a connection or of the position.  The request
    closes the first position that the terminal lists for the ticket: a
    deal for that position's ticket, symbol and volume, on the other side
    (a buy for a position of type 1, a sell for any other type) at the ask
    (buying) or the bid (selling) of the symbol's tick, without stop loss
    and take profit.  The method returns whether the terminal reports the
    request done; it raises [AttributeError] when the terminal has no tick
    for the symbol, before any request, or returns no result. *)
Theorem close_position_request {T} (mt5 : BrokerConnection.MT5 T) (tk : Z)
        (w : BrokerConnection.World T) :
  exists r w' new,
    BrokerConnection.close_position mt5 tk w = (r, w')
    /\ BrokerConnection.connection w' = BrokerConnection.connection w
    /\ BrokerConnection.calls w' = BrokerConnection.calls w ++ new
    /\ ((requests new = [] /\ (r = Return false \/ r = Raise AttributeError))
        \/ exists p ps t rq result,
             requests new = [rq]
             /\ In (BrokerConnection.CPositionsGet tk (Some (p :: ps))) new
             /\ In (BrokerConnection.CTick (BrokerConnection.tp_symbol p)
                                           (Some t)) new
             /\ In (BrokerConnection.COrderSend rq result) new
             /\ BrokerConnection.rq_action rq
                = BrokerConnection.TRADE_ACTION_DEAL
             /\ BrokerConnection.rq_position rq
                = Some (BrokerConnection.tp_ticket p)
             /\ BrokerConnection.rq_symbol rq = BrokerConnection.tp_symbol p
             /\ BrokerConnection.rq_volume rq
                = Some (BrokerConnection.tp_volume p)
             /\ BrokerConnection.rq_type rq
                = Some (if Z.eqb (BrokerConnection.tp_type p) 1
                        then BUY else SELL)
             /\ BrokerConnection.rq_price rq
                = Some (if Z.eqb (BrokerConnection.tp_type p) 1
                        then BrokerConnection.tick_ask t
                        else BrokerConnection.tick_bid t)
             /\ BrokerConnection.rq_sl rq = None
             /\ BrokerConnection.rq_tp rq = None
             /\ r = done_outcome result).
Proof.
  brun; repeat bsplit;
    do 3 eexists; (split; [reflexivity|]);
    bcbn; rewrite <- ?app_assoc;
    (split; [reflexivity|]); (split; [reflexivity|]);
    first
      [ left; split; [reflexivity|]; first [left; reflexivity|right; reflexivity]
      | right; do 5 eexists;
        split; [reflexivity|];
        split; [in_list|];
        split; [in_list|];
        split; [in_list|];
        unfold done_outcome; use_tests;
        repeat split; reflexivity ].
Qed.

(** [modify_position] sends at most one request, and none when it returns
    [False] for want of a connection or of the position.  The request
    modifies the first position that the terminal lists for the ticket;
    a level that the caller does not give is sent as the position's own,
    so that it stays as it is.  The method returns whether the terminal
    reports the request done, and raises [AttributeError] when the terminal
    returns no result. *)
Theorem modify_position_request {T} (mt5 : BrokerConnection.MT5 T) (tk : Z)
        (sl tp : option float) (w : BrokerConnection.World T) :
  exists r w' new,
    BrokerConnection.modify_position mt5 tk sl tp w = (r, w')
    /\ BrokerConnection.connection w' = BrokerConnection.connection w
    /\ BrokerConnection.calls w' = BrokerConnection.calls w ++ new
    /\ ((requests new = [] /\ r = Return false)
        \/ exists p ps rq result,
             requests new = [rq]
             /\ In (BrokerConnection.CPositionsGet tk (Some (p :: ps))) new
             /\ In (BrokerConnection.COrderSend rq result) new
             /\ BrokerConnection.rq_action rq
                = BrokerConnection.TRADE_ACTION_MODIFY
             /\ BrokerConnection.rq_position rq
                = Some (BrokerConnection.tp_ticket p)
             /\ BrokerConnection.rq_symbol rq = BrokerConnection.tp_symbol p
             /\ BrokerConnection.rq_sl rq
                = Some (default (BrokerConnection.tp_sl p) sl)
             /\ BrokerConnection.rq_tp rq
                = Some (default (BrokerConnection.tp_tp p) tp)
             /\ r = done_outcome result).
Proof.
  brun; repeat bsplit;
    do 3 eexists; (split; [reflexivity|]);
    bcbn; rewrite <- ?app_assoc;
    (split; [reflexivity|]); (split; [reflexivity|]);
    first
      [ left; split; reflexivity
      | right; do 4 eexists;
        split; [reflexivity|];
        split; [in_list|];
        split; [in_list|];
        unfold done_outcome; use_tests;
        repeat split; reflexivity ].
Qed.

(** On the scripted terminal: the sell position 7 is closed by a buy of
    its 0.5 lots at the ask, and a modification that gives only a stop
    loss sends the position's take profit with it. *)
Example close_and_modify_requests :
  requests
    (BrokerConnection.calls
       (snd (BrokerConnection.close_position (mock_mt5 true) 7
               (demo_connection "MT5" true))))
  = [BrokerConnection.mkRequest BrokerConnection.TRADE_ACTION_DEAL "EURUSD"
       (Some 0.5%float) (Some BUY) (Some 7) (Some 1.0952%float) (Some 10)
       (Some 123456) (Some (PyStr "Hunter Bot - Close Position")) true true
       None None]
  /\ requests
       (BrokerConnection.calls
          (snd (BrokerConnection.modify_position (mock_mt5 true) 7
                  (Some 1.0990%float) None (demo_connection "MT5" true))))
     = [BrokerConnection.mkRequest BrokerConnection.TRADE_ACTION_MODIFY
          "EURUSD" None None (Some 7) None None None None false false
          (Some 1.0990%float) (Some 1.0900%float)].
Proof. split; reflexivity. Qed.

(** * Settings *)

(** ** Placeholders *)

Lemma yaml_induction (P : Settings.yaml -> Prop) :
  (forall v, P (Settings.YScalar v)) ->
  (forall l, P (Settings.YList l)) ->
  (forall items, Forall (fun kv => P (snd kv)) items ->
                 P (Settings.YDict items)) ->
  forall v, P v.
Proof.
  intros Hs Hl Hd. fix IH 1. intros [v|l|items].
  - apply Hs.
  - apply Hl.
  - apply Hd. induction items as [|[k x] items IHi]; constructor.
    + apply IH.
    + apply IHi.
Qed.

Section Placeholders.
Variable environ : string -> option string.

(** What the loop body does to one value. *)
Definition processed (value : Settings.yaml) : Prop :=
  let run := Settings.process_value environ value in
  (fst run = Return tt \/ fst run = Raise ValueError)
  /\ (fst run = Return tt
      <-> Forall (fun x => is_Some (environ x)) (placeholders value))
  /\ (placeholders value = [] -> snd run = value)
  /\ (plain_environ environ -> fst run = Return tt ->
      placeholders (snd run) = []).

Lemma for_items_processed (items : list (string * Settings.yaml)) :
  Forall (fun kv => processed (snd kv)) items ->
  let run := Settings.for_items (Settings.process_value environ) items in
  (fst run = Return tt \/ fst run = Raise ValueError)
  /\ (fst run = Return tt
      <-> Forall (fun x => is_Some (environ x)) (placeholders_of items))
  /\ map fst (snd run) = map fst items
  /\ (placeholders_of items = [] -> snd run = items)
  /\ (plain_environ environ -> fst run = Return tt ->
      placeholders_of (snd run) = []).
Proof.
  induction 1 as [|[k v] items Hv _ IH]; cbn [Settings.for_items].
  - cbn. repeat split; auto. 
  - unfold processed in Hv. cbn [snd] in Hv. cbv zeta in Hv, IH.
    destruct Hv as (Hr & Hiff & Hid & Hplain).
    destruct IH as (Hr' & Hiff' & Hkeys' & Hid' & Hplain').
    unfold placeholders_of in *. cbn [flat_map snd].
    destruct (Settings.process_value environ v) as [[[]|e] v'];
      cbn [fst snd] in *.
    + destruct (Settings.for_items _ items) as [r items']. cbn [fst snd] in *.
      split; [exact Hr'|].
      split.
      { rewrite Forall_app. rewrite <- Hiff'. split.
        - intros H. split; [now apply Hiff|exact H].
        - now intros [_ H]. }
      split; [cbn; now rewrite Hkeys'|].
      split.
      { intros Hnil. apply app_eq_nil in Hnil as [H1 H2].
        now rewrite (Hid H1), (Hid' H2). }
      intros Hp Hret. cbn [flat_map snd].
      now rewrite (Hplain Hp eq_refl), (Hplain' Hp Hret).
    + destruct Hr as [Hr|Hr]; [discriminate|]. injection Hr as ->.
      split; [now right|].
      split.
      { split; [discriminate|].
        rewrite Forall_app. intros [H _]. apply Hiff in H. discriminate. }
      split; [reflexivity|].
      split.
      { intros Hnil. apply app_eq_nil in Hnil as [H1 H2].
        now rewrite (Hid H1). }
      discriminate.
Qed.

Lemma process_value_processed (value : Settings.yaml) : processed value.
Proof.
  induction value as [v|l|items IH] using yaml_induction; unfold processed.
  - destruct v as [| | | |s|]; cbn;
      try (repeat split; auto; constructor).
    destruct (Settings.placeholder s) as [x|] eqn:Hs; cbn.
    + destruct (environ x) as [v|] eqn:Hx; cbn.
      * split; [now left|].
        split; [split; [intros _; repeat constructor; rewrite Hx; eauto|auto]|].
        split; [discriminate|].
        intros Hp _. now rewrite (Hp _ _ Hx).
      * split; [now right|].
        split.
        { split; [discriminate|]. intros H.
          apply Forall_cons_iff in H as [[v Hv] _]. congruence. }
        split; discriminate.
    + rewrite Hs. repeat split; auto.
  - cbn. repeat split; auto.
  - pose proof (for_items_processed items IH) as H. cbv zeta in H.
    cbn [Settings.process_value placeholders].
    fold (placeholders_of items).
    destruct (Settings.for_items _ items) as [r items']. cbn [fst snd] in *.
    destruct H as (Hr & Hiff & _ & Hid & Hplain).
    split; [exact Hr|]. split; [exact Hiff|].
    split; [intros Hnil; now rewrite (Hid Hnil)|].
    exact Hplain.
Qed.

Lemma process_env_vars_spec (config_dict : list (string * Settings.yaml)) :
  let run := Settings._process_env_vars environ config_dict in
  (fst run = Return tt \/ fst run = Raise ValueError)
  /\ (fst run = Return tt
      <-> Forall (fun x => is_Some (environ x)) (placeholders_of config_dict))
  /\ map fst (snd run) = map fst config_dict
  /\ (placeholders_of config_dict = [] -> snd run = config_dict)
  /\ (plain_environ environ -> fst run = Return tt ->
      placeholders_of (snd run) = []).
Proof.
  apply for_items_processed.
  apply Forall_forall. intros kv _. apply process_value_processed.
Qed.
End Placeholders.

(** The strings that line 93 takes for placeholders. *)
Example placeholder_examples :
  Settings.placeholder "${MT5_PASSWORD}" = Some "MT5_PASSWORD"
  /\ Settings.placeholder "${}" = Some ""
  /\ Settings.placeholder "${" = None
  /\ Settings.placeholder "x${A}" = None
  /\ Settings.placeholder "${A}${B}" = Some "A}${B".
Proof. repeat split. Qed.

(** [_process_env_vars] returns exactly when every placeholder that is a
    value of the mapping or of a mapping nested in it names a variable of
    the environment; otherwise it raises [ValueError].  A placeholder
    inside a sequence does not count: sequences are not searched.  Either
    way the mapping keeps its keys in their order, and a mapping without
    such placeholders is left as it was. *)
Theorem process_env_vars_returns (environ : string -> option string)
        (config_dict : list (string * Settings.yaml)) :
  let run := Settings._process_env_vars environ config_dict in
  (fst run = Return tt \/ fst run = Raise ValueError)
  /\ (fst run = Return tt
      <-> Forall (fun x => is_Some (environ x)) (placeholders_of config_dict))
  /\ map fst (snd run) = map fst config_dict
  /\ (placeholders_of config_dict = [] -> snd run = config_dict).
Proof.
  pose proof (process_env_vars_spec environ config_dict) as H.
  cbv zeta in *. tauto.
Qed.

(** When no variable of the environment holds a placeholder, a mapping
    that [_process_env_vars] has processed has no placeholder left among
    the values of its mappings, and processing it again changes nothing. *)
Theorem process_env_vars_idempotent (environ : string -> option string)
        (config_dict config_dict' : list (string * Settings.yaml))
        (Hplain : plain_environ environ)
        (Hrun : Settings._process_env_vars environ config_dict
                = (Return tt, config_dict')) :
  placeholders_of config_dict' = []
  /\ Settings._process_env_vars environ config_dict'
     = (Return tt, config_dict').
Proof.
  pose proof (process_env_vars_spec environ config_dict) as H.
  cbv zeta in H. rewrite Hrun in H. cbn [fst snd] in H.
  destruct H as (_ & _ & _ & _ & Hnone).
  specialize (Hnone Hplain eq_refl). split; [exact Hnone|].
  pose proof (process_env_vars_spec environ config_dict') as H.
  cbv zeta in H. destruct H as (_ & Hiff & _ & Hid & _).
  rewrite (surjective_pairing (Settings._process_env_vars environ config_dict')).
  f_equal; [|now apply Hid].
  apply Hiff. rewrite Hnone. constructor.
Qed.

Lemma process_env_vars_idempotent_witness :
  exists config_dict',
    Settings._process_env_vars demo_environ demo_settings
    = (Return tt, config_dict')
    /\ Settings._process_env_vars demo_environ config_dict'
       = (Return tt, config_dict').
Proof.
  assert (Hplain : plain_environ demo_environ).
  { intros x v. unfold demo_environ.
    destruct (String.eqb x "MT5_PASSWORD"); [|discriminate].
    now intros [= <-]. }
  eexists. split; [reflexivity|].
  now apply (process_env_vars_idempotent demo_environ demo_settings _ Hplain).
Defined.

(** ** Trade instructions from a file *)

Lemma numeric_returns (f : string -> option float) (v : option pyval) :
  Settings.numeric f v = Return tt ->
  exists x y, v = Some x /\ py_float f x = Return y.
Proof.
  unfold Settings.numeric. destruct v as [x|]; [|discriminate].
  destruct (py_float f x) as [y|[]] eqn:E; try discriminate. eauto.
Qed.

Lemma validate_returns (f : string -> option float) (r : RawInstruction) :
  Settings._validate_trade_instruction f r = Return tt ->
  exists sym ve vx vs vl entry exit sl lot,
    r = mkRaw (Some sym) (Some ve) (Some vx) (Some vs) (Some vl)
              (raw_direction r) (raw_comment r)
    /\ py_float f ve = Return entry /\ py_float f vx = Return exit
    /\ py_float f vs = Return sl /\ py_float f vl = Return lot.
Proof.
  unfold Settings._validate_trade_instruction.
  destruct (existsb _ _) eqn:Hkeys; [discriminate|].
  unfold Settings.and_then.
  destruct (Settings.numeric f (raw_entry_price r)) as [[]|] eqn:H1; [|discriminate].
  destruct (Settings.numeric f (raw_exit_price r)) as [[]|] eqn:H2; [|discriminate].
  destruct (Settings.numeric f (raw_stop_loss r)) as [[]|] eqn:H3; [|discriminate].
  intros H4.
  apply numeric_returns in H1 as (ve & entry & He & Hfe).
  apply numeric_returns in H2 as (vx & exit & Hx & Hfx).
  apply numeric_returns in H3 as (vs & sl & Hs & Hfs).
  apply numeric_returns in H4 as (vl & lot & Hl & Hfl).
  destruct r as [[sym|] oe ox os ol dir com]; cbn in *.
  - subst. exists sym, ve, vx, vs, vl, entry, exit, sl, lot. auto.
  - discriminate.
Qed.

Section FromFile.
Context {W : Type} (env : Env W).

(** With the required fields there and numeric, what is left of
    [add_trade_instruction] is the part from line 85 on. *)
Lemma add_trade_instruction_numeric (st : State W) (sym : pyval)
      (ve vx vs vl : pyval) (dir com : option pyval)
      (entry exit sl lot : float) :
  py_float (str_to_float env) ve = Return entry ->
  py_float (str_to_float env) vx = Return exit ->
  py_float (str_to_float env) vs = Return sl ->
  py_float (str_to_float env) vl = Return lot ->
  TradeExecutor.add_trade_instruction env
    (mkRaw (Some sym) (Some ve) (Some vx) (Some vs) (Some vl) dir com) st
  = (d <- lift_outcome
            (py_lower (default (PyStr (if PrimFloat.ltb entry exit
                                       then "buy" else "sell")) dir)) ;;
     if negb (String.eqb d "buy" || String.eqb d "sell")%bool then
       log ERROR ;;; ret false
     else
       trade_instruction <-
         TradeExecutor.new_instruction sym entry exit sl lot d
           (default (PyStr "Hunter Bot") com) ;;
       with_lock
         (modify_executor (fun e =>
            TradeExecutor.set_instructions
              (trade_instructions e ++ [trade_instruction]) e)) ;;;
       PriceMonitor.add_symbol env sym ;;;
       log INFO ;;;
       ret true) st.
Proof.
  intros Hentry Hexit Hsl Hlot.
  unfold TradeExecutor.add_trade_instruction.
  cbn [existsb TradeExecutor.required_fields TradeExecutor.has_key
       raw_symbol raw_entry_price raw_exit_price raw_stop_loss raw_lot_size
       raw_direction raw_comment String.eqb Ascii.eqb Bool.eqb negb orb].
  rewrite !bool_decide_eq_true_2 by eauto. cbn [negb orb].
  rewrite (bind_return _ _ _ _ _ (coerce_returns env ve entry st Hentry)).
  rewrite (bind_return _ _ _ _ _ (coerce_returns env vx exit st Hexit)).
  rewrite (bind_return _ _ _ _ _ (coerce_returns env vs sl st Hsl)).
  rewrite (bind_return _ _ _ _ _ (coerce_returns env vl lot st Hlot)).
  reflexivity.
Qed.

Lemma validated_taken (r : RawInstruction) (st : State W) :
  Settings._validate_trade_instruction (str_to_float env) r = Return tt ->
  taken_or_direction env r st.
Proof.
  intros Hvalid.
  destruct (validate_returns _ _ Hvalid)
    as (sym & ve & vx & vs & vl & entry & exit & sl & lot & Hr
        & Hentry & Hexit & Hsl & Hlot).
  unfold taken_or_direction. rewrite Hr.
  cbn [raw_direction].
  rewrite (add_trade_instruction_numeric st sym ve vx vs vl _ _ _ _ _ _
             Hentry Hexit Hsl Hlot).
  cbn [raw_symbol].
  assert (Hcases : forall d,
             d = "buy" \/ d = "sell" ->
             forall run : outcome bool * State W,
               run = (if negb (String.eqb d "buy" || String.eqb d "sell")%bool
                      then log ERROR ;;; ret false
                      else
                        trade_instruction <-
                          TradeExecutor.new_instruction sym entry exit sl lot d
                            (default (PyStr "Hunter Bot") (raw_comment r)) ;;
                        with_lock
                          (modify_executor (fun e =>
                             TradeExecutor.set_instructions
                               (trade_instructions e ++ [trade_instruction])
                               e)) ;;;
                        PriceMonitor.add_symbol env sym ;;;
                        log INFO ;;;
                        ret true) st ->
               (exists st', run = (Return true, st'))
               \/ (exists v, Some sym = Some v /\ hashable v = false
                             /\ fst run = Raise TypeError)).
  { intros d Hd run Hrun.
    assert (Hok : negb (String.eqb d "buy" || String.eqb d "sell") = false)
      by (destruct Hd as [-> | ->]; reflexivity).
    rewrite Hok in Hrun. unfold TradeExecutor.new_instruction in Hrun.
    unfold bind at 1 in Hrun. unfold bind at 1, get_executor at 1 in Hrun.
    unfold bind at 1, modify_executor at 1, ret at 1 in Hrun.
    unfold bind at 1, with_lock at 1, acquire, release, modify_executor
      in Hrun.
    cbn [fst snd world monitor executor lock_depth trace] in Hrun.
    unfold bind at 1 in Hrun.
    match type of Hrun with
    | context [PriceMonitor.add_symbol env sym ?s] =>
        destruct (add_symbol_frame env sym s)
          as (o & s' & Hadd & _ & _ & [[b ->]|(-> & Hunhashable & _)]);
        rewrite Hadd in Hrun
    end.
    - left. unfold bind, log, emit, ret in Hrun. cbn in Hrun. eauto.
    - right. exists sym. subst run. auto. }
  destruct (raw_direction r) as [v|] eqn:Hdir; cbn [default].
  - destruct v as [| | | |s|]; cbn [py_lower];
      try (right; right; left; eexists; repeat split; reflexivity).
    unfold bind at 1, lift_outcome at 1.
    unfold bind at 2, lift_outcome at 1.
    destruct (String.eqb (lower s) "buy") eqn:Hb.
    { destruct (Hcases (lower s) (or_introl (proj1 (String.eqb_eq _ _) Hb))
                       _ eq_refl) as [H|H]; [now left|right; now left]. }
    destruct (String.eqb (lower s) "sell") eqn:Hs.
    { destruct (Hcases (lower s) (or_intror (proj1 (String.eqb_eq _ _) Hs))
                       _ eq_refl) as [H|H]; [now left|right; now left]. }
    right; right; right. exists (PyStr s), (lower s).
    split; [reflexivity|]. split; [reflexivity|].
    split; [now apply String.eqb_neq|]. split; [now apply String.eqb_neq|].
    unfold bind at 1, lift_outcome at 1. cbn [py_lower default id].
    rewrite Hb, Hs. reflexivity.
  - cbn [py_lower]. unfold bind at 1, lift_outcome at 1.
    unfold bind at 2, lift_outcome at 1.
    destruct (PrimFloat.ltb entry exit).
    + destruct (Hcases "buy" (or_introl eq_refl) _ eq_refl) as [H|H];
        [now left|right; now left].
    + destruct (Hcases "sell" (or_intror eq_refl) _ eq_refl) as [H|H];
        [now left|right; now left].
Qed.

Lemma fold_validate_raises (f : string -> option float) (l : list RawInstruction)
      (e : exn) :
  fold_left (fun r i => Settings.and_then r (Settings._validate_trade_instruction f i))
            l (Raise e) = Raise e.
Proof. induction l as [|i l IH]; cbn; auto. Qed.

Lemma fold_validate_returns (f : string -> option float) (l : list RawInstruction) :
  fold_left (fun r i => Settings.and_then r (Settings._validate_trade_instruction f i))
            l (Return tt) = Return tt ->
  forall i, In i l -> Settings._validate_trade_instruction f i = Return tt.
Proof.
  induction l as [|j l IH]; cbn; [tauto|].
  destruct (Settings._validate_trade_instruction f j) as [[]|e] eqn:Hj.
  - intros H i [<-|Hin]; auto.
  - now rewrite fold_validate_raises.
Qed.
End FromFile.

(** The loader and the executor agree on the required fields.  Every
    instruction of a file that [load_trade_instructions] has returned is
    taken by [add_trade_instruction], in any state and whatever the broker
    does, unless its direction is refused or its symbol is unhashable (the
    loader looks at no symbol, and [json.load] yields lists and dicts): for
    such a symbol the call leaves with [TypeError] where the broker quotes
    it.  The list returned is the file's.
    And an instruction that [add_trade_instruction] takes passes
    [_validate_trade_instruction]. *)
Theorem loaded_instructions_taken {W} (env : Env W)
        (file : list RawInstruction) :
  (forall loaded,
      Settings.load_trade_instructions (str_to_float env) (Some file)
      = Return loaded ->
      loaded = file
      /\ forall r st, In r loaded -> taken_or_direction env r st)
  /\ (forall r st st',
        TradeExecutor.add_trade_instruction env r st = (Return true, st') ->
        Settings._validate_trade_instruction (str_to_float env) r = Return tt).
Proof.
  split.
  - intros loaded. unfold Settings.load_trade_instructions.
    destruct (fold_left _ file (Return tt)) as [[]|e] eqn:Hfold; [|discriminate].
    intros [= <-]. split; [reflexivity|].
    intros r st Hin. apply validated_taken.
    now apply (fold_validate_returns _ _ Hfold).
  - intros r st st' Hrun.
    unfold TradeExecutor.add_trade_instruction in Hrun.
    unfold Settings._validate_trade_instruction.
    change Settings.required_fields with TradeExecutor.required_fields.
    destruct (existsb _ _); [run; discriminate|].
    destruct r as [[sym|] [ve|] [vx|] [vs|] [vl|] dir com];
      try (run; discriminate).
    cbn [raw_symbol raw_entry_price raw_exit_price raw_stop_loss raw_lot_size
         raw_direction raw_comment] in *.
    unfold bind at 1 in Hrun.
    destruct (coerce_cases env ve st) as [(entry & Hfe & Hc)|[(s1 & Hc & _)|(e & Hc)]];
      rewrite Hc in Hrun; clear Hc; try discriminate.
    unfold bind at 1 in Hrun.
    destruct (coerce_cases env vx st) as [(exit & Hfx & Hc)|[(s1 & Hc & _)|(e & Hc)]];
      rewrite Hc in Hrun; clear Hc; try discriminate.
    unfold bind at 1 in Hrun.
    destruct (coerce_cases env vs st) as [(sl & Hfs & Hc)|[(s1 & Hc & _)|(e & Hc)]];
      rewrite Hc in Hrun; clear Hc; try discriminate.
    unfold bind at 1 in Hrun.
    destruct (coerce_cases env vl st) as [(lot & Hfl & Hc)|[(s1 & Hc & _)|(e & Hc)]];
      rewrite Hc in Hrun; clear Hc; try discriminate.
    unfold Settings.numeric. now rewrite Hfe, Hfx, Hfs, Hfl.
Qed.

Lemma loaded_instructions_taken_witness :
  taken_or_direction (mock_env []) buy_instruction fresh_state
  /\ taken_or_direction steady_env list_symbol_instruction fresh_state.
Proof.
  split.
  - destruct (loaded_instructions_taken (mock_env []) [buy_instruction])
      as [Hload _].
    destruct (Hload [buy_instruction] eq_refl) as [_ Htaken].
    apply Htaken. now left.
  - destruct (loaded_instructions_taken steady_env [list_symbol_instruction])
      as [Hload _].
    destruct (Hload [list_symbol_instruction] eq_refl) as [_ Htaken].
    apply Htaken. now left.
Defined.

(** A file whose one instruction has the lot size "abc" is refused with
    [ValueError]; one with an integer beyond the floats for its entry price
    leaves the loader with [OverflowError]; a missing file is the empty
    list. *)
Example load_trade_instructions_examples :
  Settings.load_trade_instructions (str_to_float (mock_env []))
    (Some [buy_instruction; bad_lot_instruction]) = Raise ValueError
  /\ Settings.load_trade_instructions (str_to_float (mock_env []))
       (Some [huge_entry_instruction]) = Raise OverflowError
  /\ Settings.load_trade_instructions (str_to_float (mock_env [])) None
     = Return []
  /\ Settings.load_trade_instructions (str_to_float (mock_env []))
       (Some [buy_instruction; null_direction_instruction])
     = Return [buy_instruction; null_direction_instruction]
  /\ Settings.load_trade_instructions (str_to_float (mock_env []))
       (Some [list_symbol_instruction])
     = Return [list_symbol_instruction]
  /\ fst (TradeExecutor.add_trade_instruction steady_env
            list_symbol_instruction fresh_state) = Raise TypeError.
Proof. repeat split. Qed.

